(** * Rescale calibration of [nequip/scripts/train.py]

    A shallow embedding of the part of [fresh_start] that decides which
    dataset statistics are needed, computes them, resolves the scale and
    shift values, validates them and assembles the rescaled model
    (train.py, lines 145-293), together with the helpers
    [pop_per_species], [get_per_species] and [set_value].

    Python values are modelled by the inductive type [pyval]; Python
    floats are IEEE binary64 numbers, here Rocq's primitive floats.  The
    configuration object is a finite map from option names to values, read
    with [get], [pop], item assignment and attribute access as a [dict]
    is.  The function threads the configuration (which it mutates) and the
    log of the calls made to [dataset.statistics] through a small state and
    exception monad.

    Outside the source, and so inputs of the model: the field names of
    [AtomicDataDict], the dataset (what it answers to a call of
    [statistics], aggregates that are floats or tensors), and the model
    builder with the initializers.  [RescaleOutput] is the record of the
    arguments it is constructed with.  The trainer's construction, the
    loading of the datasets, logging, compilation, the final configuration
    dump and the training itself are not modelled.

    The rest of the script is embedded beside it: the flags that
    [parse_command_line] merges into the loaded configuration (lines
    64-68), [_load_callable], and [_set_global_options], which acts on the
    global options of torch, e3nn and nequip; these are a state of their
    own, and yaml, CUDA's availability and e3nn's answer are inputs. *)

From Stdlib Require Import ZArith String List Bool.
From Stdlib Require Import Floats.PrimFloat Floats.SpecFloat Floats.FloatOps.
From Stdlib Require Import Floats.FloatAxioms.
From stdpp Require Import base option list gmap strings.

Set Warnings "-inexact-float,-register-all".

Local Open Scope string_scope.
Local Open Scope list_scope.

(** ** Python values *)

(** A [torch.Tensor] of dimension zero (one number) or one (a vector).
    Elements are binary64 numbers ([default_dtype: float64]). *)
Inductive tensor : Type :=
| Tensor0 (x : float)
| Tensor1 (xs : list float).

Inductive pyval : Type :=
| VNone
| VBool (b : bool)
| VInt (n : Z)
| VFloat (x : float)
| VStr (s : string)
| VTensor (t : tensor)
| VList (l : list pyval)
| VDict (d : list (string * pyval)).

(** The exceptions the modelled code raises.  [ValueError] carries which of
    the script's five messages it is. *)
Inductive value_error : Type :=
| OnlyOneShift
    (* "One can only enable either global shift or per_species shift" *)
| ForceRmsWithoutForceTraining
    (* "Cannot have global_scale = 'dataset_force_rms' without force training" *)
| GlobalScalingVeryLow (global_scale : float)
    (* "Global energy scaling was very low: {global_scale}. ..." *)
| AtomicScalingVeryLow (min_scales : float)
    (* "Atomic energy scaling was very low: {torch.min(scales)}. ..." *)
| Invalid (variable_name : string) (variable : pyval)
    (* "Invalid {variable_name} `{variable}`" *)
| Unpack.
    (* a statistics result that does not destructure as the script expects *)

Inductive exn : Type :=
| NotImplementedError
| ValueError (m : value_error)
| TypeError
| RuntimeError
| ZeroDivisionError
| OverflowError
| KeyError (k : string)
| BuilderError.
    (* whatever the model builder or an initializer raises *)

Inductive result (A : Type) : Type :=
| Ok (a : A)
| Raise (e : exn).
Arguments Ok {A} a.
Arguments Raise {A} e.

(** ** Python primitives used by the script *)

Definition is_none (v : pyval) : bool :=
  match v with VNone => true | _ => false end.

(** [isinstance(v, str)] *)
Definition isinstance_str (v : pyval) : bool :=
  match v with VStr _ => true | _ => false end.

(** [isinstance(v, float)]: [int] and [bool] are not [float]. *)
Definition isinstance_float (v : pyval) : bool :=
  match v with VFloat _ => true | _ => false end.

(** [isinstance(v, torch.Tensor)] *)
Definition isinstance_Tensor (v : pyval) : bool :=
  match v with VTensor _ => true | _ => false end.

(** [v == s] for a string [s]: only a string is equal to a string. *)
Definition eq_str (v : pyval) (s : string) : bool :=
  match v with VStr s' => String.eqb s' s | _ => false end.

(** [s[n:]] *)
Fixpoint str_slice_from (n : nat) (s : string) : string :=
  match n, s with
  | O, _ => s
  | S n', String _ s' => str_slice_from n' s'
  | S _, EmptyString => EmptyString
  end.

(** [s.startswith(p)] *)
Definition startswith (s p : string) : bool := String.prefix p s.

Definition float_is_zero (x : float) : bool := PrimFloat.eqb x 0%float.

(** Truth value of an object, as [if v:] computes it.  A tensor has a truth
    value only when it holds exactly one number. *)
Definition truth (v : pyval) : result bool :=
  match v with
  | VNone => Ok false
  | VBool b => Ok b
  | VInt n => Ok (negb (Z.eqb n 0))
  | VFloat x => Ok (negb (float_is_zero x))
  | VStr s => Ok (negb (String.eqb s ""))
  | VTensor (Tensor0 x) => Ok (negb (float_is_zero x))
  | VTensor (Tensor1 (x :: nil)) => Ok (negb (float_is_zero x))
  | VTensor (Tensor1 _) => Raise RuntimeError
  | VList l => Ok (match l with nil => false | _ => true end)
  | VDict d => Ok (match d with nil => false | _ => true end)
  end.

(** [float(n)] for an [int]: the nearest binary64 number, [OverflowError]
    beyond the range. *)
Definition float_of_int (n : Z) : result float :=
  let x := SF2Prim (binary_normalize prec emax n 0 false) in
  if PrimFloat.is_infinity x then Raise OverflowError else Ok x.

Definition tensor_map (f : float -> float) (t : tensor) : tensor :=
  match t with
  | Tensor0 x => Tensor0 (f x)
  | Tensor1 xs => Tensor1 (map f xs)
  end.

(** Elementwise quotient of two tensors, with torch's broadcasting of a
    one-number operand. *)
Definition tensor_div (a b : tensor) : result tensor :=
  match a, b with
  | Tensor0 x, _ => Ok (tensor_map (fun y => PrimFloat.div x y) b)
  | _, Tensor0 y => Ok (tensor_map (fun x => PrimFloat.div x y) a)
  | Tensor1 (x :: nil), Tensor1 ys => Ok (Tensor1 (map (fun y => PrimFloat.div x y) ys))
  | Tensor1 xs, Tensor1 (y :: nil) => Ok (Tensor1 (map (fun x => PrimFloat.div x y) xs))
  | Tensor1 xs, Tensor1 ys =>
      if Nat.eqb (length xs) (length ys)
      then Ok (Tensor1 (map (fun p => PrimFloat.div (fst p) (snd p)) (combine xs ys)))
      else Raise RuntimeError
  end.

(** [a / b] for the operands that reach the two divisions of the script: the
    numerator is a resolved per-species value (a float or a tensor) and the
    denominator is [gs], the [int] 1 or the resolved global scale (a float
    or a tensor).  A float divided by a float is Python's division; a
    tensor divided by a number is torch's true division, entry by entry; a
    float divided by a tensor is [Tensor.__rtruediv__], the reciprocal of
    each entry times the float.  Any other pair of operands is answered
    [TypeError]. *)
Definition truediv (a b : pyval) : result pyval :=
  match a, b with
  | VFloat x, VFloat y =>
      if float_is_zero y then Raise ZeroDivisionError else Ok (VFloat (PrimFloat.div x y))
  | VFloat x, VInt n =>
      match float_of_int n with
      | Ok y => if float_is_zero y then Raise ZeroDivisionError
                else Ok (VFloat (PrimFloat.div x y))
      | Raise e => Raise e
      end
  | VFloat x, VTensor t =>
      Ok (VTensor (tensor_map (fun y => PrimFloat.mul (PrimFloat.div 1 y) x) t))
  | VTensor t, VFloat y => Ok (VTensor (tensor_map (fun x => PrimFloat.div x y) t))
  | VTensor t, VInt n =>
      match float_of_int n with
      | Ok y => Ok (VTensor (tensor_map (fun x => PrimFloat.div x y) t))
      | Raise e => Raise e
      end
  | VTensor t, VTensor u =>
      match tensor_div t u with
      | Ok r => Ok (VTensor r)
      | Raise e => Raise e
      end
  | _, _ => Raise TypeError
  end.

(** The smaller of two numbers as [torch.min] reduces them: a NaN wins. *)
Definition min2 (a b : float) : float :=
  if PrimFloat.is_nan a then a
  else if PrimFloat.is_nan b then b
  else if PrimFloat.ltb b a then b else a.

(** [torch.min(v)]: the least entry, as a number.  Only a non-empty tensor
    has one. *)
Definition torch_min (v : pyval) : result float :=
  match v with
  | VTensor (Tensor0 x) => Ok x
  | VTensor (Tensor1 nil) => Raise RuntimeError
  | VTensor (Tensor1 (x :: xs)) => Ok (fold_left min2 xs x)
  | _ => Raise TypeError
  end.

(** ** The state and exception monad *)

(** One call [dataset.statistics(fields=..., modes=..., stride=..., **kwargs)]. *)
Record stat_call : Type := StatCall {
  fields : list string;
  modes : list string;
  stride : pyval;
  kwargs : list (string * pyval)
}.

(** The configuration, mutated in place by the script, and the calls made to
    [trainer.dataset_train.statistics] so far, the latest first. *)
Record state : Type := State {
  config : gmap string pyval;
  calls : list stat_call
}.

Definition M (A : Type) : Type := state -> state * result A.

Definition pure {A : Type} (a : A) : M A := fun st => (st, Ok a).

#[global] Instance M_ret : MRet M := @pure.
#[global] Instance M_bind : MBind M := fun A B f m st =>
  match m st with
  | (st', Ok a) => f a st'
  | (st', Raise e) => (st', Raise e)
  end.

Definition raise {A : Type} (e : exn) : M A := fun st => (st, Raise e).

Definition lift {A : Type} (r : result A) : M A := fun st => (st, r).

(** [config.get(key, default)] *)
Definition config_get (key : string) (default : pyval) : M pyval :=
  fun st =>
    (st, Ok (match config st !! key with Some v => v | None => default end)).

(** [config.pop(key, default)] *)
Definition config_pop (key : string) (default : pyval) : M pyval :=
  fun st =>
    (State (delete key (config st)) (calls st),
     Ok (match config st !! key with Some v => v | None => default end)).

(** [config[key] = value] *)
Definition config_setitem (key : string) (value : pyval) : M unit :=
  fun st => (State (<[key := value]> (config st)) (calls st), Ok tt).

(** [config.key], an option that must be present. *)
Definition config_getattr (key : string) : M pyval :=
  fun st =>
    (st, match config st !! key with Some v => Ok v | None => Raise (KeyError key) end).

(** ** Helpers of the script *)

(** [set(v)]: the elements [v] iterates over; building the set hashes each
    of them.  Only membership in the set is observed afterwards, so the
    elements are kept as a list. *)
Definition hashable (v : pyval) : bool :=
  match v with VList _ | VDict _ => false | _ => true end.

Definition set_of (v : pyval) : result (list pyval) :=
  match v with
  | VList l => if forallb hashable l then Ok l else Raise TypeError
  | VDict d => Ok (map (fun kv => VStr (fst kv)) d)
  | VStr s => Ok (map (fun c => VStr (String c EmptyString)) (list_ascii_of_string s))
  | VTensor (Tensor1 xs) => Ok (map (fun x => VTensor (Tensor0 x)) xs)
  | VTensor (Tensor0 _) | VNone | VBool _ | VInt _ | VFloat _ => Raise TypeError
  end.

(** [s.issubset(names)] and [name in s] for a set [s] and strings. *)
Definition issubset (s : list pyval) (names : list string) : bool :=
  forallb (fun v => existsb (eq_str v) names) s.

Definition set_contains (s : list pyval) (name : string) : bool :=
  existsb (fun v => eq_str v name) s.

(** [get_per_species(config, key, default)], train.py lines 334-338: the
    inner [get] is the default of the outer one. *)
Definition get_per_species (key : string) (default : pyval) : M pyval :=
  inner ← config_get ("per_species_scale_shift_" +:+ key) default;
  config_get ("PerSpeciesScaleShift_" +:+ key) inner.

(** [pop_per_species(config, key, default)], train.py lines 327-331: both
    spellings are removed from the configuration. *)
Definition pop_per_species (key : string) (default : pyval) : M pyval :=
  inner ← config_pop ("per_species_scale_shift_" +:+ key) default;
  config_pop ("PerSpeciesScaleShift_" +:+ key) inner.

(** [set_value(variable, variable_name, value_dict)], train.py lines
    341-351.  [value_dict] is the dictionary's items in order. *)
Fixpoint set_value (variable : pyval) (variable_name : string)
    (value_dict : list (string * pyval)) : result pyval :=
  match value_dict with
  | (key, value) :: items =>
      if eq_str variable key then Ok value
      else set_value variable variable_name items
  | nil =>
      if is_none variable || isinstance_float variable || isinstance_Tensor variable
      then Ok variable
      else Raise (ValueError (Invalid variable_name variable))
  end.

(** [d[key] = value] on a dictionary's items. *)
Fixpoint dict_setitem (key : string) (value : pyval)
    (d : list (string * pyval)) : list (string * pyval) :=
  match d with
  | nil => (key, value) :: nil
  | (k, v) :: items =>
      if String.eqb k key then (k, value) :: items
      else (k, v) :: dict_setitem key value items
  end.

(** Destructuring [((a,),) = r] and [((a, b),) = r]. *)
Definition unpack1 (r : list (list pyval)) : result pyval :=
  match r with
  | (a :: nil) :: nil => Ok a
  | _ => Raise (ValueError Unpack)
  end.

Definition unpack2 (r : list (list pyval)) : result (pyval * pyval) :=
  match r with
  | (a :: b :: nil) :: nil => Ok (a, b)
  | _ => Raise (ValueError Unpack)
  end.

Definition RESCALE_THRESHOLD : float := 1e-6%float.

(** An aggregate the dataset returns: a number or a tensor. *)
Inductive aggregate : Type :=
| AFloat (x : float)
| ATensor (t : tensor).

Definition aggregate_val (a : aggregate) : pyval :=
  match a with AFloat x => VFloat x | ATensor t => VTensor t end.

(** The core model, seen through the names of the outputs it declares
    ([core_model.irreps_out]). *)
Record core_model : Type := CoreModel { irreps_out : list string }.

(** The arguments [RescaleOutput] is constructed with. *)
Record RescaleOutput : Type := MkRescaleOutput {
  model : core_model;
  scale_keys : list string;
  scale_by : pyval;
  shift_keys : string;
  shift_by : pyval;
  trainable_global_rescale_shift : pyval;
  trainable_global_rescale_scale : pyval
}.

(** The values bound by "Determine energy rescale type", lines 158-166. *)
Record rescale_type : Type := RescaleType {
  global_shift : pyval;
  global_scale : pyval;
  per_species_scale_shift : pyval;
  scales : pyval;
  shifts : pyval;
  sigma : pyval
}.

(** ** [fresh_start], from "Determine training type" to the assembled model *)

(** The state a run starts from: no statistics computed yet. *)
Definition init (cfg : gmap string pyval) : state := State cfg nil.

(** What the script receives from its collaborators: the field names of
    [nequip.data.AtomicDataDict], which it only imports;
    [trainer.dataset_train.statistics], what the training split answers to a
    call, a sequence of tuples of aggregates; and, for lines 261-268, the
    model builder named by the configuration, applied to the configuration
    and followed by the initializers the configuration names ([None] when
    one of them raises).  The two options themselves are read by the
    script, see [build_core_model]. *)
Class Collaborators : Type := {
  TOTAL_ENERGY_KEY : string;
  FORCE_KEY : string;
  PER_ATOM_ENERGY_KEY : string;
  dataset_train : stat_call -> list (list aggregate);
  model_builder : gmap string pyval -> option core_model
}.

Section FreshStart.

Context `{W : Collaborators}.

Definition statistics (c : stat_call) : M (list (list pyval)) :=
  fun st =>
    (State (config st) (c :: calls st), Ok (map (map aggregate_val) (dataset_train c))).

(** Lines 145-155, "Determine training type": the value of [force_training]. *)
Definition determine_training_type : M bool :=
  train_on ← config_getattr "loss_coeffs";
  let train_on := if isinstance_str train_on then VList (train_on :: nil) else train_on in
  train_on ← lift (set_of train_on);
  if negb (issubset train_on ("forces" :: "total_energy" :: nil))
  then raise NotImplementedError
  else pure (set_contains train_on "forces").

(** Lines 158-169, "Determine energy rescale type". *)
Definition determine_rescale_type (force_training : bool) : M rescale_type :=
  global_shift ← config_get "global_rescale_shift" (VStr "dataset_energy_mean");
  global_scale ← config_get "global_rescale_scale"
    (VStr (if force_training then "dataset_force_rms" else "dataset_energy_std"));
  per_species_scale_shift ← get_per_species "enable" (VBool false);
  scales ← pop_per_species "scales" VNone;
  shifts ← pop_per_species "shifts" VNone;
  sigma ← pop_per_species "sigma" VNone;
  both ← (if is_none global_shift then pure false else lift (truth per_species_scale_shift));
  if both : bool then raise (ValueError OnlyOneShift)
  else pure (RescaleType global_shift global_scale per_species_scale_shift
               scales shifts sigma).

(** Lines 174-175: what one of the four variables adds to [keys]. *)
Definition statistic_key (variable : pyval) : list string :=
  match variable with
  | VStr v =>
      if startswith v "dataset"
      then str_slice_from (String.length "dataset_") v :: nil
      else nil
  | _ => nil
  end.

(** Lines 172-176: [keys], as a set. *)
Definition statistics_keys (r : rescale_type) : gset string :=
  list_to_set
    (flat_map statistic_key
       (global_shift r :: global_scale r :: scales r :: shifts r :: nil)).

(** Everything the script has determined when it reaches line 177. *)
Record requirements : Type := Requirements {
  force_training : bool;
  rescale : rescale_type;
  keys : gset string
}.

(** Lines 145-176. *)
Definition determine_statistics : M requirements :=
  force_training ← determine_training_type;
  r ← determine_rescale_type force_training;
  pure (Requirements force_training r (statistics_keys r)).

(** Lines 184-190: the pass for [force_rms]. *)
Definition force_rms_statistics (keys : gset string)
    (dataset_statistics : list (string * pyval)) : M (list (string * pyval)) :=
  if decide ("force_rms" ∈ keys) then
    stride ← config_getattr "dataset_statistics_stride";
    r ← statistics (StatCall (FORCE_KEY :: nil) ("rms" :: nil) stride nil);
    rms ← lift (unpack1 r);
    pure (dict_setitem "dataset_force_rms" rms dataset_statistics)
  else pure dataset_statistics.

(** Lines 191-198: the pass for [energy_mean] and [energy_std]. *)
Definition energy_statistics (keys : gset string)
    (dataset_statistics : list (string * pyval)) : M (list (string * pyval)) :=
  if decide ("energy_std" ∈ keys ∨ "energy_mean" ∈ keys) then
    stride ← config_getattr "dataset_statistics_stride";
    r ← statistics (StatCall (TOTAL_ENERGY_KEY :: nil) ("mean_std" :: nil) stride nil);
    '(mean, std) ← lift (unpack2 r);
    pure (dict_setitem "dataset_energy_std" std
            (dict_setitem "dataset_energy_mean" mean dataset_statistics))
  else pure dataset_statistics.

(** Lines 199-209: the pass for [per_species_energy_mean] and
    [per_species_energy_std]. *)
Definition per_species_statistics (keys : gset string) (sigma : pyval)
    (dataset_statistics : list (string * pyval)) : M (list (string * pyval)) :=
  if decide ("per_species_energy_std" ∈ keys ∨ "per_species_energy_mean" ∈ keys) then
    algorithm_kwargs ← get_per_species "algorithm_kwargs" (VDict nil);
    stride ← config_getattr "dataset_statistics_stride";
    r ← statistics
          (StatCall (TOTAL_ENERGY_KEY :: nil) ("atom_type_mean_std" :: nil) stride
             (("sigma", sigma) :: ("algorithm_kwargs", algorithm_kwargs) :: nil));
    '(mean, std) ← lift (unpack2 r);
    pure (dict_setitem "dataset_per_species_energy_std" std
            (dict_setitem "dataset_per_species_energy_mean" mean dataset_statistics))
  else pure dataset_statistics.

(** Lines 183-209, "Get statistics of training dataset". *)
Definition get_statistics (keys : gset string) (sigma : pyval)
  : M (list (string * pyval)) :=
  dataset_statistics ← force_rms_statistics keys nil;
  dataset_statistics ← energy_statistics keys dataset_statistics;
  per_species_statistics keys sigma dataset_statistics.

(** The resolved global values, with what they were resolved from. *)
Record resolved : Type := Resolved {
  req : requirements;
  dataset_statistics : list (string * pyval);
  resolved_shift : pyval;
  resolved_scale : pyval
}.

(** Lines 145-225: up to the two global calls of [set_value]. *)
Definition resolve_global : M resolved :=
  q ← determine_statistics;
  if bool_decide ("force_rms" ∈ keys q) && negb (force_training q)
  then raise (ValueError ForceRmsWithoutForceTraining)
  else
    dataset_statistics ← get_statistics (keys q) (sigma (rescale q));
    shift ← lift (set_value (global_shift (rescale q)) "global_shift" dataset_statistics);
    scale ← lift (set_value (global_scale (rescale q)) "global_scale" dataset_statistics);
    pure (Resolved q dataset_statistics shift scale).

(** Lines 227-231: the threshold on the global scale. *)
Definition check_global_scale (global_scale : pyval) : M unit :=
  match global_scale with
  | VFloat x =>
      if PrimFloat.ltb x RESCALE_THRESHOLD
      then raise (ValueError (GlobalScalingVeryLow x))
      else pure tt
  | _ => pure tt
  end.

(** The per-species values after their two calls of [set_value]. *)
Record per_species : Type := PerSpecies {
  gs : pyval;
  resolved_scales : pyval;
  resolved_shifts : pyval
}.

(** Lines 235-248: the two per-species calls of [set_value]; [None] when
    per-species scale and shift are not enabled. *)
Definition per_species_values (g : resolved) : M (option per_species) :=
  enabled ← lift (truth (per_species_scale_shift (rescale (req g))));
  if enabled : bool then
    let gs := if is_none (resolved_scale g) then VInt 1 else resolved_scale g in
    scales ← lift (set_value (scales (rescale (req g))) "per_species_scales"
                     (dataset_statistics g));
    shifts ← lift (set_value (shifts (rescale (req g))) "per_species_shifts"
                     (dataset_statistics g));
    pure (Some (PerSpecies gs scales shifts))
  else pure None.

(** Lines 145-248: up to the two per-species calls of [set_value]. *)
Definition resolve_per_species : M (resolved * option per_species) :=
  g ← resolve_global;
  _ ← check_global_scale (resolved_scale g);
  p ← per_species_values g;
  pure (g, p).

(** Lines 249-255: the threshold on the per-species scales, then the two
    values written back to the configuration. *)
Definition store_per_species (p : per_species) : M unit :=
  low ← (if is_none (resolved_scales p) then pure false
         else m ← lift (torch_min (resolved_scales p));
              pure (PrimFloat.ltb m RESCALE_THRESHOLD));
  if low : bool then
    m ← lift (torch_min (resolved_scales p));
    raise (ValueError (AtomicScalingVeryLow m))
  else
    v ← (if is_none (resolved_scales p) then pure VNone
         else lift (truediv (resolved_scales p) (gs p)));
    _ ← config_setitem "PerSpeciesScaleShift_scales" v;
    v ← (if is_none (resolved_shifts p) then pure VNone
         else lift (truediv (resolved_shifts p) (gs p)));
    config_setitem "PerSpeciesScaleShift_shifts" v.

(** Lines 271-293: the keys to rescale. *)
Definition rescale_keys (m : core_model) : list string :=
  (TOTAL_ENERGY_KEY :: nil)
  ++ (if decide (FORCE_KEY ∈ irreps_out m) then FORCE_KEY :: nil else nil)
  ++ (if decide (PER_ATOM_ENERGY_KEY ∈ irreps_out m) then PER_ATOM_ENERGY_KEY :: nil
      else nil).

(** The builder and the initializers at work, on the configuration as it
    is. *)
Definition call_model_builder : M core_model :=
  fun st =>
    (st, match model_builder (config st) with
         | Some m => Ok m
         | None => Raise BuilderError
         end).

(** Lines 261-268, "Build a model" and "Reinit if wanted".  The script
    reads [config.model_builder] before the builder is called and
    [config.model_initializers] after it; each read fails with [KeyError]
    when the option is absent.  With the option present the second read
    cannot fail, and with it absent there are no initializers to go
    before it, so it stands after the collaborators' work. *)
Definition build_core_model : M core_model :=
  _ ← config_getattr "model_builder";
  core_model ← call_model_builder;
  _ ← config_getattr "model_initializers";
  pure core_model.

(** Lines 261-293: the core model wrapped in [RescaleOutput]. *)
Definition assemble (g : resolved) : M RescaleOutput :=
  core_model ← build_core_model;
  trainable_shift ← config_get "trainable_global_rescale_shift" (VBool false);
  trainable_scale ← config_get "trainable_global_rescale_scale" (VBool false);
  pure (MkRescaleOutput core_model (rescale_keys core_model) (resolved_scale g)
          TOTAL_ENERGY_KEY (resolved_shift g) trainable_shift trainable_scale).

(** Lines 145-293 of [fresh_start]: the assembled model. *)
Definition fresh_start : M RescaleOutput :=
  '(g, p) ← resolve_per_species;
  _ ← match p with Some p => store_per_species p | None => pure tt end;
  assemble g.

(** A run of the script on a configuration. *)
Definition run (cfg : gmap string pyval) : state * result RescaleOutput :=
  fresh_start (init cfg).

End FreshStart.

(** ** Notions the properties are stated with *)

(** The value [get_per_species] and [pop_per_species] find for [key]: the
    [PerSpeciesScaleShift_] spelling wins over [per_species_scale_shift_]. *)
Definition per_species_option (cfg : gmap string pyval) (key : string)
    (default : pyval) : pyval :=
  match cfg !! ("PerSpeciesScaleShift_" +:+ key) with
  | Some v => v
  | None =>
      match cfg !! ("per_species_scale_shift_" +:+ key) with
      | Some v => v
      | None => default
      end
  end.

(** [loss_coeffs] names the training field [f]: it is that string, a list
    holding it, or a dictionary with that key. *)
Definition names_field (loss_coeffs : pyval) (f : string) : Prop :=
  match loss_coeffs with
  | VStr s => s = f
  | VList l => VStr f ∈ l
  | VDict d => f ∈ map fst d
  | _ => False
  end.

(** The four values the statistics requirements are read from. *)
Definition slots (r : rescale_type) : list pyval :=
  global_shift r :: global_scale r :: scales r :: shifts r :: nil.

(** The statistic families and the [modes] of the pass that computes each. *)
Definition family (name : string) : option string :=
  if String.eqb name "force_rms" then Some "rms"
  else if String.eqb name "energy_mean" || String.eqb name "energy_std"
  then Some "mean_std"
  else if String.eqb name "per_species_energy_mean"
          || String.eqb name "per_species_energy_std"
  then Some "atom_type_mean_std"
  else None.

(** [d[key]] on a dictionary's items. *)
Fixpoint dict_get (key : string) (d : list (string * pyval)) : option pyval :=
  match d with
  | nil => None
  | (k, v) :: items => if String.eqb k key then Some v else dict_get key items
  end.



(** A step that makes no call to the dataset. *)
Definition keeps_calls {A : Type} (m : M A) : Prop :=
  forall st, calls (fst (m st)) = calls st.



(** [l] holds no call, or the one call of a pass with mode [mode], which the
    condition [P] allows. *)
Definition at_most_one (mode : string) (P : Prop) (l : list stat_call) : Prop :=
  l = nil \/ (P /\ exists c, l = c :: nil /\ modes c = mode :: nil).

(** The calls of lines 183-209: at most one per pass, in the order of the
    script (the latest first), each allowed by [keys]. *)
Definition passes (keys : gset string) (l : list stat_call) : Prop :=
  exists l1 l2 l3,
    l = l3 ++ l2 ++ l1
    /\ at_most_one "rms" ("force_rms" ∈ keys) l1
    /\ at_most_one "mean_std" ("energy_std" ∈ keys \/ "energy_mean" ∈ keys) l2
    /\ at_most_one "atom_type_mean_std"
         ("per_species_energy_std" ∈ keys \/ "per_species_energy_mean" ∈ keys) l3.

(** The value written back for a resolved per-species value [v]. *)
Definition relative (v gs : pyval) : result pyval :=
  if is_none v then Ok VNone else truediv v gs.



(** ** Sample inputs *)

Definition sample_dataset (c : stat_call) : list (list aggregate) :=
  match modes c with
  | "rms" :: nil => (AFloat 2.5 :: nil) :: nil
  | "mean_std" :: nil => (AFloat (-3) :: AFloat 0.5 :: nil) :: nil
  | _ =>
      (ATensor (Tensor1 (1 :: 2 :: nil)%float)
       :: ATensor (Tensor1 (4 :: 6 :: nil)%float) :: nil) :: nil
  end.

Definition sample_builder (cfg : gmap string pyval) : option core_model :=
  Some (CoreModel ("total_energy" :: "forces" :: nil)).

Definition sample : Collaborators := {|
  TOTAL_ENERGY_KEY := "total_energy";
  FORCE_KEY := "forces";
  PER_ATOM_ENERGY_KEY := "atomic_energy";
  dataset_train := sample_dataset;
  model_builder := sample_builder
|}.

(** [loss_coeffs: forces], [dataset_statistics_stride: 1], and the builder
    and initializers of [default_config]. *)
Definition sample_config : gmap string pyval :=
  <["loss_coeffs" := VStr "forces"]>
    (<["dataset_statistics_stride" := VInt 1]>
       (<["model_builder" := VStr "nequip.models.ForceModel"]>
          (<["model_initializers" := VList nil]> ∅))).

(** [per_species_scale_shift_enable: true] besides, the global shift left
    to its default. *)
Definition conflict_config : gmap string pyval :=
  <["per_species_scale_shift_enable" := VBool true]> sample_config.



(** [global_rescale_scale: 1], an integer. *)
Definition int_scale_config : gmap string pyval :=
  <["global_rescale_scale" := VInt 1]> sample_config.

(** [global_rescale_scale: dataset-force_rms], the prefix without its
    underscore. *)
Definition hyphen_config : gmap string pyval :=
  <["global_rescale_scale" := VStr "dataset-force_rms"]> sample_config.

(** Both global values asking for the same statistic. *)
Definition shared_config : gmap string pyval :=
  <["global_rescale_shift" := VStr "dataset_energy_std"]>
    (<["global_rescale_scale" := VStr "dataset_energy_std"]> sample_config).

(** Per-species scale/shift enabled, no global shift, global scale 2.0, the
    per-species scales measured: the dataset answers [4.0, 6.0]. *)
Definition per_species_config : gmap string pyval :=
  <["global_rescale_shift" := VNone]>
    (<["global_rescale_scale" := VFloat 2]>
       (<["per_species_scale_shift_scales" := VStr "dataset_per_species_energy_std"]>
          (<["per_species_scale_shift_shifts" := VStr "dataset_per_species_energy_mean"]>
             (<["per_species_scale_shift_enable" := VBool true]> sample_config)))).

(** [loss_coeffs: total_energy] with [global_rescale_scale:
    dataset_force_rms]. *)
Definition energy_only_config : gmap string pyval :=
  <["loss_coeffs" := VStr "total_energy"]>
    (<["global_rescale_scale" := VStr "dataset_force_rms"]> sample_config).

(** [loss_coeffs: {stress: 1.0}]. *)
Definition stress_config : gmap string pyval :=
  <["loss_coeffs" := VDict (("stress", VFloat 1) :: nil)]> sample_config.

(** ** Further notions *)

(** A step that leaves the configuration as it is. *)
Definition keeps_config {A : Type} (m : M A) : Prop :=
  forall st, config (fst (m st)) = config st.

(** A step that changes the configuration at most at the keys [K]. *)
Definition touches_only {A : Type} (K : list string) (m : M A) : Prop :=
  forall st k, k ∉ K -> config (fst (m st)) !! k = config st !! k.

(** The six options lines 164-166 pop. *)
Definition popped_keys : list string :=
  "per_species_scale_shift_scales" :: "PerSpeciesScaleShift_scales"
  :: "per_species_scale_shift_shifts" :: "PerSpeciesScaleShift_shifts"
  :: "per_species_scale_shift_sigma" :: "PerSpeciesScaleShift_sigma" :: nil.

(** The configuration once lines 164-166 have popped them. *)
Definition popped (cfg : gmap string pyval) : gmap string pyval :=
  delete "PerSpeciesScaleShift_sigma"
    (delete "per_species_scale_shift_sigma"
       (delete "PerSpeciesScaleShift_shifts"
          (delete "per_species_scale_shift_shifts"
             (delete "PerSpeciesScaleShift_scales"
                (delete "per_species_scale_shift_scales" cfg))))).

(** The key of the statistics mapping is one of the five the script stores. *)
Definition stored_key (key : string) : Prop :=
  key = "dataset_force_rms"
  \/ key = "dataset_energy_mean" \/ key = "dataset_energy_std"
  \/ key = "dataset_per_species_energy_mean"
  \/ key = "dataset_per_species_energy_std".

(** The three calls of lines 185-207, for a stride: the forces are asked
    for their rms, the total energy for the other two modes, and only the
    per-species pass gets keyword arguments. *)
Definition rms_call `{W : Collaborators} (stride : pyval) : stat_call :=
  StatCall (FORCE_KEY :: nil) ("rms" :: nil) stride nil.

Definition mean_std_call `{W : Collaborators} (stride : pyval) : stat_call :=
  StatCall (TOTAL_ENERGY_KEY :: nil) ("mean_std" :: nil) stride nil.

Definition atom_type_mean_std_call `{W : Collaborators}
    (stride sigma algorithm_kwargs : pyval) : stat_call :=
  StatCall (TOTAL_ENERGY_KEY :: nil) ("atom_type_mean_std" :: nil) stride
    (("sigma", sigma) :: ("algorithm_kwargs", algorithm_kwargs) :: nil).

(** The calls the script can make on a configuration whose popped [sigma]
    option is [sigma]: one of the three, with the configuration's stride
    and [algorithm_kwargs]. *)
Definition called `{W : Collaborators} (cfg : gmap string pyval)
    (sigma : pyval) (c : stat_call) : Prop :=
  exists stride,
    cfg !! "dataset_statistics_stride" = Some stride
    /\ (c = rms_call stride
        \/ c = mean_std_call stride
        \/ c = atom_type_mean_std_call stride sigma
                 (per_species_option cfg "algorithm_kwargs" (VDict nil))).

(** The same on the initial configuration, [sigma] being its option. *)
Definition expected_call `{W : Collaborators} (cfg : gmap string pyval)
    (c : stat_call) : Prop :=
  called cfg (per_species_option cfg "sigma" VNone) c.

(** The first, the second and the only aggregate of a one-tuple result. *)
Definition first_of (r : list (list aggregate)) : option pyval :=
  match r with
  | (a :: _ :: nil) :: nil => Some (aggregate_val a)
  | _ => None
  end.

Definition second_of (r : list (list aggregate)) : option pyval :=
  match r with
  | (_ :: b :: nil) :: nil => Some (aggregate_val b)
  | _ => None
  end.

Definition only_of (r : list (list aggregate)) : option pyval :=
  match r with
  | (a :: nil) :: nil => Some (aggregate_val a)
  | _ => None
  end.

(** The aggregate the dataset returns for a key of the statistics mapping:
    the one number of the rms pass, the first (mean) or second (std) number
    of the other two passes. *)
Definition measured_with `{W : Collaborators} (cfg : gmap string pyval)
    (sigma algorithm_kwargs : pyval) (key : string) : option pyval :=
  match cfg !! "dataset_statistics_stride" with
  | None => None
  | Some stride =>
      let per_species :=
        dataset_train (atom_type_mean_std_call stride sigma algorithm_kwargs) in
      if String.eqb key "dataset_force_rms"
      then only_of (dataset_train (rms_call stride))
      else if String.eqb key "dataset_energy_mean"
      then first_of (dataset_train (mean_std_call stride))
      else if String.eqb key "dataset_energy_std"
      then second_of (dataset_train (mean_std_call stride))
      else if String.eqb key "dataset_per_species_energy_mean"
      then first_of per_species
      else if String.eqb key "dataset_per_species_energy_std"
      then second_of per_species
      else None
  end.

(** The same with the [sigma] and [algorithm_kwargs] options of the
    initial configuration. *)
Definition measured `{W : Collaborators} (cfg : gmap string pyval)
    (key : string) : option pyval :=
  measured_with cfg (per_species_option cfg "sigma" VNone)
    (per_species_option cfg "algorithm_kwargs" (VDict nil)) key.

(** What a pass adds to the statistics mapping is what the dataset
    returned. *)
Definition adds_measured `{W : Collaborators} (cfg : gmap string pyval)
    (sigma kw : pyval) (d d' : list (string * pyval)) : Prop :=
  forall key v, dict_get key d' = Some v ->
    dict_get key d = Some v \/ measured_with cfg sigma kw key = Some v.

(** The global shift and scale of lines 158-162: the option, or the
    placeholder that is its default. *)
Definition global_shift_option (cfg : gmap string pyval) : pyval :=
  match cfg !! "global_rescale_shift" with
  | Some v => v
  | None => VStr "dataset_energy_mean"
  end.

Definition global_scale_option (cfg : gmap string pyval) (force_training : bool)
  : pyval :=
  match cfg !! "global_rescale_scale" with
  | Some v => v
  | None => VStr (if force_training then "dataset_force_rms" else "dataset_energy_std")
  end.

(** A slot value and what it stands for: a string stands for the aggregate
    measured under that key, anything else for itself. *)
Definition stands_for `{W : Collaborators} (cfg : gmap string pyval)
    (slot v : pyval) : Prop :=
  match slot with
  | VStr key => measured cfg key = Some v
  | _ => v = slot
  end.

(** A step that leaves the configuration as it is and makes only the calls
    [called] allows. *)
Definition calls_well `{W : Collaborators} {A : Type} (sigma : pyval) (m : M A)
  : Prop :=
  forall st,
    config (fst (m st)) = config st
    /\ forall c, c ∈ calls (fst (m st)) -> c ∈ calls st \/ called (config st) sigma c.

(** The values [set_value] returns as they are. *)
Definition passes_through (v : pyval) : bool :=
  is_none v || isinstance_float v || isinstance_Tensor v.

(** [v] is the value the configuration gives for the role [name] of
    [set_value]; the per-species roles are played only when per-species
    scale/shift is enabled. *)
Definition role_slot `{W : Collaborators} (cfg : gmap string pyval)
    (name : string) (v : pyval) : Prop :=
  (name = "global_shift" /\ v = global_shift_option cfg)
  \/ (name = "global_scale"
      /\ exists ft, snd (determine_training_type (init cfg)) = Ok ft
                    /\ v = global_scale_option cfg ft)
  \/ (truth (per_species_option cfg "enable" (VBool false)) = Ok true
      /\ ((name = "per_species_scales" /\ v = per_species_option cfg "scales" VNone)
          \/ (name = "per_species_shifts"
              /\ v = per_species_option cfg "shifts" VNone))).

(** What must have happened for a run to fail with one of the five messages
    of the script. *)
Definition explained `{W : Collaborators} (cfg : gmap string pyval) (e : exn)
  : Prop :=
  match e with
  | ValueError OnlyOneShift =>
      global_shift_option cfg <> VNone
      /\ truth (per_species_option cfg "enable" (VBool false)) = Ok true
  | ValueError ForceRmsWithoutForceTraining =>
      exists st q,
        determine_statistics (init cfg) = (st, Ok q)
        /\ "force_rms" ∈ keys q /\ force_training q = false
  | ValueError (GlobalScalingVeryLow y) =>
      exists st g,
        resolve_global (init cfg) = (st, Ok g)
        /\ resolved_scale g = VFloat y
        /\ PrimFloat.ltb y RESCALE_THRESHOLD = true
  | ValueError (AtomicScalingVeryLow m) =>
      exists st g p,
        resolve_per_species (init cfg) = (st, Ok (g, Some p))
        /\ torch_min (resolved_scales p) = Ok m
        /\ PrimFloat.ltb m RESCALE_THRESHOLD = true
  | ValueError (Invalid name v) =>
      role_slot cfg name v
      /\ passes_through v = false
      /\ forall s, v = VStr s -> ~ stored_key s
  | _ => True
  end.

(** ** Further sample inputs *)



(** [global_rescale_scale: dataset-force_rms] with [global_rescale_shift:
    null]: no slot holds a string that starts with [dataset_]. *)
Definition hyphen_only_config : gmap string pyval :=
  <["global_rescale_shift" := VNone]> hyphen_config.

(** [loss_coeffs: forces] and nothing else: no stride. *)
Definition no_stride_config : gmap string pyval :=
  <["loss_coeffs" := VStr "forces"]> ∅.

(** Per-species scale/shift enabled with the scales given as a float. *)
Definition float_scales_config : gmap string pyval :=
  <["per_species_scale_shift_scales" := VFloat 2]>
    (<["global_rescale_shift" := VNone]>
       (<["per_species_scale_shift_enable" := VBool true]> sample_config)).

(** ** The command line *)

(** What [parser.parse_args] returns, train.py lines 45-62: the positional
    [config] and the three [store_true] flags, [False] unless given. *)
Module args.
Record t : Type := Namespace {
  config : string;
  equivariance_test : bool;
  model_debug_mode : bool;
  grad_anomaly_mode : bool
}.
End args.

(** [config[key]], which [Config] answers as it answers [config.key]. *)
Definition config_getitem (key : string) : M pyval := config_getattr key.

(** Line 66, [config[flag] = getattr(args, flag) or config[flag]], for the
    value [arg] of [getattr(args, flag)]: [or] looks at its right operand
    only when the left one is false. *)
Definition or_config (flag : string) (arg : bool) : M unit :=
  value ← (if arg then pure (VBool true) else config_getitem flag);
  config_setitem flag value.

(** Lines 65-66: the loop over the three flags. *)
Definition merge_flags (a : args.t) : M unit :=
  _ ← or_config "model_debug_mode" (args.model_debug_mode a);
  _ ← or_config "equivariance_test" (args.equivariance_test a);
  or_config "grad_anomaly_mode" (args.grad_anomaly_mode a).

(** Lines 64-68 of [parse_command_line], on the configuration
    [Config.from_file] has loaded: the configuration returned. *)
Definition parse_command_line (a : args.t) (loaded : gmap string pyval)
  : result (gmap string pyval) :=
  match merge_flags a (init loaded) with
  | (st, Ok _) => Ok (config st)
  | (_, Raise e) => Raise e
  end.

(** The flags of line 65 and [getattr(args, flag)] for each. *)
Definition flags : list string :=
  "model_debug_mode" :: "equivariance_test" :: "grad_anomaly_mode" :: nil.

Definition given (a : args.t) (flag : string) : bool :=
  if String.eqb flag "model_debug_mode" then args.model_debug_mode a
  else if String.eqb flag "equivariance_test" then args.equivariance_test a
  else if String.eqb flag "grad_anomaly_mode" then args.grad_anomaly_mode a
  else false.

(** ** Callables and the libraries' global options *)

(** An object as [_load_callable] meets it: a callable, known by an
    identifier, or a plain value. *)
Inductive object : Type :=
| Function (id : string)
| Value (v : pyval).

(** [callable(obj)]: none of the plain values is. *)
Definition callable (obj : object) : bool :=
  match obj with Function _ => true | Value _ => false end.

(** The exceptions of [_load_callable] and [_set_global_options]: those of
    the configuration and of truth values; the [KeyError] of the dtype
    table, whose key is any value; the failed assertion; what yaml and
    e3nn raise. *)
Inductive error : Type :=
| Exn (e : exn)
| DtypeKeyError (key : pyval)
| AssertionError
| YAMLError
| E3nnError.

Inductive outcome (A : Type) : Type :=
| Returns (a : A)
| Raises (e : error).
Arguments Returns {A} a.
Arguments Raises {A} e.

(** What the two functions ask of the libraries: [yaml.load(text,
    Loader=yaml.Loader)], the object constructed or [None] when yaml
    raises; [torch.cuda.is_available()]; and whether
    [e3nn.set_optimization_defaults] accepts the keyword arguments it is
    called with. *)
Class Libraries : Type := {
  yaml_load : string -> option object;
  cuda_is_available : bool;
  e3nn_accepts : list (string * pyval) -> bool
}.

(** The two dtypes of the table of line 95. *)
Inductive dtype : Type := float32 | float64.

(** The global options the script sets: the two TF32 switches of torch,
    nequip's irreps debug mode, torch's default dtype and anomaly detection,
    and the calls made to [e3nn.set_optimization_defaults], the latest
    first. *)
Record options : Type := Options {
  cuda_matmul_allow_tf32 : bool;
  cudnn_allow_tf32 : bool;
  irreps_debug : bool;
  default_dtype : dtype;
  detect_anomaly : bool;
  optimization_defaults : list (list (string * pyval))
}.

Definition G (A : Type) : Type := options -> options * outcome A.

#[global] Instance G_ret : MRet G := fun A a o => (o, Returns a).
#[global] Instance G_bind : MBind G := fun A B f m o =>
  match m o with
  | (o', Returns a) => f a o'
  | (o', Raises e) => (o', Raises e)
  end.

Definition returns {A : Type} (a : A) : G A := fun o => (o, Returns a).

Definition of_outcome {A : Type} (r : outcome A) : G A := fun o => (o, r).

(** Reading one of the options. *)
Definition read {A : Type} (f : options -> A) : G A := fun o => (o, Returns (f o)).

(** [config.key] and the truth value of what it gives. *)
Definition attribute (config : gmap string pyval) (key : string) : G pyval :=
  fun o =>
    (o, match config !! key with
        | Some v => Returns v
        | None => Raises (Exn (KeyError key))
        end).

Definition bool_of (v : pyval) : G bool :=
  fun o =>
    (o, match truth v with Ok b => Returns b | Raise e => Raises (Exn e) end).

(** [{"float32": torch.float32, "float64": torch.float64}[key]] *)
Definition dtype_table (key : pyval) : outcome dtype :=
  if eq_str key "float32" then Returns float32
  else if eq_str key "float64" then Returns float64
  else if hashable key then Raises (DtypeKeyError key)
  else Raises (Exn TypeError).

Definition set_allow_tf32 (b : bool) : G unit :=
  fun o =>
    (Options b b (irreps_debug o) (default_dtype o) (detect_anomaly o)
       (optimization_defaults o), Returns tt).

Definition set_irreps_debug (enabled : bool) : G unit :=
  fun o =>
    (Options (cuda_matmul_allow_tf32 o) (cudnn_allow_tf32 o) enabled
       (default_dtype o) (detect_anomaly o) (optimization_defaults o), Returns tt).

Definition set_default_dtype (d : dtype) : G unit :=
  fun o =>
    (Options (cuda_matmul_allow_tf32 o) (cudnn_allow_tf32 o) (irreps_debug o)
       d (detect_anomaly o) (optimization_defaults o), Returns tt).

Definition set_detect_anomaly (mode : bool) : G unit :=
  fun o =>
    (Options (cuda_matmul_allow_tf32 o) (cudnn_allow_tf32 o) (irreps_debug o)
       (default_dtype o) mode (optimization_defaults o), Returns tt).

(** [e3nn.set_optimization_defaults], called with the keyword arguments
    unpacked from [kwargs]: only a mapping can be unpacked. *)
Definition set_optimization_defaults `{L : Libraries} (kwargs : pyval) : G unit :=
  fun o =>
    match kwargs with
    | VDict d =>
        (Options (cuda_matmul_allow_tf32 o) (cudnn_allow_tf32 o) (irreps_debug o)
           (default_dtype o) (detect_anomaly o) (d :: optimization_defaults o),
         if e3nn_accepts d then Returns tt else Raises E3nnError)
    | _ => (o, Raises (Exn TypeError))
    end.

Section GlobalOptions.

Context `{L : Libraries}.

(** [_load_callable(obj)], train.py lines 71-79. *)
Definition _load_callable (obj : object) : outcome object :=
  let loaded :=
    if callable obj then Returns obj
    else match obj with
         | Value (VStr s) =>
             match yaml_load ("!!python/name:" +:+ s) with
             | Some o => Returns o
             | None => Raises YAMLError
             end
         | _ => Raises (Exn TypeError)
         end in
  match loaded with
  | Returns obj => if callable obj then Returns obj else Raises AssertionError
  | Raises e => Raises e
  end.

(** Lines 86-90: TF32 is switched off when it is on and the configuration
    does not allow it; [and] reads [config.allow_tf32] only when the switch
    of [matmul] is on. *)
Definition set_tf32 (config : gmap string pyval) : G unit :=
  if cuda_is_available then
    enabled ← read cuda_matmul_allow_tf32;
    disable ← (if enabled : bool
               then allow ← attribute config "allow_tf32" ≫= bool_of;
                    returns (negb allow)
               else returns false);
    if disable : bool then set_allow_tf32 false else returns tt
  else returns tt.

(** Lines 92-93. *)
Definition set_debug_mode (config : gmap string pyval) : G unit :=
  debug ← attribute config "model_debug_mode" ≫= bool_of;
  if debug : bool then set_irreps_debug true else returns tt.

(** Lines 94-96: the configuration is read first, then the table. *)
Definition set_dtype (config : gmap string pyval) : G unit :=
  key ← attribute config "default_dtype";
  d ← of_outcome (dtype_table key);
  set_default_dtype d.

(** Lines 97-98. *)
Definition set_anomaly_mode (config : gmap string pyval) : G unit :=
  anomaly ← attribute config "grad_anomaly_mode" ≫= bool_of;
  if anomaly : bool then set_detect_anomaly true else returns tt.

(** Line 100. *)
Definition set_e3nn_defaults (config : gmap string pyval) : G unit :=
  set_optimization_defaults
    (match config !! "e3nn_optimization_defaults" with
     | Some v => v
     | None => VDict nil
     end).

(** [_set_global_options(config)], train.py lines 82-100. *)
Definition _set_global_options (config : gmap string pyval) : G unit :=
  _ ← set_tf32 config;
  _ ← set_debug_mode config;
  _ ← set_dtype config;
  _ ← set_anomaly_mode config;
  set_e3nn_defaults config.

End GlobalOptions.

(** The name of a dtype in the table of line 95. *)
Definition dtype_name (d : dtype) : string :=
  match d with float32 => "float32" | float64 => "float64" end.

(** The option [key] is there and its truth value is [b]. *)
Definition option_truth (config : gmap string pyval) (key : string) (b : bool)
  : Prop :=
  exists v, config !! key = Some v /\ truth v = Ok b.

(** No switch is loosened: TF32 is not switched on, for cudnn it is left
    alone when it is off for [matmul], and the debug and anomaly modes are
    not switched off. *)
Definition tightens (o o' : options) : Prop :=
  (cuda_matmul_allow_tf32 o' = true -> cuda_matmul_allow_tf32 o = true)
  /\ (cudnn_allow_tf32 o' = true -> cudnn_allow_tf32 o = true)
  /\ (cuda_matmul_allow_tf32 o = false -> cudnn_allow_tf32 o' = cudnn_allow_tf32 o)
  /\ (irreps_debug o = true -> irreps_debug o' = true)
  /\ (detect_anomaly o = true -> detect_anomaly o' = true).

(** The options [_set_global_options] reads whatever the state of the
    libraries. *)
Definition read_keys : list string :=
  "model_debug_mode" :: "default_dtype" :: "grad_anomaly_mode"
  :: "e3nn_optimization_defaults" :: nil.

(** Libraries without CUDA, a yaml that knows one function and one
    constant, an e3nn that accepts no keyword but [specialized_code]. *)
Definition sample_libraries : Libraries := {|
  yaml_load text :=
    if String.eqb text "!!python/name:nequip.models.ForceModel"
    then Some (Function "nequip.models.ForceModel")
    else if String.eqb text "!!python/name:math.pi"
    then Some (Value (VFloat 3.141592653589793))
    else None;
  cuda_is_available := false;
  e3nn_accepts kwargs :=
    forallb (fun kv => String.eqb (fst kv) "specialized_code") kwargs
|}.

(** The same with CUDA. *)
Definition cuda_libraries : Libraries := {|
  yaml_load := yaml_load (Libraries := sample_libraries);
  cuda_is_available := true;
  e3nn_accepts := e3nn_accepts (Libraries := sample_libraries)
|}.

(** torch as it starts since its version 1.12: TF32 off for [matmul], on
    for cudnn. *)
Definition torch_defaults : options :=
  Options false true false float32 false nil.

(** TF32 on for both. *)
Definition tf32_on : options := Options true true false float32 false nil.

(** The options of [default_config] that [_set_global_options] reads, and
    the same with [default_dtype: float16]. *)
Definition default_options_config : gmap string pyval :=
  <["default_dtype" := VStr "float32"]>
    (<["allow_tf32" := VBool false]>
       (<["model_debug_mode" := VBool false]>
          (<["grad_anomaly_mode" := VBool false]> ∅))).

Definition float16_config : gmap string pyval :=
  <["model_debug_mode" := VBool true]>
    (<["default_dtype" := VStr "float16"]> default_options_config).

(** ** The monad's equations *)

Lemma bind_Ok {A B : Type} (m : M A) (f : A -> M B) st st' a :
  m st = (st', Ok a) -> (m ≫= f) st = f a st'.
Proof. intros H. unfold mbind, M_bind. now rewrite H. Qed.

Lemma bind_Raise {A B : Type} (m : M A) (f : A -> M B) st st' e :
  m st = (st', Raise e) -> (m ≫= f) st = (st', Raise e).
Proof. intros H. unfold mbind, M_bind. now rewrite H. Qed.

Lemma bind_inv {A B : Type} (m : M A) (f : A -> M B) st st2 r :
  (m ≫= f) st = (st2, r) ->
  (exists st1 a, m st = (st1, Ok a) /\ f a st1 = (st2, r))
  \/ (exists e, m st = (st2, Raise e) /\ r = Raise e).
Proof.
  unfold mbind, M_bind. destruct (m st) as [st1 [a|e]]; intros H.
  - left. eauto.
  - right. inversion H; subst. eauto.
Qed.

Section Properties.

Context `{W : Collaborators}.

Lemma get_per_species_eq key default st :
  get_per_species key default st = (st, Ok (per_species_option (config st) key default)).
Proof.
  unfold get_per_species, per_species_option, mbind, M_bind, config_get.
  now destruct (config st !! ("PerSpeciesScaleShift_" +:+ key)).
Qed.

Lemma determine_training_type_state st st' r :
  determine_training_type st = (st', r) -> st' = st.
Proof.
  unfold determine_training_type, mbind, M_bind, config_getattr, lift, raise, pure.
  destruct (config st !! "loss_coeffs") as [v|]; [|now inversion 1].
  destruct (set_of _) as [s|e]; [|now inversion 1].
  destruct (negb _); now inversion 1.
Qed.

(** *** The builder's step *)

Lemma build_core_model_eq st :
  build_core_model st
  = match config st !! "model_builder" with
    | None => (st, Raise (KeyError "model_builder"))
    | Some _ =>
        match model_builder (config st) with
        | None => (st, Raise BuilderError)
        | Some m =>
            match config st !! "model_initializers" with
            | None => (st, Raise (KeyError "model_initializers"))
            | Some _ => (st, Ok m)
            end
        end
    end.
Proof.
  unfold build_core_model, call_model_builder, mbind, M_bind, config_getattr, pure.
  destruct (config st !! "model_builder"); [|reflexivity].
  destruct (model_builder (config st)); [|reflexivity].
  now destruct (config st !! "model_initializers").
Qed.

Lemma assemble_state_build st : fst (build_core_model st) = st.
Proof.
  rewrite build_core_model_eq.
  destruct (config st !! "model_builder"); [|reflexivity].
  destruct (model_builder (config st)); [|reflexivity].
  now destruct (config st !! "model_initializers").
Qed.

(** *** Failures propagate to the end of the script *)

Lemma training_type_raise st st' e :
  determine_training_type st = (st', Raise e) -> fresh_start st = (st', Raise e).
Proof.
  intros H. unfold fresh_start, resolve_per_species, resolve_global, determine_statistics.
  do 4 apply bind_Raise. exact H.
Qed.

Lemma issubset_false (s : list pyval) (names : list string) (v : pyval) :
  v ∈ s -> existsb (eq_str v) names = false -> issubset s names = false.
Proof.
  intros Hin Hv. unfold issubset.
  destruct (forallb _ s) eqn:E; [|reflexivity].
  rewrite forallb_forall in E. apply list_elem_of_In in Hin.
  specialize (E v Hin). congruence.
Qed.

Lemma eqb_neq_false (a b : string) : a <> b -> String.eqb a b = false.
Proof. intros H. now apply String.eqb_neq. Qed.

(** C10. If [loss_coeffs] names a training field other than [forces] and
    [total_energy], the script fails (with [NotImplementedError], or with
    [TypeError] when [loss_coeffs] cannot be made a set at all) in the state
    it started from: no option has been consumed, nothing has been written
    to the configuration and no statistics have been computed. *)
Theorem unsupported_training_field_fails_first
    (cfg : gmap string pyval) (v : pyval) (f : string) :
  cfg !! "loss_coeffs" = Some v ->
  names_field v f ->
  f <> "forces" ->
  f <> "total_energy" ->
  exists e, run cfg = (init cfg, Raise e)
            /\ (e = NotImplementedError \/ e = TypeError).
Proof.
  intros Hv Hn Hf Ht.
  assert (Hnot : existsb (eq_str (VStr f)) ("forces" :: "total_energy" :: nil) = false).
  { simpl. now rewrite !eqb_neq_false. }
  assert (H : exists e, determine_training_type (init cfg) = (init cfg, Raise e)
                        /\ (e = NotImplementedError \/ e = TypeError)).
  { unfold determine_training_type, mbind, M_bind, config_getattr, lift, raise.
    simpl. rewrite Hv.
    destruct v as [| | | |s|t|l|d]; simpl in Hn; try contradiction.
    - subst s. simpl. rewrite !eqb_neq_false by assumption. simpl. eauto.
    - simpl. destruct (forallb hashable l); [|eauto].
      rewrite (issubset_false l _ (VStr f)) by assumption. simpl. eauto.
    - simpl. rewrite (issubset_false _ _ (VStr f)); [simpl; eauto| |assumption].
      apply list_elem_of_In, in_map_iff. apply list_elem_of_In, in_map_iff in Hn.
      destruct Hn as [kv [<- Hkv]]. eauto. }
  destruct H as [e [H He]]. exists e. split; [|exact He].
  unfold run. now apply training_type_raise.
Qed.

(** *** The mutual exclusion of global and per-species shifts *)

Lemma rescale_type_conflict (ft : bool) (st : state) :
  config st !! "global_rescale_shift" <> Some VNone ->
  truth (per_species_option (config st) "enable" (VBool false)) = Ok true ->
  exists st', determine_rescale_type ft st = (st', Raise (ValueError OnlyOneShift))
              /\ calls st' = calls st.
Proof.
  intros Hs He. unfold determine_rescale_type.
  erewrite bind_Ok by reflexivity.
  erewrite bind_Ok by reflexivity.
  erewrite bind_Ok by apply get_per_species_eq.
  unfold pop_per_species, config_pop, mbind, M_bind, lift, raise, pure, config_get.
  simpl. rewrite He.
  destruct (config st !! "global_rescale_shift") as [v|]; simpl.
  - destruct v; simpl; try (eexists; split; reflexivity). congruence.
  - eexists; split; reflexivity.
Qed.

Lemma rescale_type_raise (ft : bool) st st' st'' e :
  determine_training_type st = (st', Ok ft) ->
  determine_rescale_type ft st' = (st'', Raise e) ->
  fresh_start st = (st'', Raise e).
Proof.
  intros Ht Hr. unfold fresh_start, resolve_per_species, resolve_global.
  do 3 apply bind_Raise. unfold determine_statistics.
  erewrite bind_Ok by exact Ht. now apply bind_Raise.
Qed.

Lemma conflict_fails (cfg : gmap string pyval) (ft : bool) :
  snd (determine_training_type (init cfg)) = Ok ft ->
  cfg !! "global_rescale_shift" <> Some VNone ->
  truth (per_species_option cfg "enable" (VBool false)) = Ok true ->
  snd (run cfg) = Raise (ValueError OnlyOneShift) /\ calls (fst (run cfg)) = nil.
Proof.
  intros Ht Hs He.
  destruct (determine_training_type (init cfg)) as [st1 r] eqn:E. simpl in Ht. subst r.
  pose proof (determine_training_type_state _ _ _ E) as ->.
  destruct (rescale_type_conflict ft (init cfg) Hs He) as [st' [Hr Hc]].
  unfold run. rewrite (rescale_type_raise ft _ _ _ _ E Hr). simpl. now rewrite Hc.
Qed.

(** C1. Once the training type is determined, a configuration whose global
    shift (the option [global_rescale_shift], or its default when the option
    is absent) is not [None] and whose per-species scale/shift option is
    true makes the script fail with "One can only enable either global shift
    or per_species shift", whatever the other options are, and no call to
    the dataset's statistics has been made. *)
Theorem global_and_per_species_shift_conflict
    (cfg : gmap string pyval) (ft : bool) (shift : pyval) :
  snd (determine_training_type (init cfg)) = Ok ft ->
  snd (config_get "global_rescale_shift" (VStr "dataset_energy_mean") (init cfg))
    = Ok shift ->
  shift <> VNone ->
  truth (per_species_option cfg "enable" (VBool false)) = Ok true ->
  snd (run cfg) = Raise (ValueError OnlyOneShift) /\ calls (fst (run cfg)) = nil.
Proof.
  intros Ht Hg Hs He. apply (conflict_fails cfg ft Ht); [|exact He].
  intros Hn. unfold config_get in Hg. simpl in Hg. rewrite Hn in Hg.
  congruence.
Qed.

(** C9. When [global_rescale_shift] is absent the global shift is the
    placeholder [dataset_energy_mean]; so every configuration that enables
    per-species scale/shift and does not set [global_rescale_shift] to
    [None] fails with the mutual-exclusion error (once the training type is
    determined), before any statistics are computed. *)
Theorem default_global_shift_conflicts (cfg : gmap string pyval) :
  (cfg !! "global_rescale_shift" = None ->
   config_get "global_rescale_shift" (VStr "dataset_energy_mean") (init cfg)
     = (init cfg, Ok (VStr "dataset_energy_mean"))
   /\ forall ft st r,
        determine_rescale_type ft (init cfg) = (st, Ok r) ->
        global_shift r = VStr "dataset_energy_mean")
  /\ (forall ft,
        snd (determine_training_type (init cfg)) = Ok ft ->
        cfg !! "global_rescale_shift" <> Some VNone ->
        truth (per_species_option cfg "enable" (VBool false)) = Ok true ->
        snd (run cfg) = Raise (ValueError OnlyOneShift)
        /\ calls (fst (run cfg)) = nil).
Proof.
  split.
  - intros Hn. split.
    + unfold config_get. simpl. now rewrite Hn.
    + intros ft st r. unfold determine_rescale_type.
      erewrite bind_Ok by reflexivity.
      erewrite bind_Ok by reflexivity.
      erewrite bind_Ok by apply get_per_species_eq.
      unfold pop_per_species, config_pop, mbind, M_bind, lift, raise, pure, config_get.
      simpl. rewrite Hn. simpl.
      destruct (truth _) as [[|]|e]; inversion 1; reflexivity.
  - intros ft. apply conflict_fails.
Qed.

(** *** Which steps call the dataset *)

Lemma keeps_pure {A : Type} (a : A) : keeps_calls (pure a).
Proof. now intros st. Qed.

Lemma keeps_raise {A : Type} (e : exn) : keeps_calls (@raise A e).
Proof. now intros st. Qed.

Lemma keeps_lift {A : Type} (r : result A) : keeps_calls (lift r).
Proof. now intros st. Qed.

Lemma keeps_config_get key default : keeps_calls (config_get key default).
Proof. now intros st. Qed.

Lemma keeps_config_pop key default : keeps_calls (config_pop key default).
Proof. now intros st. Qed.

Lemma keeps_config_setitem key value : keeps_calls (config_setitem key value).
Proof. now intros st. Qed.

Lemma keeps_config_getattr key : keeps_calls (config_getattr key).
Proof. now intros st. Qed.

Lemma keeps_bind {A B : Type} (m : M A) (f : A -> M B) :
  keeps_calls m -> (forall a, keeps_calls (f a)) -> keeps_calls (m ≫= f).
Proof.
  intros Hm Hf st. unfold mbind, M_bind. specialize (Hm st).
  destruct (m st) as [st1 [a|e]]; simpl in *; [|exact Hm].
  now rewrite Hf.
Qed.

Lemma keeps_if {A : Type} (b : bool) (m1 m2 : M A) :
  keeps_calls m1 -> keeps_calls m2 -> keeps_calls (if b then m1 else m2).
Proof. now destruct b. Qed.

Ltac keeps :=
  repeat first
    [ apply keeps_pure | apply keeps_raise | apply keeps_lift
    | apply keeps_config_get | apply keeps_config_pop
    | apply keeps_config_setitem | apply keeps_config_getattr
    | apply keeps_if
    | apply keeps_bind; [|intros] ].

Lemma keeps_get_per_species key default : keeps_calls (get_per_species key default).
Proof. unfold get_per_species. keeps. Qed.

Lemma keeps_pop_per_species key default : keeps_calls (pop_per_species key default).
Proof. unfold pop_per_species. keeps. Qed.

Lemma keeps_determine_training_type : keeps_calls determine_training_type.
Proof. unfold determine_training_type. keeps. Qed.

Lemma keeps_determine_rescale_type ft : keeps_calls (determine_rescale_type ft).
Proof.
  unfold determine_rescale_type.
  repeat first [ apply keeps_get_per_species | apply keeps_pop_per_species
               | progress keeps ].
Qed.

Lemma keeps_determine_statistics : keeps_calls determine_statistics.
Proof.
  unfold determine_statistics.
  apply keeps_bind; [apply keeps_determine_training_type|intros ft].
  apply keeps_bind; [apply keeps_determine_rescale_type|intros r]. keeps.
Qed.

Lemma keeps_check_global_scale v : keeps_calls (check_global_scale v).
Proof. unfold check_global_scale. destruct v; keeps. Qed.

Lemma keeps_store_per_species p : keeps_calls (store_per_species p).
Proof. unfold store_per_species. keeps. Qed.

(** *** The training type *)

Lemma set_contains_In (s : list pyval) (name : string) :
  set_contains s name = true -> VStr name ∈ s.
Proof.
  unfold set_contains. rewrite existsb_exists. intros [x [Hin Hx]].
  destruct x; simpl in Hx; try discriminate.
  apply String.eqb_eq in Hx. subst. now apply list_elem_of_In.
Qed.

Lemma force_training_names_forces st st' (v : pyval) :
  config st !! "loss_coeffs" = Some v ->
  determine_training_type st = (st', Ok true) ->
  names_field v "forces".
Proof.
  intros Hv. unfold determine_training_type, mbind, M_bind, config_getattr, lift, raise, pure.
  rewrite Hv.
  destruct (set_of _) as [s|e] eqn:Es; [|inversion 1].
  destruct (negb _); [inversion 1|]. intros H. injection H as _ Hc.
  apply set_contains_In in Hc.
  destruct v as [| | | |s0|[x|xs]|l|d]; simpl in Es; try discriminate.
  - inversion Es; subst. simpl. apply list_elem_of_In in Hc. simpl in Hc.
    destruct Hc as [Hc|[]]. now inversion Hc.
  - inversion Es; subst. apply list_elem_of_In, in_map_iff in Hc.
    destruct Hc as [y [Hy _]]. discriminate.
  - simpl. destruct (forallb hashable l); inversion Es; now subst.
  - inversion Es; subst. simpl. apply list_elem_of_In, in_map_iff in Hc.
    destruct Hc as [kv [Hk Hin]]. inversion Hk; subst.
    apply list_elem_of_In, in_map_iff. eauto.
Qed.

(** C7. When the required statistics contain [force_rms] and [loss_coeffs]
    does not name [forces], the script fails with "Cannot have global_scale
    = 'dataset_force_rms' without force training", and no call to the
    dataset's statistics has been made. *)
Theorem force_rms_needs_force_training
    (cfg : gmap string pyval) (st : state) (q : requirements) (v : pyval) :
  determine_statistics (init cfg) = (st, Ok q) ->
  "force_rms" ∈ keys q ->
  cfg !! "loss_coeffs" = Some v ->
  ~ names_field v "forces" ->
  run cfg = (st, Raise (ValueError ForceRmsWithoutForceTraining))
  /\ calls (fst (run cfg)) = nil.
Proof.
  intros Hq Hk Hv Hn.
  assert (Hft : force_training q = false).
  { destruct (force_training q) eqn:E; [|reflexivity]. exfalso. apply Hn.
    unfold determine_statistics in Hq.
    apply bind_inv in Hq as [(st1 & ft & Ht & Hq)|(e & _ & He)]; [|discriminate].
    apply bind_inv in Hq as [(st2 & r & Hr & Hq)|(e & _ & He)]; [|discriminate].
    inversion Hq; subst. simpl in E. subst ft.
    eapply force_training_names_forces; [|exact Ht]. exact Hv. }
  assert (Hrun : run cfg = (st, Raise (ValueError ForceRmsWithoutForceTraining))).
  { unfold run, fresh_start, resolve_per_species, resolve_global.
    do 2 apply bind_Raise. erewrite bind_Ok by exact Hq.
    rewrite Hft, bool_decide_eq_true_2 by exact Hk. reflexivity. }
  split; [exact Hrun|]. rewrite Hrun. simpl.
  pose proof (keeps_determine_statistics (init cfg)) as Hc.
  rewrite Hq in Hc. exact Hc.
Qed.


(** *** Which exceptions a step can raise *)








Lemma set_value_raise variable variable_name value_dict e :
  set_value variable variable_name value_dict = Raise e ->
  e = ValueError (Invalid variable_name variable).
Proof.
  induction value_dict as [|[key value] items IH]; simpl.
  - destruct (_ || _); now inversion 1.
  - destruct (eq_str variable key); [discriminate|exact IH].
Qed.

Lemma truth_raise v e : truth v = Raise e -> e = RuntimeError.
Proof. destruct v as [| | | | |[x|[|x [|y xs]]]| |]; simpl; now inversion 1. Qed.

Lemma float_of_int_raise n e : float_of_int n = Raise e -> e = OverflowError.
Proof. unfold float_of_int. destruct (is_infinity _); now inversion 1. Qed.

Lemma tensor_div_raise a b e : tensor_div a b = Raise e -> e = RuntimeError.
Proof.
  destruct a as [x|[|x [|x' xs]]], b as [y|[|y [|y' ys]]]; simpl;
    try discriminate; try (destruct (Nat.eqb _ _)); now inversion 1.
Qed.

Lemma truediv_raise a b e :
  truediv a b = Raise e ->
  e = TypeError \/ e = ZeroDivisionError \/ e = OverflowError \/ e = RuntimeError.
Proof.
  destruct a, b; simpl; try (inversion 1; tauto).
  - destruct (float_of_int n) eqn:E.
    + destruct (float_is_zero a); inversion 1; tauto.
    + inversion 1; subst. apply float_of_int_raise in E. tauto.
  - destruct (float_is_zero x0); inversion 1; tauto.
  - destruct (float_of_int n) eqn:E; inversion 1; subst.
    apply float_of_int_raise in E. tauto.
  - destruct (tensor_div t t0) eqn:E; inversion 1; subst.
    apply tensor_div_raise in E. tauto.
Qed.

Lemma torch_min_raise v e :
  torch_min v = Raise e -> e = TypeError \/ e = RuntimeError.
Proof. destruct v as [| | | | |[x|[|x xs]]| |]; simpl; inversion 1; tauto. Qed.






(** *** The value resolver *)

Lemma set_value_no_key variable variable_name value_dict :
  (forall key, eq_str variable key = false) ->
  set_value variable variable_name value_dict
  = set_value variable variable_name nil.
Proof.
  intros H. induction value_dict as [|[key value] items IH]; [reflexivity|].
  cbn [set_value]. now rewrite H.
Qed.

(** C3, as the code has it. A value that is [None], a Python [float] or a
    tensor equals no key of the statistics mapping, and [set_value] returns
    it unchanged, for every slot name and every statistics mapping. *)
Theorem set_value_pass_through
    (variable : pyval) (variable_name : string) (value_dict : list (string * pyval)) :
  variable = VNone
  \/ (exists x, variable = VFloat x)
  \/ (exists t, variable = VTensor t) ->
  (forall key, eq_str variable key = false)
  /\ set_value variable variable_name value_dict = Ok variable.
Proof.
  intros H.
  assert (Hk : forall key, eq_str variable key = false).
  { intros key. now destruct H as [->|[[x ->]|[t ->]]]. }
  split; [exact Hk|]. rewrite set_value_no_key by exact Hk.
  now destruct H as [->|[[x ->]|[t ->]]].
Qed.

(** *** The assembled model *)

Lemma assemble_scale_keys g st st' out :
  assemble g st = (st', Ok out) ->
  st' = st
  /\ model_builder (config st) = Some (model out)
  /\ scale_keys out = rescale_keys (model out)
  /\ scale_by out = resolved_scale g
  /\ shift_by out = resolved_shift g
  /\ shift_keys out = TOTAL_ENERGY_KEY.
Proof.
  unfold assemble, mbind, M_bind. rewrite build_core_model_eq.
  destruct (config st !! "model_builder"); [|discriminate].
  destruct (model_builder (config st)) as [m|]; [|discriminate].
  destruct (config st !! "model_initializers"); [|discriminate].
  unfold config_get, pure. intros H. inversion H; subst. simpl. tauto.
Qed.

Lemma run_assembles cfg st out :
  run cfg = (st, Ok out) ->
  exists g, assemble g st = (st, Ok out).
Proof.
  unfold run, fresh_start. intros H.
  apply bind_inv in H as [(st1 & [g p] & _ & H)|(e & _ & He)]; [|discriminate].
  apply bind_inv in H as [(st2 & [] & _ & H)|(e & _ & He)]; [|discriminate].
  exists g. pose proof (assemble_scale_keys _ _ _ _ H) as [-> _]. exact H.
Qed.

Lemma elem_of_rescale_keys (m : core_model) (k : string) :
  k ∈ rescale_keys m <->
  k = TOTAL_ENERGY_KEY
  \/ (k = FORCE_KEY /\ FORCE_KEY ∈ irreps_out m)
  \/ (k = PER_ATOM_ENERGY_KEY /\ PER_ATOM_ENERGY_KEY ∈ irreps_out m).
Proof.
  unfold rescale_keys. rewrite !elem_of_app, list_elem_of_singleton.
  destruct (decide (FORCE_KEY ∈ irreps_out m));
    destruct (decide (PER_ATOM_ENERGY_KEY ∈ irreps_out m));
    rewrite ?list_elem_of_singleton, ?elem_of_nil; tauto.
Qed.

(** C8. The keys the assembled model rescales: the total energy always;
    the forces exactly when the core model declares them among its outputs;
    the per-atom energy exactly when the core model declares it; and
    nothing else.  The field names of the forces and of the per-atom energy
    are taken to differ from the total energy's. *)
Theorem rescale_target_set
    (cfg : gmap string pyval) (st : state) (out : RescaleOutput) :
  run cfg = (st, Ok out) ->
  FORCE_KEY <> TOTAL_ENERGY_KEY ->
  PER_ATOM_ENERGY_KEY <> TOTAL_ENERGY_KEY ->
  model_builder (config st) = Some (model out)
  /\ TOTAL_ENERGY_KEY ∈ scale_keys out
  /\ (FORCE_KEY ∈ scale_keys out <-> FORCE_KEY ∈ irreps_out (model out))
  /\ (PER_ATOM_ENERGY_KEY ∈ scale_keys out
      <-> PER_ATOM_ENERGY_KEY ∈ irreps_out (model out))
  /\ (forall k, k ∈ scale_keys out ->
        k = TOTAL_ENERGY_KEY \/ k = FORCE_KEY \/ k = PER_ATOM_ENERGY_KEY).
Proof.
  intros Hrun Hf Hp. destruct (run_assembles _ _ _ Hrun) as [g Hg].
  destruct (assemble_scale_keys _ _ _ _ Hg) as (_ & Hm & Hk & _).
  split; [exact Hm|]. rewrite Hk.
  repeat split; intros; rewrite ?elem_of_rescale_keys in *; try tauto.
  - destruct H as [H|[[_ H]|[H1 H]]]; congruence.
  - destruct H as [H|[[H1 H]|[_ H]]]; congruence.
Qed.

(** *** The passes over the dataset *)

Lemma calls_bind_keeps {A B : Type} (m : M A) (f : A -> M B) st :
  (forall a, keeps_calls (f a)) ->
  calls (fst ((m ≫= f) st)) = calls (fst (m st)).
Proof.
  intros Hf. unfold mbind, M_bind. destruct (m st) as [st1 [a|e]]; simpl; [|reflexivity].
  apply Hf.
Qed.

Lemma calls_keeps_bind {A B : Type} (m : M A) (f : A -> M B) st :
  keeps_calls m ->
  calls (fst ((m ≫= f) st)) = calls st
  \/ exists st1 a, m st = (st1, Ok a) /\ calls st1 = calls st
                   /\ calls (fst ((m ≫= f) st)) = calls (fst (f a st1)).
Proof.
  intros Hm. unfold mbind, M_bind. specialize (Hm st).
  destruct (m st) as [st1 [a|e]]; simpl in *; [|now left].
  right. eauto.
Qed.

Lemma calls_statistics {A : Type} (c : stat_call) (f : list (list pyval) -> M A) st :
  (forall a, keeps_calls (f a)) ->
  calls (fst ((statistics c ≫= f) st)) = c :: calls st.
Proof. intros Hf. rewrite calls_bind_keeps by exact Hf. reflexivity. Qed.

Lemma force_rms_statistics_calls keys d st :
  exists l, calls (fst (force_rms_statistics keys d st)) = l ++ calls st
            /\ at_most_one "rms" ("force_rms" ∈ keys) l.
Proof.
  unfold force_rms_statistics.
  destruct (decide ("force_rms" ∈ keys)) as [Hk|Hk].
  - destruct (calls_keeps_bind (config_getattr "dataset_statistics_stride")
                (λ stride, r ← statistics (StatCall (FORCE_KEY :: nil) ("rms" :: nil) stride nil);
                           rms ← lift (unpack1 r);
                           pure (dict_setitem "dataset_force_rms" rms d)) st
                (keeps_config_getattr _)) as [H|(st1 & stride & _ & Hc & H)].
    + exists nil. split; [exact H|now left].
    + eexists (_ :: nil). split.
      * rewrite H, calls_statistics by (intros; keeps). now rewrite Hc.
      * right. split; [exact Hk|]. eauto.
  - exists nil. split; [reflexivity|now left].
Qed.

Lemma energy_statistics_calls keys d st :
  exists l, calls (fst (energy_statistics keys d st)) = l ++ calls st
            /\ at_most_one "mean_std" ("energy_std" ∈ keys \/ "energy_mean" ∈ keys) l.
Proof.
  unfold energy_statistics.
  destruct (decide ("energy_std" ∈ keys ∨ "energy_mean" ∈ keys)) as [Hk|Hk].
  - destruct (calls_keeps_bind (config_getattr "dataset_statistics_stride")
                (λ stride, r ← statistics (StatCall (TOTAL_ENERGY_KEY :: nil) ("mean_std" :: nil) stride nil);
                           '(mean, std) ← lift (unpack2 r);
                           pure (dict_setitem "dataset_energy_std" std
                                   (dict_setitem "dataset_energy_mean" mean d))) st
                (keeps_config_getattr _)) as [H|(st1 & stride & _ & Hc & H)].
    + exists nil. split; [exact H|now left].
    + eexists (_ :: nil). split.
      * rewrite H, calls_statistics by (intros; keeps; destruct a0; keeps). now rewrite Hc.
      * right. split; [exact Hk|]. eauto.
  - exists nil. split; [reflexivity|now left].
Qed.

Lemma per_species_statistics_calls keys sigma d st :
  exists l, calls (fst (per_species_statistics keys sigma d st)) = l ++ calls st
            /\ at_most_one "atom_type_mean_std"
                 ("per_species_energy_std" ∈ keys \/ "per_species_energy_mean" ∈ keys) l.
Proof.
  unfold per_species_statistics.
  destruct (decide ("per_species_energy_std" ∈ keys ∨ "per_species_energy_mean" ∈ keys))
    as [Hk|Hk]; [|exists nil; split; [reflexivity|now left]].
  erewrite bind_Ok by apply get_per_species_eq.
  match goal with
  | |- context [ (config_getattr ?k ≫= ?f) st ] =>
      destruct (calls_keeps_bind (config_getattr k) f st (keeps_config_getattr _))
        as [H|(st1 & stride & _ & Hc & H)]
  end.
  - exists nil. split; [exact H|now left].
  - eexists (_ :: nil). split.
    + rewrite H, calls_statistics by (intros; keeps; destruct a0; keeps). now rewrite Hc.
    + right. split; [exact Hk|]. eauto.
Qed.

Lemma at_most_one_nil mode P : at_most_one mode P nil.
Proof. now left. Qed.

Lemma passes_nil keys : passes keys nil.
Proof. exists nil, nil, nil. repeat split; apply at_most_one_nil. Qed.

Lemma get_statistics_calls keys sigma st :
  exists l, calls (fst (get_statistics keys sigma st)) = l ++ calls st /\ passes keys l.
Proof.
  unfold get_statistics, mbind, M_bind.
  destruct (force_rms_statistics_calls keys nil st) as (l1 & H1 & A1).
  destruct (force_rms_statistics keys nil st) as [st1 [d1|e]]; simpl in H1.
  - destruct (energy_statistics_calls keys d1 st1) as (l2 & H2 & A2).
    destruct (energy_statistics keys d1 st1) as [st2 [d2|e]]; simpl in H2.
    + destruct (per_species_statistics_calls keys sigma d2 st2) as (l3 & H3 & A3).
      exists (l3 ++ l2 ++ l1). split.
      * rewrite H3, H2, H1. now rewrite <- !app_assoc.
      * exists l1, l2, l3. tauto.
    + exists (l2 ++ l1). simpl. split.
      * rewrite H2, H1. now rewrite <- !app_assoc.
      * exists l1, l2, nil. repeat split; try assumption. apply at_most_one_nil.
  - exists l1. simpl. split; [exact H1|].
    exists l1, nil, nil.
    repeat split; try assumption; apply at_most_one_nil.
Qed.

Lemma determine_statistics_keys st st' q :
  determine_statistics st = (st', Ok q) -> keys q = statistics_keys (rescale q).
Proof.
  unfold determine_statistics. intros H.
  apply bind_inv in H as [(st1 & ft & _ & H)|(e & _ & He)]; [|discriminate].
  apply bind_inv in H as [(st2 & r & _ & H)|(e & _ & He)]; [|discriminate].
  now inversion H.
Qed.

Lemma resolve_global_calls st :
  calls (fst (resolve_global st)) = calls st
  \/ exists st1 q l,
       determine_statistics st = (st1, Ok q)
       /\ calls (fst (resolve_global st)) = l ++ calls st
       /\ passes (keys q) l.
Proof.
  unfold resolve_global.
  destruct (calls_keeps_bind determine_statistics
    (λ q, if bool_decide ("force_rms" ∈ keys q) && negb (force_training q)
          then raise (ValueError ForceRmsWithoutForceTraining)
          else
            dataset_statistics ← get_statistics (keys q) (sigma (rescale q));
            shift ← lift (set_value (global_shift (rescale q)) "global_shift" dataset_statistics);
            scale ← lift (set_value (global_scale (rescale q)) "global_scale" dataset_statistics);
            pure (Resolved q dataset_statistics shift scale)) st
    keeps_determine_statistics) as [H|(st1 & q & Hq & Hc & H)]; [now left|].
  destruct (bool_decide _ && negb _).
  - left. rewrite H. exact Hc.
  - right. exists st1, q.
    destruct (get_statistics_calls (keys q) (sigma (rescale q)) st1) as (l & Hl & Hp).
    exists l. split; [exact Hq|]. split; [|exact Hp].
    rewrite H, calls_bind_keeps by (intros; keeps). now rewrite Hl, Hc.
Qed.

Lemma run_calls cfg : calls (fst (run cfg)) = calls (fst (resolve_global (init cfg))).
Proof.
  unfold run, fresh_start, resolve_per_species.
  rewrite calls_bind_keeps.
  - apply calls_bind_keeps. intros g.
    apply keeps_bind; [apply keeps_check_global_scale|intros _].
    unfold per_species_values. keeps.
  - intros [g p]. apply keeps_bind.
    + destruct p; [apply keeps_store_per_species|apply keeps_pure].
    + intros _. unfold assemble. apply keeps_bind; [|intros; keeps].
      intros st. now rewrite assemble_state_build.
Qed.

(** *** The statistics mapping *)

Lemma set_value_key key variable_name value_dict v :
  dict_get key value_dict = Some v ->
  set_value (VStr key) variable_name value_dict = Ok v.
Proof.
  induction value_dict as [|[k v'] items IH]; simpl; [discriminate|].
  rewrite (String.eqb_sym key k). destruct (String.eqb k key); [|exact IH].
  now inversion 1.
Qed.

Lemma dict_get_setitem k k' v d :
  dict_get k (dict_setitem k' v d) = if String.eqb k' k then Some v else dict_get k d.
Proof.
  induction d as [|[k0 v0] items IH]; simpl.
  - reflexivity.
  - destruct (String.eqb k0 k') eqn:E0; simpl.
    + apply String.eqb_eq in E0. subst k0. now destruct (String.eqb k' k).
    + rewrite IH. destruct (String.eqb k0 k) eqn:E1; [|reflexivity].
      apply String.eqb_eq in E1. subst k0. now rewrite String.eqb_sym, E0.
Qed.

Lemma dict_setitem_keeps k k' v d :
  is_Some (dict_get k d) -> is_Some (dict_get k (dict_setitem k' v d)).
Proof. rewrite dict_get_setitem. destruct (String.eqb k' k); eauto. Qed.

Lemma dict_setitem_sets k v d : is_Some (dict_get k (dict_setitem k v d)).
Proof. rewrite dict_get_setitem, String.eqb_refl. eauto. Qed.

Ltac bind_Ok_inv H :=
  let st := fresh "st" in let a := fresh "a" in let e := fresh "e" in
  let H1 := fresh "H" in let He := fresh "H" in
  apply bind_inv in H as [(st & a & H1 & H)|(e & _ & He)]; [|discriminate He].

Lemma force_rms_statistics_dict keys d st st' d' :
  force_rms_statistics keys d st = (st', Ok d') ->
  (forall k, is_Some (dict_get k d) -> is_Some (dict_get k d'))
  /\ ("force_rms" ∈ keys -> is_Some (dict_get "dataset_force_rms" d')).
Proof.
  unfold force_rms_statistics. intros H.
  destruct (decide ("force_rms" ∈ keys)) as [Hk|Hk].
  - do 3 bind_Ok_inv H. inversion H; subst. split.
    + intros k. apply dict_setitem_keeps.
    + intros _. apply dict_setitem_sets.
  - inversion H; subst. tauto.
Qed.

Lemma energy_statistics_dict keys d st st' d' :
  energy_statistics keys d st = (st', Ok d') ->
  (forall k, is_Some (dict_get k d) -> is_Some (dict_get k d'))
  /\ ("energy_std" ∈ keys \/ "energy_mean" ∈ keys ->
      is_Some (dict_get "dataset_energy_mean" d')
      /\ is_Some (dict_get "dataset_energy_std" d')).
Proof.
  unfold energy_statistics. intros H.
  destruct (decide ("energy_std" ∈ keys ∨ "energy_mean" ∈ keys)) as [Hk|Hk].
  - do 3 bind_Ok_inv H. destruct a1 as [mean std]. inversion H; subst. split.
    + intros k Hd. now do 2 apply dict_setitem_keeps.
    + intros _. split; [apply dict_setitem_keeps|]; apply dict_setitem_sets.
  - inversion H; subst. tauto.
Qed.

Lemma per_species_statistics_dict keys sigma d st st' d' :
  per_species_statistics keys sigma d st = (st', Ok d') ->
  (forall k, is_Some (dict_get k d) -> is_Some (dict_get k d'))
  /\ ("per_species_energy_std" ∈ keys \/ "per_species_energy_mean" ∈ keys ->
      is_Some (dict_get "dataset_per_species_energy_mean" d')
      /\ is_Some (dict_get "dataset_per_species_energy_std" d')).
Proof.
  unfold per_species_statistics. intros H.
  destruct (decide ("per_species_energy_std" ∈ keys ∨ "per_species_energy_mean" ∈ keys))
    as [Hk|Hk].
  - do 4 bind_Ok_inv H. destruct a2 as [mean std]. inversion H; subst. split.
    + intros k Hd. now do 2 apply dict_setitem_keeps.
    + intros _. split; [apply dict_setitem_keeps|]; apply dict_setitem_sets.
  - inversion H; subst. tauto.
Qed.

Lemma family_names name mode :
  family name = Some mode ->
  name = "force_rms" \/ name = "energy_mean" \/ name = "energy_std"
  \/ name = "per_species_energy_mean" \/ name = "per_species_energy_std".
Proof.
  unfold family.
  destruct (String.eqb name "force_rms") eqn:E1;
    [apply String.eqb_eq in E1; tauto|].
  destruct (String.eqb name "energy_mean") eqn:E2;
    [apply String.eqb_eq in E2; tauto|].
  destruct (String.eqb name "energy_std") eqn:E3;
    [apply String.eqb_eq in E3; tauto|].
  destruct (String.eqb name "per_species_energy_mean") eqn:E4;
    [apply String.eqb_eq in E4; tauto|].
  destruct (String.eqb name "per_species_energy_std") eqn:E5;
    [apply String.eqb_eq in E5; tauto|].
  discriminate.
Qed.

Lemma get_statistics_dict keys sigma st st' d name mode :
  get_statistics keys sigma st = (st', Ok d) ->
  name ∈ keys ->
  family name = Some mode ->
  is_Some (dict_get ("dataset_" +:+ name) d).
Proof.
  unfold get_statistics. intros H Hk Hf.
  bind_Ok_inv H. bind_Ok_inv H.
  apply force_rms_statistics_dict in H0 as [_ F1].
  apply energy_statistics_dict in H1 as [K2 F2].
  apply per_species_statistics_dict in H as [K3 F3].
  destruct (family_names _ _ Hf) as [-> | [-> | [-> | [-> | ->]]]]; simpl.
  - apply K3, K2, F1, Hk.
  - apply K3, F2. now right.
  - apply K3, F2. now left.
  - apply F3. now right.
  - apply F3. now left.
Qed.

Lemma resolve_global_inv st st' g :
  resolve_global st = (st', Ok g) ->
  exists st1,
    determine_statistics st = (st1, Ok (req g))
    /\ get_statistics (keys (req g)) (sigma (rescale (req g))) st1
       = (st', Ok (dataset_statistics g))
    /\ set_value (global_shift (rescale (req g))) "global_shift" (dataset_statistics g)
       = Ok (resolved_shift g)
    /\ set_value (global_scale (rescale (req g))) "global_scale" (dataset_statistics g)
       = Ok (resolved_scale g).
Proof.
  unfold resolve_global. intros H. bind_Ok_inv H.
  destruct (bool_decide _ && negb _); [discriminate|].
  do 3 bind_Ok_inv H. inversion H; subst. simpl.
  unfold lift in H2, H3. inversion H2. inversion H3. subst. eauto 6.
Qed.

(** *** The kinds of the resolved values *)













Lemma passes_NoDup keys l : passes keys l -> NoDup (map modes l).
Proof.
  intros (l1 & l2 & l3 & -> & [->|(_ & c1 & -> & M1)] & [->|(_ & c2 & -> & M2)]
          & [->|(_ & c3 & -> & M3)]); simpl;
    rewrite ?M1, ?M2, ?M3; compute_done.
Qed.

Lemma passes_elem keys l c :
  passes keys l -> c ∈ l ->
  exists name mode, name ∈ keys /\ family name = Some mode /\ modes c = mode :: nil.
Proof.
  intros (l1 & l2 & l3 & -> & A1 & A2 & A3) Hc.
  rewrite !elem_of_app in Hc.
  destruct Hc as [Hc|[Hc|Hc]].
  - destruct A3 as [->|([Hk|Hk] & c3 & -> & M3)];
      [now apply elem_of_nil in Hc| |];
      apply list_elem_of_singleton in Hc; subst c3; eauto.
  - destruct A2 as [->|([Hk|Hk] & c2 & -> & M2)];
      [now apply elem_of_nil in Hc| |];
      apply list_elem_of_singleton in Hc; subst c2; eauto.
  - destruct A1 as [->|(Hk & c1 & -> & M1)]; [now apply elem_of_nil in Hc|].
    apply list_elem_of_singleton in Hc; subst c1. eauto.
Qed.

Lemma statistic_key_placeholder (name : string) :
  statistic_key (VStr ("dataset_" +:+ name)) = name :: nil.
Proof. reflexivity. Qed.

Lemma statistic_key_inv (v : pyval) (name : string) :
  name ∈ statistic_key v ->
  exists s, v = VStr s /\ startswith s "dataset" = true
            /\ name = str_slice_from (String.length "dataset_") s.
Proof.
  destruct v as [| | | |s| | |]; simpl; try (intros H; now apply elem_of_nil in H).
  destruct (startswith s "dataset") eqn:E; [|intros H; now apply elem_of_nil in H].
  intros H. apply list_elem_of_singleton in H. eauto.
Qed.

Lemma min2_cases a b : min2 a b = a \/ min2 a b = b.
Proof.
  unfold min2. destruct (is_nan a); [now left|].
  destruct (is_nan b); [now right|]. destruct (PrimFloat.ltb b a); tauto.
Qed.

Lemma fold_min2_entry xs x : fold_left min2 xs x ∈ x :: xs.
Proof.
  revert x. induction xs as [|y ys IH]; intros x; simpl.
  - apply list_elem_of_singleton. reflexivity.
  - specialize (IH (min2 x y)). apply elem_of_cons in IH as [IH|IH].
    + rewrite IH. destruct (min2_cases x y) as [->| ->].
      * apply elem_of_cons. now left.
      * apply elem_of_cons. right. apply elem_of_cons. now left.
    + apply elem_of_cons. right. apply elem_of_cons. now right.
Qed.

Lemma torch_min_entry xs m : torch_min (VTensor (Tensor1 xs)) = Ok m -> m ∈ xs.
Proof.
  destruct xs as [|x xs]; simpl; [discriminate|].
  intros H. inversion H; subst. apply fold_min2_entry.
Qed.

Lemma statistics_keys_slot r name :
  name ∈ statistics_keys r ->
  exists slot, slot ∈ slots r /\ name ∈ statistic_key slot.
Proof.
  unfold statistics_keys. rewrite elem_of_list_to_set, list_elem_of_In, in_flat_map.
  intros (slot & Hs & Hn). exists slot. split; now apply list_elem_of_In.
Qed.

Lemma per_species_values_inv g st st' p :
  per_species_values g st = (st', Ok (Some p)) ->
  set_value (scales (rescale (req g))) "per_species_scales" (dataset_statistics g)
  = Ok (resolved_scales p)
  /\ set_value (shifts (rescale (req g))) "per_species_shifts" (dataset_statistics g)
     = Ok (resolved_shifts p)
  /\ gs p = (if is_none (resolved_scale g) then VInt 1 else resolved_scale g)
  /\ st' = st.
Proof.
  unfold per_species_values. intros H. bind_Ok_inv H.
  destruct a; [|discriminate]. do 2 bind_Ok_inv H.
  inversion H; subst. inversion H0. inversion H1. inversion H2. subst. simpl. tauto.
Qed.

(** X19. In every run: (a) no two passes over the dataset have the same
    mode, so each statistic family is computed at most once; (b) a pass is
    made only for a family that the script's own analysis finds in one of
    the four slots: the slot is a string that starts with [dataset], and
    the name left after its first eight characters (lines 174-175) is
    required and is in the family; (c) for a required name of a family,
    the statistics mapping
    holds a value under [dataset_<name>], and resolving the placeholder
    [dataset_<name>] returns exactly that value, for every slot name, and
    so in each of the four slots that hold the placeholder. *)
Theorem one_pass_per_statistic_family (cfg : gmap string pyval) :
  NoDup (map modes (calls (fst (run cfg))))
  /\ (forall c, c ∈ calls (fst (run cfg)) ->
        exists st q slot s name mode,
          determine_statistics (init cfg) = (st, Ok q)
          /\ slot ∈ slots (rescale q)
          /\ slot = VStr s
          /\ startswith s "dataset" = true
          /\ name = str_slice_from (String.length "dataset_") s
          /\ name ∈ keys q
          /\ family name = Some mode
          /\ modes c = mode :: nil)
  /\ (forall st g name mode,
        resolve_global (init cfg) = (st, Ok g) ->
        name ∈ keys (req g) ->
        family name = Some mode ->
        exists v,
          dict_get ("dataset_" +:+ name) (dataset_statistics g) = Some v
          /\ (forall variable_name,
                set_value (VStr ("dataset_" +:+ name)) variable_name
                  (dataset_statistics g) = Ok v)
          /\ (global_shift (rescale (req g)) = VStr ("dataset_" +:+ name) ->
              resolved_shift g = v)
          /\ (global_scale (rescale (req g)) = VStr ("dataset_" +:+ name) ->
              resolved_scale g = v)
          /\ (forall st1 st2 p,
                per_species_values g st1 = (st2, Ok (Some p)) ->
                (scales (rescale (req g)) = VStr ("dataset_" +:+ name) ->
                 resolved_scales p = v)
                /\ (shifts (rescale (req g)) = VStr ("dataset_" +:+ name) ->
                    resolved_shifts p = v))).
Proof.
  split; [|split].
  - rewrite run_calls.
    destruct (resolve_global_calls (init cfg)) as [->|(st1 & q & l & _ & -> & Hp)].
    + constructor.
    + simpl. rewrite app_nil_r. now apply passes_NoDup with (keys q).
  - intros c. rewrite run_calls.
    destruct (resolve_global_calls (init cfg)) as [->|(st1 & q & l & Hq & -> & Hp)].
    + simpl. intros Hc. now apply elem_of_nil in Hc.
    + simpl. rewrite app_nil_r. intros Hc.
      destruct (passes_elem _ _ _ Hp Hc) as (name & mode & Hk & Hf & Hm).
      pose proof Hk as Hk'.
      rewrite (determine_statistics_keys _ _ _ Hq) in Hk'.
      destruct (statistics_keys_slot _ _ Hk') as (slot & Hs & Hn).
      destruct (statistic_key_inv _ _ Hn) as (s & Hv & Hp' & Hname).
      exists st1, q, slot, s, name, mode. tauto.
  - intros st g name mode Hg Hk Hf.
    destruct (resolve_global_inv _ _ _ Hg) as (st1 & Hq & Hd & Hshift & Hscale).
    destruct (get_statistics_dict _ _ _ _ _ _ _ Hd Hk Hf) as [v Hv].
    exists v. split; [exact Hv|].
    assert (Hset : forall variable_name,
      set_value (VStr ("dataset_" +:+ name)) variable_name (dataset_statistics g) = Ok v).
    { intros n. now apply set_value_key. }
    split; [exact Hset|]. split; [|split].
    + intros E. rewrite E, Hset in Hshift. now inversion Hshift.
    + intros E. rewrite E, Hset in Hscale. now inversion Hscale.
    + intros st2 st3 p Hp.
      destruct (per_species_values_inv _ _ _ _ Hp) as (Hsc & Hsh & _).
      split; intros E.
      * rewrite E, Hset in Hsc. now inversion Hsc.
      * rewrite E, Hset in Hsh. now inversion Hsh.
Qed.

(** *** Per-species scales and shifts *)

Lemma assemble_state g st : fst (assemble g st) = st.
Proof.
  unfold assemble, mbind, M_bind. rewrite build_core_model_eq.
  destruct (config st !! "model_builder"); [|reflexivity].
  destruct (model_builder (config st)); [|reflexivity].
  now destruct (config st !! "model_initializers").
Qed.



(** *** The order of floats *)






(** *** The least entry *)




(** *** The quotient, entry by entry *)




End Properties.

(** ** The properties on the sample inputs *)

Lemma unsupported_training_field_fails_first_witness :
  exists e, run (W := sample) stress_config = (init stress_config, Raise e)
            /\ (e = NotImplementedError \/ e = TypeError).
Proof.
  apply (unsupported_training_field_fails_first (W := sample) stress_config
           (VDict (("stress", VFloat 1) :: nil)) "stress").
  - reflexivity.
  - simpl. apply list_elem_of_singleton. reflexivity.
  - discriminate.
  - discriminate.
Defined.

Lemma global_and_per_species_shift_conflict_witness :
  snd (run (W := sample) conflict_config) = Raise (ValueError OnlyOneShift)
  /\ calls (fst (run (W := sample) conflict_config)) = nil.
Proof.
  apply (global_and_per_species_shift_conflict (W := sample) conflict_config true
           (VStr "dataset_energy_mean")).
  - reflexivity.
  - reflexivity.
  - discriminate.
  - reflexivity.
Defined.

Lemma default_global_shift_conflicts_witness :
  config_get "global_rescale_shift" (VStr "dataset_energy_mean") (init conflict_config)
  = (init conflict_config, Ok (VStr "dataset_energy_mean"))
  /\ snd (run (W := sample) conflict_config) = Raise (ValueError OnlyOneShift).
Proof.
  destruct (default_global_shift_conflicts (W := sample) conflict_config) as [Hd Hc].
  split.
  - apply Hd. reflexivity.
  - apply (Hc true); [reflexivity|discriminate|reflexivity].
Defined.

Lemma force_rms_needs_force_training_witness :
  snd (run (W := sample) energy_only_config)
  = Raise (ValueError ForceRmsWithoutForceTraining)
  /\ calls (fst (run (W := sample) energy_only_config)) = nil.
Proof.
  edestruct (force_rms_needs_force_training (W := sample) energy_only_config)
    as [H Hc].
  - vm_compute. reflexivity.
  - vm_compute. reflexivity.
  - reflexivity.
  - simpl. discriminate.
  - split; [now rewrite H|exact Hc].
Defined.



Lemma set_value_pass_through_witness :
  set_value (VFloat 2.5) "global_scale" (("dataset_force_rms", VFloat 1) :: nil)
  = Ok (VFloat 2.5).
Proof.
  apply (set_value_pass_through (VFloat 2.5) "global_scale"
           (("dataset_force_rms", VFloat 1) :: nil)).
  right. left. exists 2.5%float. reflexivity.
Defined.

(** C3, as stated, fails on an integer literal: 1 is a literal numeric
    scalar and equals no key, yet [set_value] does not return it; the
    script stops with "Invalid global_scale `1`". *)
Lemma set_value_rejects_int_literal :
  set_value (VInt 1) "global_scale" nil <> Ok (VInt 1)
  /\ set_value (VInt 1) "global_scale" nil
     = Raise (ValueError (Invalid "global_scale" (VInt 1)))
  /\ snd (run (W := sample) int_scale_config)
     = Raise (ValueError (Invalid "global_scale" (VInt 1))).
Proof. repeat split. discriminate. Qed.

Lemma one_pass_per_statistic_family_witness :
  map modes (calls (fst (run (W := sample) shared_config))) = ("mean_std" :: nil) :: nil
  /\ exists st g,
       resolve_global (W := sample) (init shared_config) = (st, Ok g)
       /\ resolved_shift g = VFloat 0.5
       /\ resolved_scale g = VFloat 0.5.
Proof.
  split; [reflexivity|].
  destruct (one_pass_per_statistic_family (W := sample) shared_config) as (_ & _ & H).
  eexists. eexists. split; [vm_compute; reflexivity|].
  edestruct H as (v & Hv & _ & Hshift & Hscale & _).
  - vm_compute. reflexivity.
  - instantiate (1 := "energy_std"). vm_compute. reflexivity.
  - reflexivity.
  - vm_compute in Hv. injection Hv as <-.
    split; [apply Hshift|apply Hscale]; reflexivity.
Defined.


Lemma rescale_target_set_witness :
  exists st out,
    run (W := sample) sample_config = (st, Ok out)
    /\ scale_keys out = "total_energy" :: "forces" :: nil
    /\ "total_energy" ∈ scale_keys out
    /\ ("forces" ∈ scale_keys out <-> "forces" ∈ irreps_out (model out))
    /\ ("atomic_energy" ∈ scale_keys out <-> "atomic_energy" ∈ irreps_out (model out)).
Proof.
  eexists. eexists. split; [vm_compute; reflexivity|]. split; [reflexivity|].
  edestruct (rescale_target_set (W := sample) sample_config) as (_ & Ht & Hf & Hp & _).
  - vm_compute. reflexivity.
  - discriminate.
  - discriminate.
  - split; [exact Ht|]. split; [exact Hf|exact Hp].
Defined.

(** C6 at a value that starts with [dataset] but not with [dataset_]: the
    script takes it for a placeholder all the same and drops its first
    eight characters.  [dataset-force_rms] makes it require [force_rms],
    compute that pass, and only then reject the value; the bare string
    [dataset] makes it require the empty name. *)
Theorem placeholder_prefix_lacks_underscore :
  statistic_key (VStr "dataset-force_rms") = "force_rms" :: nil
  /\ statistic_key (VStr "dataset") = "" :: nil
  /\ map modes (calls (fst (run (W := sample) hyphen_config)))
     = ("mean_std" :: nil) :: ("rms" :: nil) :: nil
  /\ snd (run (W := sample) hyphen_config)
     = Raise (ValueError (Invalid "global_scale" (VStr "dataset-force_rms"))).
Proof. repeat split. Qed.

(** C4 at a configuration none of whose four slots holds a placeholder
    [dataset_<name>]: the global scale is [dataset-force_rms], the global
    shift is [None] and the per-species values are absent.  The script
    takes the first for a placeholder, requires [force_rms] and makes the
    rms pass over the dataset; only then is the value rejected. *)
Theorem pass_for_a_family_no_slot_references :
  (exists st q,
     determine_statistics (init hyphen_only_config) = (st, Ok q)
     /\ slots (rescale q)
        = VNone :: VStr "dataset-force_rms" :: VNone :: VNone :: nil)
  /\ (forall name, VStr "dataset-force_rms" <> VStr ("dataset_" +:+ name))
  /\ map modes (calls (fst (run (W := sample) hyphen_only_config)))
     = ("rms" :: nil) :: nil
  /\ snd (run (W := sample) hyphen_only_config)
     = Raise (ValueError (Invalid "global_scale" (VStr "dataset-force_rms"))).
Proof.
  split; [do 2 eexists; split; [vm_compute; reflexivity|reflexivity]|].
  split; [intros name H; discriminate H|]. split; reflexivity.
Qed.

(** ** Further properties of the script *)

Section MoreProperties.

Context `{W : Collaborators}.

(** *** The training type and the rescale type *)

Lemma In_set_contains (s : list pyval) (name : string) :
  VStr name ∈ s -> set_contains s name = true.
Proof.
  intros H. unfold set_contains. apply existsb_exists.
  exists (VStr name). split; [now apply list_elem_of_In|].
  simpl. apply String.eqb_refl.
Qed.

(** X1. When the training type is determined, [force_training] is true
    exactly when [loss_coeffs] names [forces]; the configuration and the
    calls are as before. *)
Theorem force_training_iff_forces (st st' : state) (ft : bool) (v : pyval) :
  determine_training_type st = (st', Ok ft) ->
  config st !! "loss_coeffs" = Some v ->
  (ft = true <-> names_field v "forces") /\ st' = st.
Proof.
  intros H Hv. split; [|now apply determine_training_type_state in H].
  split.
  - intros ->. eapply force_training_names_forces; eassumption.
  - intros Hn. revert H.
    unfold determine_training_type, mbind, M_bind, config_getattr, lift, raise, pure.
    rewrite Hv.
    destruct (set_of _) as [s|e] eqn:Es; [|inversion 1].
    destruct (negb _); [inversion 1|]. intros H. injection H as _ <-.
    apply In_set_contains.
    destruct v as [| | | |s0|t|l|d]; simpl in Hn; try contradiction.
    + subst s0. simpl in Es. injection Es as <-. apply list_elem_of_singleton. reflexivity.
    + simpl in Es. destruct (forallb hashable l); [|discriminate].
      now injection Es as <-.
    + simpl in Es. injection Es as <-.
      apply list_elem_of_In, in_map_iff. apply list_elem_of_In, in_map_iff in Hn.
      destruct Hn as [kv [E Hkv]]. exists kv. now rewrite E.
Qed.

Lemma spellings_differ (key : string) :
  "per_species_scale_shift_" +:+ key <> "PerSpeciesScaleShift_" +:+ key.
Proof. simpl. discriminate. Qed.

Lemma pop_per_species_eq key default st :
  pop_per_species key default st
  = (State (delete ("PerSpeciesScaleShift_" +:+ key)
              (delete ("per_species_scale_shift_" +:+ key) (config st)))
       (calls st),
     Ok (per_species_option (config st) key default)).
Proof.
  unfold pop_per_species, per_species_option, mbind, M_bind, config_pop. simpl config.
  cbv beta iota. simpl calls.
  rewrite lookup_delete_ne by apply spellings_differ. reflexivity.
Qed.


Lemma determine_rescale_type_Ok (ft : bool) st st' r :
  determine_rescale_type ft st = (st', Ok r) ->
  st' = State (popped (config st)) (calls st)
  /\ global_shift r
     = match config st !! "global_rescale_shift" with
       | Some v => v
       | None => VStr "dataset_energy_mean"
       end
  /\ global_scale r
     = match config st !! "global_rescale_scale" with
       | Some v => v
       | None => VStr (if ft then "dataset_force_rms" else "dataset_energy_std")
       end
  /\ per_species_scale_shift r = per_species_option (config st) "enable" (VBool false)
  /\ scales r = per_species_option (config st) "scales" VNone
  /\ shifts r = per_species_option (config st) "shifts" VNone
  /\ sigma r = per_species_option (config st) "sigma" VNone
  /\ (global_shift r = VNone \/ truth (per_species_scale_shift r) = Ok false).
Proof.
  unfold determine_rescale_type.
  erewrite bind_Ok by reflexivity.
  erewrite bind_Ok by reflexivity.
  erewrite bind_Ok by apply get_per_species_eq.
  erewrite bind_Ok by apply pop_per_species_eq.
  erewrite bind_Ok by apply pop_per_species_eq.
  erewrite bind_Ok by apply pop_per_species_eq.
  cbn [config calls].
  assert (E1 : per_species_option
                 (delete ("PerSpeciesScaleShift_" +:+ "scales")
                    (delete ("per_species_scale_shift_" +:+ "scales") (config st)))
                 "shifts" VNone
               = per_species_option (config st) "shifts" VNone).
  { unfold per_species_option. now rewrite !lookup_delete_ne by discriminate. }
  assert (E2 : per_species_option
                 (delete ("PerSpeciesScaleShift_" +:+ "shifts")
                    (delete ("per_species_scale_shift_" +:+ "shifts")
                       (delete ("PerSpeciesScaleShift_" +:+ "scales")
                          (delete ("per_species_scale_shift_" +:+ "scales") (config st)))))
                 "sigma" VNone
               = per_species_option (config st) "sigma" VNone).
  { unfold per_species_option. now rewrite !lookup_delete_ne by discriminate. }
  rewrite E1, E2.
  unfold mbind, M_bind, lift, raise, pure.
  destruct (is_none _) eqn:En.
  - intros H. injection H as <- <-. cbn. repeat split; try reflexivity.
    left. now destruct (config st !! "global_rescale_shift") as [[]|].
  - destruct (truth _) as [[|]|e] eqn:Et; intros H; try discriminate.
    injection H as <- <-. cbn. repeat split; try reflexivity. now right.
Qed.

(** *** What a successful run went through *)

Lemma determine_statistics_Ok st st' q :
  determine_statistics st = (st', Ok q) ->
  determine_training_type st = (st, Ok (force_training q))
  /\ determine_rescale_type (force_training q) st = (st', Ok (rescale q))
  /\ keys q = statistics_keys (rescale q).
Proof.
  unfold determine_statistics. intros H.
  apply bind_inv in H as [(st1 & ft & Ht & H)|(e & _ & He)]; [|discriminate].
  apply bind_inv in H as [(st2 & r & Hr & H)|(e & _ & He)]; [|discriminate].
  unfold pure in H. injection H as <- <-. cbn.
  pose proof (determine_training_type_state _ _ _ Ht) as ->. tauto.
Qed.

Lemma resolve_global_Ok st st' g :
  resolve_global st = (st', Ok g) ->
  exists st1,
    determine_statistics st = (st1, Ok (req g))
    /\ ("force_rms" ∈ keys (req g) -> force_training (req g) = true)
    /\ get_statistics (keys (req g)) (sigma (rescale (req g))) st1
       = (st', Ok (dataset_statistics g))
    /\ set_value (global_shift (rescale (req g))) "global_shift" (dataset_statistics g)
       = Ok (resolved_shift g)
    /\ set_value (global_scale (rescale (req g))) "global_scale" (dataset_statistics g)
       = Ok (resolved_scale g).
Proof.
  intros H. destruct (resolve_global_inv _ _ _ H) as (st1 & Hq & Hd & Hsh & Hsc).
  exists st1. repeat split; try assumption.
  intros Hk. unfold resolve_global in H. erewrite bind_Ok in H by exact Hq.
  rewrite bool_decide_eq_true_2 in H by exact Hk.
  destruct (force_training (req g)); [reflexivity|discriminate].
Qed.

Lemma check_global_scale_Ok v st st' :
  check_global_scale v st = (st', Ok tt) ->
  st' = st /\ forall x, v = VFloat x -> PrimFloat.ltb x RESCALE_THRESHOLD = false.
Proof.
  unfold check_global_scale, raise, pure.
  destruct v; try (intros H; injection H as <-; split; [reflexivity|discriminate]).
  destruct (PrimFloat.ltb x RESCALE_THRESHOLD) eqn:E; [discriminate|].
  intros H. injection H as <-. split; [reflexivity|].
  intros y Hy. now injection Hy as <-.
Qed.

Lemma per_species_values_Ok g st st' p :
  per_species_values g st = (st', Ok p) ->
  st' = st
  /\ match p with
     | None => truth (per_species_scale_shift (rescale (req g))) = Ok false
     | Some p =>
         truth (per_species_scale_shift (rescale (req g))) = Ok true
         /\ set_value (scales (rescale (req g))) "per_species_scales"
              (dataset_statistics g) = Ok (resolved_scales p)
         /\ set_value (shifts (rescale (req g))) "per_species_shifts"
              (dataset_statistics g) = Ok (resolved_shifts p)
         /\ gs p = (if is_none (resolved_scale g) then VInt 1 else resolved_scale g)
     end.
Proof.
  unfold per_species_values, mbind, M_bind, lift, pure.
  destruct (truth _) as [[|]|e]; try discriminate.
  - destruct (set_value (scales _) _ _) as [sc|e]; [|discriminate].
    destruct (set_value (shifts _) _ _) as [sh|e]; [|discriminate].
    intros H. injection H as <- <-. cbn. tauto.
  - intros H. injection H as <- <-. tauto.
Qed.

Lemma resolve_per_species_Ok st st' g p :
  resolve_per_species st = (st', Ok (g, p)) ->
  resolve_global st = (st', Ok g)
  /\ (forall x, resolved_scale g = VFloat x ->
        PrimFloat.ltb x RESCALE_THRESHOLD = false)
  /\ per_species_values g st' = (st', Ok p).
Proof.
  unfold resolve_per_species. intros H.
  apply bind_inv in H as [(st1 & g1 & Hg & H)|(e & _ & He)]; [|discriminate].
  apply bind_inv in H as [(st2 & [] & Hc & H)|(e & _ & He)]; [|discriminate].
  apply bind_inv in H as [(st3 & p1 & Hp & H)|(e & _ & He)]; [|discriminate].
  unfold pure in H. injection H as <- <- <-.
  apply check_global_scale_Ok in Hc as [-> Hc].
  pose proof (per_species_values_Ok _ _ _ _ Hp) as [-> _]. tauto.
Qed.

Lemma store_per_species_Ok p st st' :
  store_per_species p st = (st', Ok tt) ->
  exists a b,
    relative (resolved_scales p) (gs p) = Ok a
    /\ relative (resolved_shifts p) (gs p) = Ok b
    /\ st' = State (<["PerSpeciesScaleShift_shifts" := b]>
                      (<["PerSpeciesScaleShift_scales" := a]> (config st)))
               (calls st)
    /\ (is_none (resolved_scales p) = false ->
        exists m, torch_min (resolved_scales p) = Ok m
                  /\ PrimFloat.ltb m RESCALE_THRESHOLD = false).
Proof.
  unfold store_per_species, relative, mbind, M_bind, lift, pure, raise, config_setitem.
  destruct (is_none (resolved_scales p)) eqn:En.
  - destruct (is_none (resolved_shifts p)) eqn:Em.
    + intros H. injection H as <-. cbn. eexists _, _. repeat split. discriminate.
    + cbn. destruct (truediv (resolved_shifts p) (gs p)) as [b|e]; [|discriminate].
      intros H. injection H as <-. cbn. eexists _, _. repeat split. discriminate.
  - destruct (torch_min (resolved_scales p)) as [m|e]; [|discriminate].
    destruct (PrimFloat.ltb m RESCALE_THRESHOLD) eqn:E; [discriminate|].
    destruct (truediv (resolved_scales p) (gs p)) as [a|e]; [|discriminate]. cbn.
    destruct (is_none (resolved_shifts p)) eqn:Em.
    + intros H. injection H as <-. eexists _, _. repeat split. eauto.
    + destruct (truediv (resolved_shifts p) (gs p)) as [b|e]; [|discriminate].
      intros H. injection H as <-. eexists _, _. repeat split. eauto.
Qed.

Lemma fresh_start_Ok st st' out :
  fresh_start st = (st', Ok out) ->
  exists st1 g p,
    resolve_per_species st = (st1, Ok (g, p))
    /\ match p with
       | Some p => store_per_species p st1 = (st', Ok tt)
       | None => st' = st1
       end
    /\ assemble g st' = (st', Ok out).
Proof.
  unfold fresh_start. intros H.
  apply bind_inv in H as [(st1 & [g p] & Hp & H)|(e & _ & He)]; [|discriminate].
  apply bind_inv in H as [(st2 & [] & Hs & H)|(e & _ & He)]; [|discriminate].
  pose proof (assemble_scale_keys _ _ _ _ H) as [-> _].
  exists st1, g, p. repeat split; try assumption.
  destruct p; [exact Hs|]. unfold pure in Hs. now injection Hs as <-.
Qed.

(** *** The three passes, step by step *)

Lemma force_rms_statistics_eq keys d st :
  force_rms_statistics keys d st
  = if decide ("force_rms" ∈ keys) then
      match config st !! "dataset_statistics_stride" with
      | None => (st, Raise (KeyError "dataset_statistics_stride"))
      | Some stride =>
          (State (config st) (rms_call stride :: calls st),
           match unpack1 (map (map aggregate_val) (dataset_train (rms_call stride))) with
           | Ok rms => Ok (dict_setitem "dataset_force_rms" rms d)
           | Raise e => Raise e
           end)
      end
    else (st, Ok d).
Proof.
  unfold force_rms_statistics, mbind, M_bind, config_getattr, statistics, lift, pure.
  destruct (decide _); [|reflexivity].
  destruct (config st !! "dataset_statistics_stride"); [|reflexivity].
  cbn. now destruct (unpack1 _).
Qed.

Lemma energy_statistics_eq keys d st :
  energy_statistics keys d st
  = if decide ("energy_std" ∈ keys ∨ "energy_mean" ∈ keys) then
      match config st !! "dataset_statistics_stride" with
      | None => (st, Raise (KeyError "dataset_statistics_stride"))
      | Some stride =>
          (State (config st) (mean_std_call stride :: calls st),
           match unpack2 (map (map aggregate_val) (dataset_train (mean_std_call stride))) with
           | Ok (mean, std) =>
               Ok (dict_setitem "dataset_energy_std" std
                     (dict_setitem "dataset_energy_mean" mean d))
           | Raise e => Raise e
           end)
      end
    else (st, Ok d).
Proof.
  unfold energy_statistics, mbind, M_bind, config_getattr, statistics, lift, pure.
  destruct (decide _); [|reflexivity].
  destruct (config st !! "dataset_statistics_stride"); [|reflexivity].
  cbn. now destruct (unpack2 _) as [[mean std]|].
Qed.

Lemma per_species_statistics_eq keys sigma d st :
  per_species_statistics keys sigma d st
  = if decide ("per_species_energy_std" ∈ keys ∨ "per_species_energy_mean" ∈ keys) then
      match config st !! "dataset_statistics_stride" with
      | None => (st, Raise (KeyError "dataset_statistics_stride"))
      | Some stride =>
          let c := atom_type_mean_std_call stride sigma
                     (per_species_option (config st) "algorithm_kwargs" (VDict nil)) in
          (State (config st) (c :: calls st),
           match unpack2 (map (map aggregate_val) (dataset_train c)) with
           | Ok (mean, std) =>
               Ok (dict_setitem "dataset_per_species_energy_std" std
                     (dict_setitem "dataset_per_species_energy_mean" mean d))
           | Raise e => Raise e
           end)
      end
    else (st, Ok d).
Proof.
  unfold per_species_statistics.
  destruct (decide _); [|reflexivity].
  erewrite bind_Ok by apply get_per_species_eq.
  unfold mbind, M_bind, config_getattr, statistics, lift, pure.
  destruct (config st !! "dataset_statistics_stride"); [|reflexivity].
  cbn. now destruct (unpack2 _) as [[mean std]|].
Qed.

Lemma unpack1_aggregates (r : list (list aggregate)) (v : pyval) :
  unpack1 (map (map aggregate_val) r) = Ok v <-> only_of r = Some v.
Proof.
  destruct r as [|[|a [|b l]] [|l' r]]; cbn; split; intros H;
    try discriminate; now inversion H.
Qed.

Lemma unpack2_aggregates (r : list (list aggregate)) (a b : pyval) :
  unpack2 (map (map aggregate_val) r) = Ok (a, b)
  <-> first_of r = Some a /\ second_of r = Some b.
Proof.
  destruct r as [|[|a0 [|b0 [|c l]]] [|l' r]]; cbn; split; intros H;
    try discriminate; try (destruct H; discriminate).
  - now inversion H.
  - destruct H as [H1 H2]. now inversion H1; inversion H2.
Qed.

Lemma measured_with_stored cfg sigma kw key v :
  measured_with cfg sigma kw key = Some v -> stored_key key.
Proof.
  unfold measured_with, stored_key.
  destruct (cfg !! "dataset_statistics_stride"); [|discriminate].
  destruct (String.eqb key "dataset_force_rms") eqn:E1;
    [apply String.eqb_eq in E1; tauto|].
  destruct (String.eqb key "dataset_energy_mean") eqn:E2;
    [apply String.eqb_eq in E2; tauto|].
  destruct (String.eqb key "dataset_energy_std") eqn:E3;
    [apply String.eqb_eq in E3; tauto|].
  destruct (String.eqb key "dataset_per_species_energy_mean") eqn:E4;
    [apply String.eqb_eq in E4; tauto|].
  destruct (String.eqb key "dataset_per_species_energy_std") eqn:E5;
    [apply String.eqb_eq in E5; tauto|].
  discriminate.
Qed.

Lemma force_rms_statistics_measured keys sigma kw d st st' d' :
  force_rms_statistics keys d st = (st', Ok d') ->
  config st' = config st /\ adds_measured (config st) sigma kw d d'.
Proof.
  rewrite force_rms_statistics_eq.
  destruct (decide _) as [Hk|Hk];
    [|intros H; injection H as <- <-; split; [reflexivity|intros key v; tauto]].
  destruct (config st !! "dataset_statistics_stride") as [stride|] eqn:Es; [|discriminate].
  destruct (unpack1 _) as [rms|e] eqn:Eu; [|discriminate].
  intros H. injection H as <- <-. split; [reflexivity|].
  intros key v. rewrite dict_get_setitem.
  destruct (String.eqb "dataset_force_rms" key) eqn:Ek; [|tauto].
  apply String.eqb_eq in Ek. subst key. intros Hv. injection Hv as <-. right.
  unfold measured_with. rewrite Es. cbn. now apply unpack1_aggregates.
Qed.

Lemma energy_statistics_measured keys sigma kw d st st' d' :
  energy_statistics keys d st = (st', Ok d') ->
  config st' = config st /\ adds_measured (config st) sigma kw d d'.
Proof.
  rewrite energy_statistics_eq.
  destruct (decide _) as [Hk|Hk];
    [|intros H; injection H as <- <-; split; [reflexivity|intros key v; tauto]].
  destruct (config st !! "dataset_statistics_stride") as [stride|] eqn:Es; [|discriminate].
  destruct (unpack2 _) as [[mean std]|e] eqn:Eu; [|discriminate].
  apply unpack2_aggregates in Eu as [Em Ed].
  intros H. injection H as <- <-. split; [reflexivity|].
  intros key v. rewrite !dict_get_setitem.
  destruct (String.eqb "dataset_energy_std" key) eqn:Ek.
  { apply String.eqb_eq in Ek. subst key. intros Hv. injection Hv as <-. right.
    unfold measured_with. rewrite Es. exact Ed. }
  destruct (String.eqb "dataset_energy_mean" key) eqn:Ek'; [|tauto].
  apply String.eqb_eq in Ek'. subst key. intros Hv. injection Hv as <-. right.
  unfold measured_with. rewrite Es. exact Em.
Qed.

Lemma per_species_statistics_measured keys sigma d st st' d' :
  per_species_statistics keys sigma d st = (st', Ok d') ->
  config st' = config st
  /\ adds_measured (config st) sigma
       (per_species_option (config st) "algorithm_kwargs" (VDict nil)) d d'.
Proof.
  rewrite per_species_statistics_eq.
  destruct (decide _) as [Hk|Hk];
    [|intros H; injection H as <- <-; split; [reflexivity|intros key v; tauto]].
  destruct (config st !! "dataset_statistics_stride") as [stride|] eqn:Es; [|discriminate].
  cbv zeta. destruct (unpack2 _) as [[mean std]|e] eqn:Eu; [|discriminate].
  apply unpack2_aggregates in Eu as [Em Ed].
  intros H. injection H as <- <-. split; [reflexivity|].
  intros key v. rewrite !dict_get_setitem.
  destruct (String.eqb "dataset_per_species_energy_std" key) eqn:Ek.
  { apply String.eqb_eq in Ek. subst key. intros Hv. injection Hv as <-. right.
    unfold measured_with. rewrite Es. exact Ed. }
  destruct (String.eqb "dataset_per_species_energy_mean" key) eqn:Ek'; [|tauto].
  apply String.eqb_eq in Ek'. subst key. intros Hv. injection Hv as <-. right.
  unfold measured_with. rewrite Es. exact Em.
Qed.

Lemma get_statistics_measured keys sigma st st' d :
  get_statistics keys sigma st = (st', Ok d) ->
  config st' = config st
  /\ forall key v, dict_get key d = Some v ->
       measured_with (config st) sigma
         (per_species_option (config st) "algorithm_kwargs" (VDict nil)) key = Some v.
Proof.
  unfold get_statistics. intros H.
  apply bind_inv in H as [(st1 & d1 & H1 & H)|(e & _ & He)]; [|discriminate].
  apply bind_inv in H as [(st2 & d2 & H2 & H)|(e & _ & He)]; [|discriminate].
  eapply force_rms_statistics_measured in H1 as [C1 A1].
  eapply energy_statistics_measured in H2 as [C2 A2].
  apply per_species_statistics_measured in H as [C3 A3].
  rewrite C2, C1 in *. split; [now rewrite C3|].
  intros key v Hv.
  destruct (A3 _ _ Hv) as [Hv2|Hm]; [|exact Hm].
  destruct (A2 _ _ Hv2) as [Hv1|Hm]; [|exact Hm].
  destruct (A1 _ _ Hv1) as [Hv0|Hm]; [discriminate|exact Hm].
Qed.

(** *** The resolver, in full *)

Lemma set_value_str (s : string) variable_name value_dict :
  set_value (VStr s) variable_name value_dict
  = match dict_get s value_dict with
    | Some v => Ok v
    | None => Raise (ValueError (Invalid variable_name (VStr s)))
    end.
Proof.
  induction value_dict as [|[k v] items IH]; [reflexivity|].
  cbn. rewrite (String.eqb_sym s k). now destruct (String.eqb k s).
Qed.

Lemma set_value_other variable variable_name value_dict :
  isinstance_str variable = false ->
  set_value variable variable_name value_dict
  = if passes_through variable then Ok variable
    else Raise (ValueError (Invalid variable_name variable)).
Proof.
  intros H. rewrite set_value_no_key; [reflexivity|].
  intros key. now destruct variable.
Qed.

(** X3. [set_value] in full: a string is looked up in the statistics
    mapping and stands for the value stored under it, or is rejected when
    it is no key; [None], a float and a tensor are returned as they are;
    every other value is rejected.  The rejection names the role and the
    value. *)
Theorem set_value_resolves
    (variable : pyval) (variable_name : string) (value_dict : list (string * pyval)) :
  set_value variable variable_name value_dict
  = match variable with
    | VStr s =>
        match dict_get s value_dict with
        | Some v => Ok v
        | None => Raise (ValueError (Invalid variable_name variable))
        end
    | VNone | VFloat _ | VTensor _ => Ok variable
    | VBool _ | VInt _ | VList _ | VDict _ =>
        Raise (ValueError (Invalid variable_name variable))
    end.
Proof.
  destruct variable; try apply set_value_str;
    now rewrite set_value_other by reflexivity.
Qed.

Lemma popped_lookup (cfg : gmap string pyval) (k : string) :
  k ∉ popped_keys -> popped cfg !! k = cfg !! k.
Proof.
  unfold popped_keys, popped. intros H.
  rewrite !not_elem_of_cons in H. destruct H as (H1 & H2 & H3 & H4 & H5 & H6 & _).
  now rewrite !lookup_delete_ne by congruence.
Qed.

Lemma popped_per_species_option cfg key default :
  "PerSpeciesScaleShift_" +:+ key ∉ popped_keys ->
  "per_species_scale_shift_" +:+ key ∉ popped_keys ->
  per_species_option (popped cfg) key default = per_species_option cfg key default.
Proof.
  intros H1 H2. unfold per_species_option. now rewrite !popped_lookup.
Qed.

Lemma not_popped_algorithm_kwargs cfg :
  per_species_option (popped cfg) "algorithm_kwargs" (VDict nil)
  = per_species_option cfg "algorithm_kwargs" (VDict nil).
Proof. apply popped_per_species_option; compute_done. Qed.

Lemma not_popped_stride cfg :
  popped cfg !! "dataset_statistics_stride" = cfg !! "dataset_statistics_stride".
Proof. apply popped_lookup. compute_done. Qed.

(** The successful resolution of the global values, on the initial
    configuration. *)
Lemma resolve_global_init cfg st g :
  resolve_global (init cfg) = (st, Ok g) ->
  determine_training_type (init cfg) = (init cfg, Ok (force_training (req g)))
  /\ config st = popped cfg
  /\ global_shift (rescale (req g)) = global_shift_option cfg
  /\ global_scale (rescale (req g))
     = global_scale_option cfg (force_training (req g))
  /\ per_species_scale_shift (rescale (req g))
     = per_species_option cfg "enable" (VBool false)
  /\ scales (rescale (req g)) = per_species_option cfg "scales" VNone
  /\ shifts (rescale (req g)) = per_species_option cfg "shifts" VNone
  /\ (global_shift_option cfg = VNone
      \/ truth (per_species_option cfg "enable" (VBool false)) = Ok false)
  /\ (forall key v, dict_get key (dataset_statistics g) = Some v ->
        measured cfg key = Some v).
Proof.
  intros H. destruct (resolve_global_Ok _ _ _ H) as (st1 & Hq & _ & Hd & _).
  destruct (determine_statistics_Ok _ _ _ Hq) as (Ht & Hr & _).
  destruct (determine_rescale_type_Ok _ _ _ _ Hr)
    as (-> & Hsh & Hsc & Hen & Hs & Hf & Hsig & Hor).
  destruct (get_statistics_measured _ _ _ _ _ Hd) as [Hc Hm]. cbn in Hc, Hm.
  rewrite Hsig, not_popped_algorithm_kwargs in Hm.
  unfold measured_with in Hm. rewrite not_popped_stride in Hm.
  rewrite Hen, Hsh in Hor.
  repeat split; try assumption.
Qed.

(** *** The model gets what was measured *)

Lemma set_value_stands_for cfg slot variable_name d v :
  (forall key v, dict_get key d = Some v -> measured cfg key = Some v) ->
  set_value slot variable_name d = Ok v ->
  stands_for cfg slot v.
Proof.
  intros Hd.
  destruct slot as [| | | |s| | |];
    try (rewrite set_value_other by reflexivity; cbn; try discriminate;
         intros H; now injection H as <-).
  rewrite set_value_str. cbn.
  destruct (dict_get s d) as [w|] eqn:E; [|discriminate].
  intros H. injection H as <-. now apply Hd.
Qed.

(** X4. When a model is assembled, its shift and its scale are what the
    global shift and the global scale of the configuration (the options, or
    their default placeholders) stand for: a literal [None], float or
    tensor for itself, a placeholder for the aggregate the dataset returned
    for it (the rms of the forces; the mean or the standard deviation of
    the total energy, overall or per species), measured with the
    configuration's stride.  The shift is applied to the total energy. *)
Theorem assembled_scale_and_shift
    (cfg : gmap string pyval) (st : state) (out : RescaleOutput) :
  run cfg = (st, Ok out) ->
  exists ft,
    determine_training_type (init cfg) = (init cfg, Ok ft)
    /\ stands_for cfg (global_shift_option cfg) (shift_by out)
    /\ stands_for cfg (global_scale_option cfg ft) (scale_by out)
    /\ shift_keys out = TOTAL_ENERGY_KEY.
Proof.
  intros H. apply fresh_start_Ok in H as (st1 & g & p & Hp & _ & Ha).
  apply resolve_per_species_Ok in Hp as (Hg & _ & _).
  destruct (resolve_global_Ok _ _ _ Hg) as (st0 & _ & _ & _ & Hsh & Hsc).
  destruct (resolve_global_init _ _ _ Hg) as (Ht & _ & Esh & Esc & _ & _ & _ & _ & Hm).
  destruct (assemble_scale_keys _ _ _ _ Ha) as (_ & _ & _ & Eby & Ebs & Ek).
  exists (force_training (req g)). split; [exact Ht|].
  rewrite Eby, Ebs, <- Esh, <- Esc. repeat split; try assumption.
  - eapply set_value_stands_for; eassumption.
  - eapply set_value_stands_for; eassumption.
Qed.

(** *** What becomes of the configuration *)

Lemma popped_absent (cfg : gmap string pyval) (k : string) :
  k ∈ popped_keys -> popped cfg !! k = None.
Proof.
  unfold popped_keys, popped. rewrite !elem_of_cons, elem_of_nil.
  intros [->|[->|[->|[->|[->|[->|[]]]]]]];
    repeat first [ rewrite lookup_delete_eq; reflexivity
                 | rewrite lookup_delete_ne by discriminate ].
Qed.

(** X5. When a model is assembled, the configuration the builder saw and
    the script leaves is the initial one with the per-species [scales],
    [shifts] and [sigma] options, in both spellings, consumed: every other
    option is as it was, the lower-case spellings and [sigma] are gone, and
    [PerSpeciesScaleShift_scales] and [PerSpeciesScaleShift_shifts] are
    there exactly when per-species scale/shift is enabled (so values a user
    gave for them are dropped when it is not). *)
Theorem per_species_options_consumed
    (cfg : gmap string pyval) (st : state) (out : RescaleOutput) :
  run cfg = (st, Ok out) ->
  exists enabled : bool,
    truth (per_species_option cfg "enable" (VBool false)) = Ok enabled
    /\ (forall k, k ∉ popped_keys -> config st !! k = cfg !! k)
    /\ config st !! "per_species_scale_shift_scales" = None
    /\ config st !! "per_species_scale_shift_shifts" = None
    /\ config st !! "per_species_scale_shift_sigma" = None
    /\ config st !! "PerSpeciesScaleShift_sigma" = None
    /\ (is_Some (config st !! "PerSpeciesScaleShift_scales") <-> enabled = true)
    /\ (is_Some (config st !! "PerSpeciesScaleShift_shifts") <-> enabled = true).
Proof.
  intros H. apply fresh_start_Ok in H as (st1 & g & p & Hp & Hs & _).
  apply resolve_per_species_Ok in Hp as (Hg & _ & Hv).
  destruct (resolve_global_init _ _ _ Hg) as (_ & Hc & _ & _ & Hen & _).
  apply per_species_values_Ok in Hv as [_ Hv]. rewrite Hen in Hv.
  destruct p as [p|].
  - destruct Hv as (Ht & _). exists true. split; [exact Ht|].
    apply store_per_species_Ok in Hs as (a & b & _ & _ & -> & _). cbn [config].
    rewrite Hc. split; [|repeat split].
    + intros k Hk.
      rewrite !lookup_insert_ne by (intros <-; apply Hk; compute_done).
      now apply popped_lookup.
    + rewrite !lookup_insert_ne by discriminate. apply popped_absent. compute_done.
    + rewrite !lookup_insert_ne by discriminate. apply popped_absent. compute_done.
    + rewrite !lookup_insert_ne by discriminate. apply popped_absent. compute_done.
    + rewrite !lookup_insert_ne by discriminate. apply popped_absent. compute_done.
    + rewrite lookup_insert_ne by discriminate. rewrite lookup_insert_eq. eauto.
    + rewrite lookup_insert_eq. eauto.
  - exists false. split; [exact Hv|]. subst st. rewrite Hc.
    split; [intros k Hk; now apply popped_lookup|].
    rewrite !popped_absent by compute_done.
    repeat split; try discriminate; intros [x Hx]; discriminate.
Qed.

Lemma touches_pure {A : Type} K (a : A) : touches_only K (pure a).
Proof. now intros st k. Qed.

Lemma touches_raise {A : Type} K (e : exn) : touches_only K (@raise A e).
Proof. now intros st k. Qed.

Lemma touches_lift {A : Type} K (r : result A) : touches_only K (lift r).
Proof. now intros st k. Qed.

Lemma touches_config_get K key default : touches_only K (config_get key default).
Proof. now intros st k. Qed.

Lemma touches_config_getattr K key : touches_only K (config_getattr key).
Proof. now intros st k. Qed.

Lemma touches_statistics K c : touches_only K (statistics c).
Proof. now intros st k. Qed.

Lemma touches_build_core_model K : touches_only K build_core_model.
Proof. intros st k _. now rewrite (assemble_state_build st). Qed.

Lemma touches_config_pop (K : list string) key default :
  key ∈ K -> touches_only K (config_pop key default).
Proof.
  intros HK st k Hk. cbn. apply lookup_delete_ne. now intros ->.
Qed.

Lemma touches_config_setitem (K : list string) key value :
  key ∈ K -> touches_only K (config_setitem key value).
Proof.
  intros HK st k Hk. cbn. apply lookup_insert_ne. now intros ->.
Qed.

Lemma touches_bind {A B : Type} K (m : M A) (f : A -> M B) :
  touches_only K m -> (forall a, touches_only K (f a)) -> touches_only K (m ≫= f).
Proof.
  intros Hm Hf st k Hk. unfold mbind, M_bind. specialize (Hm st k Hk).
  destruct (m st) as [st1 [a|e]]; cbn in *; [|exact Hm].
  now rewrite Hf.
Qed.

Lemma touches_if {A : Type} K (b : bool) (m1 m2 : M A) :
  touches_only K m1 -> touches_only K m2 -> touches_only K (if b then m1 else m2).
Proof. now destruct b. Qed.

Lemma touches_sumbool {A : Type} K {P Q : Prop} (b : {P} + {Q}) (m1 m2 : M A) :
  touches_only K m1 -> touches_only K m2 -> touches_only K (if b then m1 else m2).
Proof. now destruct b. Qed.

Ltac touches :=
  repeat first
    [ apply touches_pure | apply touches_raise | apply touches_lift
    | apply touches_config_get | apply touches_config_getattr
    | apply touches_statistics | apply touches_build_core_model
    | apply touches_config_pop; compute_done
    | apply touches_config_setitem; compute_done
    | apply touches_if | apply touches_sumbool
    | apply touches_bind; [|intros] ].

Lemma touches_fresh_start : touches_only popped_keys fresh_start.
Proof.
  unfold fresh_start, resolve_per_species, resolve_global, determine_statistics,
    determine_training_type, determine_rescale_type, get_statistics,
    force_rms_statistics, energy_statistics, per_species_statistics,
    check_global_scale, per_species_values, store_per_species, assemble,
    get_per_species, pop_per_species.
  repeat first
    [ progress touches
    | match goal with
      | |- touches_only _ (let '(_, _) := ?x in _) => destruct x
      | |- touches_only _ (match ?x with _ => _ end) => destruct x
      end ].
Qed.

(** X6. Whatever a run comes to, failure included, it leaves every option
    of the configuration as it was, apart from the six per-species [scales],
    [shifts] and [sigma] options (two spellings each). *)
Theorem other_options_untouched (cfg : gmap string pyval) (k : string) :
  k ∉ popped_keys -> config (fst (run cfg)) !! k = cfg !! k.
Proof. intros Hk. exact (touches_fresh_start (init cfg) k Hk). Qed.

(** *** What the dataset is asked *)

Ltac no_calls :=
  repeat first
    [ apply keeps_pure | apply keeps_raise | apply keeps_lift
    | apply keeps_config_get | apply keeps_config_pop
    | apply keeps_config_setitem | apply keeps_config_getattr
    | apply keeps_if
    | apply keeps_bind; [|intros] ].

Lemma calls_well_bind {A B : Type} sigma (m : M A) (f : A -> M B) :
  calls_well sigma m -> (forall a, calls_well sigma (f a)) ->
  calls_well sigma (m ≫= f).
Proof.
  intros Hm Hf st. unfold mbind, M_bind. destruct (Hm st) as [Hc Hcalls].
  destruct (m st) as [st1 [a|e]]; cbn in *; [|tauto].
  destruct (Hf a st1) as [Hc' Hcalls']. split; [congruence|].
  intros c Hin. destruct (Hcalls' c Hin) as [H|H].
  - now apply Hcalls.
  - right. now rewrite <- Hc.
Qed.

Lemma force_rms_statistics_well keys sigma d :
  calls_well sigma (force_rms_statistics keys d).
Proof.
  intros st. rewrite force_rms_statistics_eq.
  destruct (decide _) as [Hk|Hk]; [|cbn; tauto].
  destruct (config st !! "dataset_statistics_stride") as [stride|] eqn:Es; [|cbn; tauto].
  cbn. split; [reflexivity|]. intros c Hc.
  apply elem_of_cons in Hc as [->|Hc]; [|tauto].
  right. exists stride. tauto.
Qed.

Lemma energy_statistics_well keys sigma d :
  calls_well sigma (energy_statistics keys d).
Proof.
  intros st. rewrite energy_statistics_eq.
  destruct (decide _) as [Hk|Hk]; [|cbn; tauto].
  destruct (config st !! "dataset_statistics_stride") as [stride|] eqn:Es; [|cbn; tauto].
  cbn. split; [reflexivity|]. intros c Hc.
  apply elem_of_cons in Hc as [->|Hc]; [|tauto].
  right. exists stride. tauto.
Qed.

Lemma per_species_statistics_well keys sigma d :
  calls_well sigma (per_species_statistics keys sigma d).
Proof.
  intros st. rewrite per_species_statistics_eq.
  destruct (decide _) as [Hk|Hk]; [|cbn; tauto].
  destruct (config st !! "dataset_statistics_stride") as [stride|] eqn:Es; [|cbn; tauto].
  cbn. split; [reflexivity|]. intros c Hc.
  apply elem_of_cons in Hc as [->|Hc]; [|tauto].
  right. exists stride. tauto.
Qed.

Lemma get_statistics_well keys sigma : calls_well sigma (get_statistics keys sigma).
Proof.
  unfold get_statistics.
  apply calls_well_bind; [apply force_rms_statistics_well|intros d1].
  apply calls_well_bind; [apply energy_statistics_well|intros d2].
  apply per_species_statistics_well.
Qed.

(** X7. Every call a run makes to the dataset's statistics has the stride
    the configuration gives under [dataset_statistics_stride], and is one of
    three: the rms of the forces, the mean and standard deviation of the
    total energy, both without keyword arguments, or the per-species mean
    and standard deviation of the total energy with the configuration's
    [sigma] and [algorithm_kwargs] options passed on as they are ([None]
    and the empty dictionary when absent). *)
Theorem statistics_calls_as_configured (cfg : gmap string pyval) (c : stat_call) :
  c ∈ calls (fst (run cfg)) -> expected_call cfg c.
Proof.
  rewrite run_calls. unfold resolve_global.
  destruct (determine_statistics (init cfg)) as [st1 [q|e]] eqn:Hq.
  - erewrite bind_Ok by exact Hq.
    pose proof (keeps_determine_statistics (init cfg)) as Hc. rewrite Hq in Hc.
    cbn in Hc.
    destruct (bool_decide _ && negb _).
    + cbn. rewrite Hc. intros H. now apply elem_of_nil in H.
    + rewrite calls_bind_keeps by (intros; no_calls).
      destruct (determine_statistics_Ok _ _ _ Hq) as (_ & Hr & _).
      destruct (determine_rescale_type_Ok _ _ _ _ Hr) as (-> & _ & _ & _ & _ & _ & Hs & _).
      intros Hin.
      destruct (get_statistics_well (keys q) (sigma (rescale q))
                  (State (popped (config (init cfg))) (calls (init cfg)))) as [_ H].
      destruct (H c Hin) as [Hn|(stride & Hst & Hcall)].
      * now apply elem_of_nil in Hn.
      * cbn in Hst, Hcall. rewrite not_popped_stride in Hst.
        rewrite not_popped_algorithm_kwargs, Hs in Hcall.
        exists stride. split; assumption.
  - erewrite bind_Raise by exact Hq.
    pose proof (keeps_determine_statistics (init cfg)) as Hc. rewrite Hq in Hc.
    cbn in *. rewrite Hc. intros H. now apply elem_of_nil in H.
Qed.

(** *** A missing stride *)

Lemma get_statistics_no_stride keys sigma st name mode :
  name ∈ keys -> family name = Some mode ->
  config st !! "dataset_statistics_stride" = None ->
  get_statistics keys sigma st = (st, Raise (KeyError "dataset_statistics_stride")).
Proof.
  intros Hk Hf Hs. unfold get_statistics, mbind, M_bind.
  rewrite force_rms_statistics_eq, Hs.
  destruct (decide ("force_rms" ∈ keys)) as [H1|H1]; [reflexivity|].
  rewrite energy_statistics_eq, Hs.
  destruct (decide ("energy_std" ∈ keys ∨ "energy_mean" ∈ keys)) as [H2|H2];
    [reflexivity|].
  rewrite per_species_statistics_eq, Hs.
  destruct (decide ("per_species_energy_std" ∈ keys ∨ "per_species_energy_mean" ∈ keys))
    as [H3|H3]; [reflexivity|].
  exfalso. destruct (family_names _ _ Hf) as [-> | [-> | [-> | [-> | ->]]]]; tauto.
Qed.

(** X8. When a statistic of one of the three families is required,
    [force_rms] is not required without force training (so that the check
    of line 177 passes), and the configuration has no
    [dataset_statistics_stride], the run fails with the [KeyError] of that
    option, and no call to the dataset has been made. *)
Theorem missing_stride_fails_before_any_pass
    (cfg : gmap string pyval) (st : state) (q : requirements) (name mode : string) :
  determine_statistics (init cfg) = (st, Ok q) ->
  ("force_rms" ∈ keys q -> force_training q = true) ->
  name ∈ keys q ->
  family name = Some mode ->
  cfg !! "dataset_statistics_stride" = None ->
  run cfg = (st, Raise (KeyError "dataset_statistics_stride"))
  /\ calls (fst (run cfg)) = nil.
Proof.
  intros Hq Hforce Hk Hf Hs.
  assert (Hrun : run cfg = (st, Raise (KeyError "dataset_statistics_stride"))).
  { unfold run, fresh_start, resolve_per_species, resolve_global.
    do 2 apply bind_Raise. erewrite bind_Ok by exact Hq.
    assert (Hb : bool_decide ("force_rms" ∈ keys q) && negb (force_training q) = false).
    { destruct (bool_decide ("force_rms" ∈ keys q)) eqn:E; [|reflexivity].
      apply bool_decide_eq_true_1 in E. now rewrite Hforce. }
    rewrite Hb. apply bind_Raise. eapply get_statistics_no_stride; try eassumption.
    destruct (determine_statistics_Ok _ _ _ Hq) as (_ & Hr & _).
    destruct (determine_rescale_type_Ok _ _ _ _ Hr) as (-> & _). cbn.
    now rewrite not_popped_stride. }
  split; [exact Hrun|]. rewrite Hrun. cbn.
  pose proof (keeps_determine_statistics (init cfg)) as Hc. now rewrite Hq in Hc.
Qed.

(** *** Per-species scales that are no tensor *)

(** X9. A per-species scale given as a Python float is accepted by
    [set_value] but not by [torch.min]: when per-species scale/shift is
    enabled and the run gets as far as the per-species values, it fails
    with [TypeError], and nothing is written to the configuration. *)
Theorem float_per_species_scales_fail
    (cfg : gmap string pyval) (st : state) (g : resolved) (p : per_species)
    (x : float) :
  resolve_per_species (init cfg) = (st, Ok (g, Some p)) ->
  per_species_option cfg "scales" VNone = VFloat x ->
  resolved_scales p = VFloat x
  /\ run cfg = (st, Raise TypeError)
  /\ config st = popped cfg.
Proof.
  intros Hp Hx.
  destruct (resolve_per_species_Ok _ _ _ _ Hp) as (Hg & _ & Hv).
  destruct (resolve_global_init _ _ _ Hg) as (_ & Hc & _ & _ & _ & Hs & _).
  apply per_species_values_Ok in Hv as (_ & _ & Hsc & _).
  rewrite Hs, Hx, set_value_other in Hsc by reflexivity. injection Hsc as Hsc.
  split; [now symmetry|]. split; [|exact Hc].
  unfold run, fresh_start. erewrite bind_Ok by exact Hp.
  apply bind_Raise. unfold store_per_species. rewrite <- Hsc. reflexivity.
Qed.

(** *** The causes of the script's own errors *)

Lemma determine_rescale_type_Raise (ft : bool) st st' e :
  determine_rescale_type ft st = (st', Raise e) ->
  e = RuntimeError
  \/ (e = ValueError OnlyOneShift
      /\ global_shift_option (config st) <> VNone
      /\ truth (per_species_option (config st) "enable" (VBool false)) = Ok true).
Proof.
  unfold determine_rescale_type.
  erewrite bind_Ok by reflexivity.
  erewrite bind_Ok by reflexivity.
  erewrite bind_Ok by apply get_per_species_eq.
  erewrite bind_Ok by apply pop_per_species_eq.
  erewrite bind_Ok by apply pop_per_species_eq.
  erewrite bind_Ok by apply pop_per_species_eq.
  unfold mbind, M_bind, lift, raise, pure.
  fold (global_shift_option (config st)).
  destruct (is_none (global_shift_option (config st))) eqn:En; [discriminate|].
  destruct (truth _) as [[|]|e'] eqn:Et; intros H; try discriminate.
  - injection H as _ <-. right. repeat split.
    intros E. rewrite E in En. discriminate.
  - injection H as _ <-. left. eapply truth_raise, Et.
Qed.

Lemma stored_key_placeholder (s : string) :
  stored_key s ->
  exists name mode, s = "dataset_" +:+ name /\ family name = Some mode.
Proof.
  intros [-> | [-> | [-> | [-> | ->]]]].
  - now exists "force_rms", "rms".
  - now exists "energy_mean", "mean_std".
  - now exists "energy_std", "mean_std".
  - now exists "per_species_energy_mean", "atom_type_mean_std".
  - now exists "per_species_energy_std", "atom_type_mean_std".
Qed.

Lemma slot_invalid (r : rescale_type) sigma st st' ds v name e :
  get_statistics (statistics_keys r) sigma st = (st', Ok ds) ->
  v ∈ slots r ->
  set_value v name ds = Raise e ->
  e = ValueError (Invalid name v)
  /\ passes_through v = false
  /\ forall s, v = VStr s -> ~ stored_key s.
Proof.
  intros Hd Hv He. split; [now apply set_value_raise in He|]. split.
  - destruct (passes_through v) eqn:Ep; [|reflexivity].
    rewrite set_value_other, Ep in He; [discriminate|]. now destruct v.
  - intros s -> Hs. apply stored_key_placeholder in Hs as (n & mode & -> & Hf).
    assert (Hk : n ∈ statistics_keys r).
    { unfold statistics_keys. apply elem_of_list_to_set, list_elem_of_In, in_flat_map.
      exists (VStr ("dataset_" +:+ n)). split; [now apply list_elem_of_In|].
      rewrite statistic_key_placeholder. now left. }
    destruct (get_statistics_dict _ _ _ _ _ _ _ Hd Hk Hf) as [w Hw].
    rewrite set_value_str, Hw in He. discriminate.
Qed.

Lemma store_per_species_Raise p st st' e :
  store_per_species p st = (st', Raise e) ->
  st' = st
  /\ match e with
     | ValueError (AtomicScalingVeryLow m) =>
         torch_min (resolved_scales p) = Ok m
         /\ PrimFloat.ltb m RESCALE_THRESHOLD = true
     | ValueError _ | NotImplementedError | KeyError _ | BuilderError => False
     | _ => True
     end
  \/ (e = TypeError \/ e = ZeroDivisionError \/ e = OverflowError \/ e = RuntimeError).
Proof.
  unfold store_per_species, mbind, M_bind, lift, pure, raise, config_setitem.
  destruct (is_none (resolved_scales p)) eqn:En.
  - destruct (is_none (resolved_shifts p)); [discriminate|]. cbn.
    destruct (truediv (resolved_shifts p) (gs p)) as [b|e'] eqn:Eb; [discriminate|].
    intros H. injection H as _ <-. right. eapply truediv_raise, Eb.
  - destruct (torch_min (resolved_scales p)) as [m|e'] eqn:Em.
    + destruct (PrimFloat.ltb m RESCALE_THRESHOLD) eqn:E.
      * intros H. injection H as <- <-. left. tauto.
      * destruct (truediv (resolved_scales p) (gs p)) as [a|e'] eqn:Ea.
        -- cbn. destruct (is_none (resolved_shifts p)); [discriminate|].
           destruct (truediv (resolved_shifts p) (gs p)) as [b|e'] eqn:Eb; [discriminate|].
           intros H. injection H as _ <-. right. eapply truediv_raise, Eb.
        -- intros H. injection H as _ <-. right. eapply truediv_raise, Ea.
    + intros H. injection H as _ <-. right.
      apply torch_min_raise in Em as [->| ->]; tauto.
Qed.

Lemma determine_training_type_Raise st st' e :
  determine_training_type st = (st', Raise e) ->
  e = KeyError "loss_coeffs" \/ e = TypeError \/ e = NotImplementedError.
Proof.
  unfold determine_training_type, mbind, M_bind, config_getattr, lift, raise, pure.
  destruct (config st !! "loss_coeffs") as [v|]; [|intros H; injection H as _ <-; tauto].
  destruct (set_of _) as [s|e'] eqn:Es.
  - destruct (negb _); intros H; [injection H as _ <-; tauto|discriminate].
  - intros H. injection H as _ <-. right. left.
    destruct (if isinstance_str v then VList (v :: nil) else v)
      as [| | | |s|[x|xs]|l|d]; cbn in Es; try discriminate; try now injection Es.
    destruct (forallb hashable l); [discriminate|now injection Es].
Qed.

Lemma unpack1_Raise r e : unpack1 r = Raise e -> e = ValueError Unpack.
Proof.
  destruct r as [|[|a [|b l]] [|l' r]]; cbn; intros H; try discriminate;
    now injection H.
Qed.

Lemma unpack2_Raise r e : unpack2 r = Raise e -> e = ValueError Unpack.
Proof.
  destruct r as [|[|a [|b [|c l]]] [|l' r]]; cbn; intros H; try discriminate;
    now injection H.
Qed.

Lemma get_statistics_Raise keys sigma st st' e :
  get_statistics keys sigma st = (st', Raise e) ->
  e = KeyError "dataset_statistics_stride" \/ e = ValueError Unpack.
Proof.
  unfold get_statistics, mbind, M_bind.
  rewrite force_rms_statistics_eq.
  assert (B1 : forall st0 d0 st1 e1,
    energy_statistics keys d0 st0 = (st1, Raise e1) ->
    e1 = KeyError "dataset_statistics_stride" \/ e1 = ValueError Unpack).
  { intros st0 d0 st1 e1. rewrite energy_statistics_eq.
    destruct (decide _) as [Hk|Hk]; [|discriminate].
    destruct (config st0 !! "dataset_statistics_stride");
      [|intros H; injection H as _ <-; tauto].
    destruct (unpack2 _) as [[mean std]|e2] eqn:Eu; [discriminate|].
    intros H. injection H as _ <-. right. eapply unpack2_Raise, Eu. }
  assert (B2 : forall st0 d0 st1 e1,
    per_species_statistics keys sigma d0 st0 = (st1, Raise e1) ->
    e1 = KeyError "dataset_statistics_stride" \/ e1 = ValueError Unpack).
  { intros st0 d0 st1 e1. rewrite per_species_statistics_eq.
    destruct (decide _) as [Hk|Hk]; [|discriminate].
    destruct (config st0 !! "dataset_statistics_stride");
      [|intros H; injection H as _ <-; tauto].
    cbv zeta. destruct (unpack2 _) as [[mean std]|e2] eqn:Eu; [discriminate|].
    intros H. injection H as _ <-. right. eapply unpack2_Raise, Eu. }
  assert (B : forall st0 d0 st1 e1,
    (let (st2, r) := energy_statistics keys d0 st0 in
     match r with
     | Ok a => per_species_statistics keys sigma a st2
     | Raise e0 => (st2, Raise e0)
     end) = (st1, Raise e1) ->
    e1 = KeyError "dataset_statistics_stride" \/ e1 = ValueError Unpack).
  { intros st0 d0 st1 e1.
    destruct (energy_statistics keys d0 st0) as [st2 [d2|e2]] eqn:E2.
    - apply B2.
    - intros H. injection H as _ <-. eapply B1, E2. }
  destruct (decide _) as [Hk|Hk]; [|apply B].
  destruct (config st !! "dataset_statistics_stride");
    [|intros H; injection H as _ <-; tauto].
  destruct (unpack1 _) as [rms|e2] eqn:Eu; [apply B|].
  intros H. injection H as _ <-. right. eapply unpack1_Raise, Eu.
Qed.

Lemma per_species_values_Raise g st st' e :
  per_species_values g st = (st', Raise e) ->
  e = RuntimeError
  \/ (truth (per_species_scale_shift (rescale (req g))) = Ok true
      /\ (set_value (scales (rescale (req g))) "per_species_scales"
            (dataset_statistics g) = Raise e
          \/ set_value (shifts (rescale (req g))) "per_species_shifts"
               (dataset_statistics g) = Raise e)).
Proof.
  unfold per_species_values, mbind, M_bind, lift, pure.
  destruct (truth _) as [[|]|e'] eqn:Et; try discriminate.
  - destruct (set_value (scales _) _ _) as [sc|e'] eqn:Esc.
    + destruct (set_value (shifts _) _ _) as [sh|e'] eqn:Esh; [discriminate|].
      intros H. injection H as _ <-. right. tauto.
    + intros H. injection H as _ <-. right. tauto.
  - intros H. injection H as _ <-. left. eapply truth_raise, Et.
Qed.

Lemma assemble_Raise g st st' e :
  assemble g st = (st', Raise e) ->
  e = BuilderError
  \/ (exists k, e = KeyError k /\ config st !! k = None
                /\ (k = "model_builder" \/ k = "model_initializers")).
Proof.
  unfold assemble, mbind, M_bind. rewrite build_core_model_eq.
  destruct (config st !! "model_builder") eqn:Eb;
    [|intros H; injection H as _ <-; eauto 7].
  destruct (model_builder (config st)); [|intros H; injection H as _ <-; tauto].
  destruct (config st !! "model_initializers") eqn:Ei;
    [discriminate|intros H; injection H as _ <-; eauto 7].
Qed.

Lemma resolve_global_Raise cfg st e :
  resolve_global (init cfg) = (st, Raise e) -> explained cfg e.
Proof.
  unfold resolve_global. intros H.
  apply bind_inv in H as [(st1 & q & Hq & H)|(e' & Hq & He)].
  - destruct (bool_decide ("force_rms" ∈ keys q)) eqn:Ek.
    + destruct (force_training q) eqn:Ef; cbn in H.
      * destruct (determine_statistics_Ok _ _ _ Hq) as (Ht & Hr & Hkeys).
        destruct (determine_rescale_type_Ok _ _ _ _ Hr)
          as (-> & Hsh & Hsc & _).
        apply bind_inv in H as [(st2 & ds & Hd & H)|(e' & Hd & He)].
        -- rewrite Hkeys in Hd.
           apply bind_inv in H as [(st3 & shift & Hs & H)|(e' & Hs & He)].
           ++ apply bind_inv in H as [(st4 & scale & Hs' & H)|(e' & Hs' & He)];
                [discriminate|].
              injection He as ->. unfold lift in Hs'. injection Hs' as _ Hs'.
              eapply slot_invalid in Hs' as (-> & Hp & Hn); [|exact Hd|].
              ** cbn. split; [|tauto]. right. left. split; [reflexivity|].
                 exists (force_training q). rewrite Ht. split; [reflexivity|exact Hsc].
              ** unfold slots. apply elem_of_cons. right. apply elem_of_cons. now left.
           ++ injection He as ->. unfold lift in Hs. injection Hs as _ Hs.
              eapply slot_invalid in Hs as (-> & Hp & Hn); [|exact Hd|].
              ** cbn. split; [|tauto]. left. tauto.
              ** unfold slots. apply elem_of_cons. now left.
        -- injection He as ->.
           apply get_statistics_Raise in Hd as [-> | ->]; exact I.
      * unfold raise in H. injection H as _ <-. cbn.
        apply bool_decide_eq_true_1 in Ek. eauto.
    + cbn in H.
      destruct (determine_statistics_Ok _ _ _ Hq) as (Ht & Hr & Hkeys).
      destruct (determine_rescale_type_Ok _ _ _ _ Hr) as (-> & Hsh & Hsc & _).
      apply bind_inv in H as [(st2 & ds & Hd & H)|(e' & Hd & He)].
      * rewrite Hkeys in Hd.
        apply bind_inv in H as [(st3 & shift & Hs & H)|(e' & Hs & He)].
        -- apply bind_inv in H as [(st4 & scale & Hs' & H)|(e' & Hs' & He)];
             [discriminate|].
           injection He as ->. unfold lift in Hs'. injection Hs' as _ Hs'.
           eapply slot_invalid in Hs' as (-> & Hp & Hn); [|exact Hd|].
           ++ cbn. split; [|tauto]. right. left. split; [reflexivity|].
              exists (force_training q). rewrite Ht. split; [reflexivity|exact Hsc].
           ++ unfold slots. apply elem_of_cons. right. apply elem_of_cons. now left.
        -- injection He as ->. unfold lift in Hs. injection Hs as _ Hs.
           eapply slot_invalid in Hs as (-> & Hp & Hn); [|exact Hd|].
           ++ cbn. split; [|tauto]. left. tauto.
           ++ unfold slots. apply elem_of_cons. now left.
      * injection He as ->.
        apply get_statistics_Raise in Hd as [-> | ->]; exact I.
  - injection He as ->. unfold determine_statistics in Hq.
    apply bind_inv in Hq as [(st1 & ft & Ht & H)|(e1 & Ht & He)].
    + apply bind_inv in H as [(st2 & r & Hr & H)|(e1 & Hr & He)]; [discriminate|].
      injection He as ->.
      pose proof (determine_training_type_state _ _ _ Ht) as ->.
      apply determine_rescale_type_Raise in Hr as [->|(-> & Hn & Hen)]; [exact I|].
      cbn. tauto.
    + injection He as ->.
      apply determine_training_type_Raise in Ht as [-> | [-> | ->]]; exact I.
Qed.

Lemma check_global_scale_Raise v st st' e :
  check_global_scale v st = (st', Raise e) ->
  exists y, v = VFloat y /\ PrimFloat.ltb y RESCALE_THRESHOLD = true
            /\ e = ValueError (GlobalScalingVeryLow y).
Proof.
  unfold check_global_scale, raise, pure. destruct v; try discriminate.
  destruct (PrimFloat.ltb x RESCALE_THRESHOLD) eqn:E; [|discriminate].
  intros H. injection H as _ <-. eauto.
Qed.

(** X10. The script's own messages are raised for their reasons only.
    When a run fails with "One can only enable either global shift or
    per_species shift", the global shift is not [None] and per-species
    scale/shift is enabled; with "Cannot have global_scale =
    'dataset_force_rms' without force training", [force_rms] is required and
    force training is off; with "Global energy scaling was very low: y",
    the global scale was resolved to the float [y], below the threshold;
    with "Atomic energy scaling was very low: m", per-species scale/shift
    is enabled and [m], below the threshold, is the least of the resolved
    per-species scales; with "Invalid <role> `v`", [v] is the value the
    configuration gives for that role, it is not [None], a float or a
    tensor, and it is none of the five keys of the statistics mapping. *)
Theorem script_errors_have_their_causes (cfg : gmap string pyval) (e : exn) :
  snd (run cfg) = Raise e -> explained cfg e.
Proof.
  destruct (run cfg) as [st r] eqn:Hrun. cbn. intros ->.
  unfold run, fresh_start in Hrun.
  apply bind_inv in Hrun as [(st1 & [g p] & Hp & H)|(e1 & Hp & He)].
  - apply bind_inv in H as [(st2 & [] & Hs & H)|(e1 & Hs & He)].
    + apply assemble_Raise in H as [->|(k & -> & _)]; exact I.
    + injection He as ->. destruct p as [p|]; [|discriminate].
      apply store_per_species_Raise in Hs as [[-> Hs]|[->|[->|[->| ->]]]];
        try exact I.
      destruct e1 as [|[]| | | | | |]; try contradiction; try exact I.
      cbn. exists st1, g, p. tauto.
  - injection He as ->. unfold resolve_per_species in Hp.
    apply bind_inv in Hp as [(st1 & g & Hg & H)|(e2 & Hg & He)].
    + apply bind_inv in H as [(st2 & [] & Hc & H)|(e3 & Hc & He)].
      * apply bind_inv in H as [(st3 & p & Hv & H)|(e4 & Hv & He)]; [discriminate|].
        injection He as ->.
        apply per_species_values_Raise in Hv as [->|(Ht & Hv)]; [exact I|].
        destruct (resolve_global_Ok _ _ _ Hg) as (st0 & Hq & _ & Hd & _).
        destruct (determine_statistics_Ok _ _ _ Hq) as (_ & _ & Hkeys).
        rewrite Hkeys in Hd.
        destruct (resolve_global_init _ _ _ Hg) as (_ & _ & _ & _ & Hen & Hsc & Hsh & _).
        rewrite Hen in Ht.
        destruct Hv as [Hv|Hv];
          (eapply slot_invalid in Hv as (-> & Hpt & Hn); [|exact Hd|]).
        -- cbn. split; [|tauto]. right. right. split; [exact Ht|]. left. tauto.
        -- unfold slots. rewrite !elem_of_cons. tauto.
        -- cbn. split; [|tauto]. right. right. split; [exact Ht|]. right. tauto.
        -- unfold slots. rewrite !elem_of_cons. tauto.
      * injection He as ->.
        apply check_global_scale_Raise in Hc as (y & Hy & Hlt & ->).
        cbn. eauto.
    + injection He as ->. eapply resolve_global_Raise, Hg.
Qed.

(** *** Missing options *)

Lemma determine_training_type_KeyError st st' k :
  determine_training_type st = (st', Raise (KeyError k)) ->
  k = "loss_coeffs" /\ config st !! "loss_coeffs" = None.
Proof.
  intros H.
  destruct (determine_training_type_Raise _ _ _ H) as [Hk|[Hk|Hk]];
    try discriminate.
  injection Hk as ->. split; [reflexivity|].
  destruct (config st !! "loss_coeffs") as [v|] eqn:Ev; [|reflexivity].
  exfalso. revert H.
  unfold determine_training_type, mbind, M_bind, config_getattr, lift, raise, pure.
  rewrite Ev. destruct (set_of _) as [s|e'] eqn:Es.
  - destruct (negb _); discriminate.
  - intros H. injection H as _ ->.
    destruct (if isinstance_str v then VList (v :: nil) else v)
      as [| | | |s|[x|xs]|l|d]; cbn in Es; try discriminate.
    destruct (forallb hashable l); discriminate.
Qed.

Lemma get_statistics_KeyError keys sigma st st' k :
  get_statistics keys sigma st = (st', Raise (KeyError k)) ->
  k = "dataset_statistics_stride"
  /\ config st !! "dataset_statistics_stride" = None
  /\ exists name mode, name ∈ keys /\ family name = Some mode.
Proof.
  intros H.
  destruct (get_statistics_Raise _ _ _ _ _ H) as [Hk|Hk]; [|discriminate].
  injection Hk as ->. split; [reflexivity|].
  destruct (config st !! "dataset_statistics_stride") as [s|] eqn:Es.
  - exfalso. revert H. unfold get_statistics, mbind, M_bind.
    rewrite force_rms_statistics_eq, Es.
    assert (B : forall d0 l0 st1,
      (let (st2, r) := energy_statistics keys d0 (State (config st) l0) in
       match r with
       | Ok a => per_species_statistics keys sigma a st2
       | Raise e0 => (st2, Raise e0)
       end) <> (st1, Raise (KeyError "dataset_statistics_stride"))).
    { intros d0 l0 st1. rewrite energy_statistics_eq. cbn [config]. rewrite Es.
      assert (B2 : forall d1 l1,
        per_species_statistics keys sigma d1 (State (config st) l1)
        <> (st1, Raise (KeyError "dataset_statistics_stride"))).
      { intros d1 l1. rewrite per_species_statistics_eq. cbn [config]. rewrite Es.
        destruct (decide _) as [H3|H3]; [|discriminate].
        cbv zeta. destruct (unpack2 _) as [[mean std]|e2] eqn:Eu; [discriminate|].
        apply unpack2_Raise in Eu as ->. discriminate. }
      destruct (decide _) as [H2|H2]; [|apply B2].
      destruct (unpack2 _) as [[mean std]|e2] eqn:Eu; [apply B2|].
      apply unpack2_Raise in Eu as ->. discriminate. }
    destruct (decide _) as [H1|H1].
    + destruct (unpack1 _) as [rms|e2] eqn:Eu; [apply B|].
      apply unpack1_Raise in Eu as ->. discriminate.
    + destruct st as [c l]. apply B.
  - split; [reflexivity|]. revert H. unfold get_statistics, mbind, M_bind.
    rewrite force_rms_statistics_eq, Es.
    destruct (decide ("force_rms" ∈ keys)) as [H1|H1];
      [intros _; now exists "force_rms", "rms"|].
    rewrite energy_statistics_eq, Es.
    destruct (decide ("energy_std" ∈ keys ∨ "energy_mean" ∈ keys)) as [H2|H2].
    { intros _. destruct H2 as [H2|H2];
        [now exists "energy_std", "mean_std"|now exists "energy_mean", "mean_std"]. }
    rewrite per_species_statistics_eq, Es.
    destruct (decide ("per_species_energy_std" ∈ keys
                      ∨ "per_species_energy_mean" ∈ keys)) as [H3|H3];
      [|discriminate].
    intros _. destruct H3 as [H3|H3];
      [now exists "per_species_energy_std", "atom_type_mean_std"
      |now exists "per_species_energy_mean", "atom_type_mean_std"].
Qed.

Lemma resolve_global_KeyError cfg st k :
  resolve_global (init cfg) = (st, Raise (KeyError k)) ->
  cfg !! k = None
  /\ (k = "loss_coeffs"
      \/ (k = "dataset_statistics_stride"
          /\ exists st1 q name mode,
               determine_statistics (init cfg) = (st1, Ok q)
               /\ name ∈ keys q /\ family name = Some mode)).
Proof.
  unfold resolve_global. intros H.
  apply bind_inv in H as [(st1 & q & Hq & H)|(e' & Hq & He)].
  - destruct (bool_decide ("force_rms" ∈ keys q) && negb (force_training q));
      [discriminate|].
    destruct (determine_statistics_Ok _ _ _ Hq) as (_ & Hr & _).
    destruct (determine_rescale_type_Ok _ _ _ _ Hr) as (Hst & _).
    apply bind_inv in H as [(st2 & ds & Hd & H)|(e' & Hd & He)].
    + apply bind_inv in H as [(st3 & shift & Hs & H)|(e' & Hs & He)].
      * apply bind_inv in H as [(st4 & scale & Hs' & H)|(e' & Hs' & He)];
          [discriminate|].
        injection He as <-. unfold lift in Hs'. injection Hs' as _ Hs'.
        apply set_value_raise in Hs'. discriminate.
      * injection He as <-. unfold lift in Hs. injection Hs as _ Hs.
        apply set_value_raise in Hs. discriminate.
    + injection He as <-.
      apply get_statistics_KeyError in Hd as (-> & Hn & name & mode & Hk & Hf).
      rewrite Hst in Hn. cbn in Hn. rewrite not_popped_stride in Hn.
      split; [exact Hn|]. right. split; [reflexivity|]. eauto 8.
  - injection He as <-. unfold determine_statistics in Hq.
    apply bind_inv in Hq as [(st1 & ft & Ht & H)|(e1 & Ht & He)].
    + apply bind_inv in H as [(st2 & r & Hr & H)|(e1 & Hr & He)]; [discriminate|].
      injection He as <-.
      apply determine_rescale_type_Raise in Hr as [Hr|(Hr & _)]; discriminate.
    + injection He as <-.
      apply determine_training_type_KeyError in Ht as (-> & Hn).
      split; [exact Hn|]. now left.
Qed.

(** X11. The script's own reads of the configuration fail with a
    [KeyError] only for an option that is absent, and only four options
    can be missed: [loss_coeffs]; [dataset_statistics_stride], when a
    statistic of one of the three families is required; [model_builder]
    and [model_initializers].  A configuration without [loss_coeffs] fails
    so at once, in its initial state.  (What the model builder and the
    initializers raise themselves is [BuilderError] here, whatever it
    is.) *)
Theorem key_errors_name_missing_options (cfg : gmap string pyval) :
  (cfg !! "loss_coeffs" = None ->
   run cfg = (init cfg, Raise (KeyError "loss_coeffs")))
  /\ forall k, snd (run cfg) = Raise (KeyError k) ->
       cfg !! k = None
       /\ (k = "loss_coeffs"
           \/ (k = "dataset_statistics_stride"
               /\ exists st q name mode,
                    determine_statistics (init cfg) = (st, Ok q)
                    /\ name ∈ keys q /\ family name = Some mode)
           \/ k = "model_builder"
           \/ k = "model_initializers").
Proof.
  split.
  - intros Hn. unfold run, fresh_start, resolve_per_species, resolve_global,
      determine_statistics.
    do 4 apply bind_Raise.
    unfold determine_training_type. apply bind_Raise.
    unfold config_getattr, init. cbn. now rewrite Hn.
  - intros k. destruct (run cfg) as [st r] eqn:Hrun. cbn. intros ->.
    assert (Hfr : forall k', k' ∉ popped_keys -> config st !! k' = cfg !! k').
    { intros k' Hk'. pose proof (touches_fresh_start (init cfg) k' Hk') as Ht.
      unfold run in Hrun. now rewrite Hrun in Ht. }
    unfold run, fresh_start in Hrun.
    apply bind_inv in Hrun as [(st1 & [g p] & Hp & H)|(e1 & Hp & He)].
    + apply bind_inv in H as [(st2 & [] & Hs & H)|(e1 & Hs & He)].
      * pose proof (assemble_state g st2) as Hst. rewrite H in Hst. cbn in Hst.
        subst st2.
        apply assemble_Raise in H as [H|(k' & H & Hn & Hk)]; [discriminate|].
        injection H as ->.
        split; [|tauto]. rewrite <- Hfr; [exact Hn|].
        destruct Hk as [-> | ->]; compute_done.
      * injection He as <-. destruct p as [p|]; [|discriminate].
        apply store_per_species_Raise in Hs as [[_ Hs]|[Hs|[Hs|[Hs|Hs]]]];
          try discriminate. contradiction.
    + injection He as <-. unfold resolve_per_species in Hp.
      apply bind_inv in Hp as [(st1 & g & Hg & H)|(e2 & Hg & He)].
      * apply bind_inv in H as [(st2 & [] & Hc & H)|(e3 & Hc & He)].
        -- apply bind_inv in H as [(st3 & p & Hv & H)|(e4 & Hv & He)];
             [discriminate|].
           injection He as <-.
           apply per_species_values_Raise in Hv as [Hv|(_ & [Hv|Hv])];
             [discriminate| |]; apply set_value_raise in Hv; discriminate.
        -- injection He as <-.
           apply check_global_scale_Raise in Hc as (y & _ & _ & Hc). discriminate.
      * injection He as <-.
        destruct (resolve_global_KeyError _ _ _ Hg) as [Hn [Hk|Hk]]; tauto.
Qed.

(** *** What the builder and the rescaling layer are given *)

Lemma assemble_trainable g st st' out :
  assemble g st = (st', Ok out) ->
  trainable_global_rescale_shift out
  = match config st !! "trainable_global_rescale_shift" with
    | Some v => v
    | None => VBool false
    end
  /\ trainable_global_rescale_scale out
     = match config st !! "trainable_global_rescale_scale" with
       | Some v => v
       | None => VBool false
       end.
Proof.
  unfold assemble, mbind, M_bind. rewrite build_core_model_eq.
  destruct (config st !! "model_builder"); [|discriminate].
  destruct (model_builder (config st)) as [m|]; [|discriminate].
  destruct (config st !! "model_initializers"); [|discriminate].
  unfold config_get, pure. intros H. injection H as _ <-. cbn. tauto.
Qed.

(** X18. When a model is assembled, the model builder was called on the
    configuration as the run leaves it, that is after the per-species
    options were consumed and the relative per-species values written, and
    the rescaling layer is told to train its shift and its scale as the
    options [trainable_global_rescale_shift] and
    [trainable_global_rescale_scale] of the initial configuration say,
    [False] when they are absent. *)
Theorem builder_sees_the_final_configuration
    (cfg : gmap string pyval) (st : state) (out : RescaleOutput) :
  run cfg = (st, Ok out) ->
  model_builder (config st) = Some (model out)
  /\ trainable_global_rescale_shift out
     = match cfg !! "trainable_global_rescale_shift" with
       | Some v => v
       | None => VBool false
       end
  /\ trainable_global_rescale_scale out
     = match cfg !! "trainable_global_rescale_scale" with
       | Some v => v
       | None => VBool false
       end.
Proof.
  intros H.
  assert (Hk : forall k, k ∉ popped_keys -> config st !! k = cfg !! k).
  { intros k Hk. pose proof (touches_fresh_start (init cfg) k Hk) as Ht.
    unfold run in H. now rewrite H in Ht. }
  apply fresh_start_Ok in H as (st1 & g & p & _ & _ & Ha).
  destruct (assemble_scale_keys _ _ _ _ Ha) as (_ & Hb & _).
  destruct (assemble_trainable _ _ _ _ Ha) as [Hs Hc].
  rewrite Hk in Hs, Hc by compute_done. tauto.
Qed.

End MoreProperties.

(** ** The command line *)

Lemma or_config_eq flag arg st :
  or_config flag arg st
  = if arg : bool
    then (State (<[flag := VBool true]> (config st)) (calls st), Ok tt)
    else match config st !! flag with
         | Some v => (st, Ok tt)
         | None => (st, Raise (KeyError flag))
         end.
Proof.
  unfold or_config, mbind, M_bind, config_getitem, config_getattr, config_setitem, pure.
  destruct arg; [reflexivity|].
  destruct (config st !! flag) as [v|] eqn:E; [|reflexivity].
  cbn. rewrite insert_id by exact E. now destruct st.
Qed.

Lemma elem_of_flags (k : string) :
  k ∈ flags
  <-> k = "model_debug_mode" \/ k = "equivariance_test" \/ k = "grad_anomaly_mode".
Proof.
  unfold flags. rewrite !elem_of_cons, elem_of_nil. tauto.
Qed.

(** X12. The command line can switch a mode on and never off.  When
    [parse_command_line] returns, each of [model_debug_mode],
    [equivariance_test] and [grad_anomaly_mode] is [True] if its flag was
    given and what the loaded configuration has otherwise, and every other
    option is as loaded.  It fails only for a flag that was not given and
    that the loaded configuration lacks, with the [KeyError] of that
    option. *)
Theorem command_line_flags_switch_on_only
    (a : args.t) (loaded : gmap string pyval) :
  match parse_command_line a loaded with
  | Ok cfg =>
      (forall flag, flag ∈ flags ->
         cfg !! flag = if given a flag then Some (VBool true) else loaded !! flag)
      /\ (forall flag, flag ∈ flags -> is_Some (cfg !! flag))
      /\ (forall k, k ∉ flags -> cfg !! k = loaded !! k)
  | Raise e =>
      exists flag,
        flag ∈ flags /\ given a flag = false /\ loaded !! flag = None
        /\ e = KeyError flag
  end.
Proof.
  destruct a as [path et md ga].
  unfold parse_command_line, merge_flags, mbind, M_bind.
  rewrite or_config_eq. cbn [args.model_debug_mode args.equivariance_test
                              args.grad_anomaly_mode init config calls].
  destruct md; [|destruct (loaded !! "model_debug_mode") as [v1|] eqn:E1];
    cbv beta iota; try rewrite or_config_eq; cbn [init config calls];
    try (exists "model_debug_mode"; repeat split;
         [apply elem_of_flags; tauto|exact E1]; fail).
  all: destruct et;
    [|rewrite ?lookup_insert_ne by discriminate;
      destruct (loaded !! "equivariance_test") as [v2|] eqn:E2];
    cbv beta iota; try rewrite or_config_eq; cbn [init config calls];
    try (exists "equivariance_test"; repeat split;
         [apply elem_of_flags; tauto|exact E2]; fail).
  all: destruct ga;
    [|rewrite ?lookup_insert_ne by discriminate;
      destruct (loaded !! "grad_anomaly_mode") as [v3|] eqn:E3];
    cbv beta iota; cbn [init config calls];
    try (exists "grad_anomaly_mode"; repeat split;
         [apply elem_of_flags; tauto|exact E3]; fail).
  all: split; [|split].
  all: try (intros flag Hf; apply elem_of_flags in Hf as [-> | [-> | ->]]; cbn;
            rewrite ?lookup_insert_eq, ?lookup_insert_ne by discriminate;
            rewrite ?lookup_insert_eq; eauto; fail).
  all: intros k Hk; rewrite elem_of_flags in Hk;
    rewrite ?lookup_insert_ne by (intros <-; tauto); reflexivity.
Qed.

(** ** Callables and the libraries' global options *)

Section GlobalOptionsProperties.

Context `{L : Libraries}.

(** X13. [_load_callable] returns only callables: a callable is returned
    as it is, whatever it is; a string is replaced by what yaml constructs
    for it, and only when that is callable; loading what it returned
    returns the same again.  It raises [TypeError] exactly for what is
    neither callable nor a string. *)
Theorem load_callable_returns_callables (obj : object) :
  match _load_callable obj with
  | Returns f =>
      callable f = true
      /\ _load_callable f = Returns f
      /\ (callable obj = true -> f = obj)
      /\ (callable obj = false ->
          exists s, obj = Value (VStr s)
                    /\ yaml_load ("!!python/name:" +:+ s) = Some f)
  | Raises e =>
      callable obj = false
      /\ (e = Exn TypeError <-> forall s, obj <> Value (VStr s))
  end.
Proof.
  unfold _load_callable.
  destruct obj as [id|v]; cbn.
  - repeat split; discriminate.
  - destruct v as [| | | |s| | |]; cbn;
      try (split; [reflexivity|]; split; [discriminate|reflexivity]).
    destruct (yaml_load _) as [[id|w]|] eqn:E; cbn.
    + repeat split; try discriminate. eauto.
    + split; [reflexivity|]. split; [discriminate|]. intros H. now destruct (H s).
    + split; [reflexivity|]. split; [discriminate|]. intros H. now destruct (H s).
Qed.

(** What the steps of [_set_global_options] come to. *)
Lemma set_tf32_eq config o :
  set_tf32 config o
  = if cuda_is_available && cuda_matmul_allow_tf32 o then
      match config !! "allow_tf32" with
      | None => (o, Raises (Exn (KeyError "allow_tf32")))
      | Some v =>
          match truth v with
          | Raise e => (o, Raises (Exn e))
          | Ok true => (o, Returns tt)
          | Ok false => set_allow_tf32 false o
          end
      end
    else (o, Returns tt).
Proof.
  unfold set_tf32, mbind, G_bind, read, attribute, bool_of, returns.
  destruct cuda_is_available; [|reflexivity].
  destruct (cuda_matmul_allow_tf32 o); [|reflexivity].
  cbn. destruct (config !! "allow_tf32") as [v|]; [|reflexivity].
  now destruct (truth v) as [[|]|e].
Qed.

Lemma set_tf32_flags config o :
  let o' := fst (set_tf32 config o) in
  irreps_debug o' = irreps_debug o
  /\ default_dtype o' = default_dtype o
  /\ detect_anomaly o' = detect_anomaly o
  /\ optimization_defaults o' = optimization_defaults o
  /\ (cuda_matmul_allow_tf32 o' = true -> cuda_matmul_allow_tf32 o = true)
  /\ (cudnn_allow_tf32 o' = true -> cudnn_allow_tf32 o = true)
  /\ (cuda_is_available = false \/ cuda_matmul_allow_tf32 o = false ->
      o' = o).
Proof.
  rewrite set_tf32_eq.
  destruct cuda_is_available, (cuda_matmul_allow_tf32 o) eqn:Em; cbn;
    try (repeat split; try reflexivity; try tauto; intuition congruence).
  destruct (config !! "allow_tf32") as [v|]; cbn;
    [|repeat split; try reflexivity; try tauto; intuition congruence].
  destruct (truth v) as [[|]|e]; cbn;
    repeat split; try reflexivity; try tauto; intuition congruence.
Qed.

Lemma set_debug_mode_eq config o :
  set_debug_mode config o
  = match config !! "model_debug_mode" with
    | None => (o, Raises (Exn (KeyError "model_debug_mode")))
    | Some v =>
        match truth v with
        | Raise e => (o, Raises (Exn e))
        | Ok true => set_irreps_debug true o
        | Ok false => (o, Returns tt)
        end
    end.
Proof.
  unfold set_debug_mode, mbind, G_bind, attribute, bool_of, returns.
  destruct (config !! "model_debug_mode") as [v|]; [|reflexivity].
  now destruct (truth v) as [[|]|e].
Qed.

Lemma set_dtype_eq config o :
  set_dtype config o
  = match config !! "default_dtype" with
    | None => (o, Raises (Exn (KeyError "default_dtype")))
    | Some key =>
        match dtype_table key with
        | Raises e => (o, Raises e)
        | Returns d => set_default_dtype d o
        end
    end.
Proof.
  unfold set_dtype, mbind, G_bind, attribute, of_outcome.
  destruct (config !! "default_dtype") as [v|]; [|reflexivity].
  now destruct (dtype_table v).
Qed.

Lemma set_anomaly_mode_eq config o :
  set_anomaly_mode config o
  = match config !! "grad_anomaly_mode" with
    | None => (o, Raises (Exn (KeyError "grad_anomaly_mode")))
    | Some v =>
        match truth v with
        | Raise e => (o, Raises (Exn e))
        | Ok true => set_detect_anomaly true o
        | Ok false => (o, Returns tt)
        end
    end.
Proof.
  unfold set_anomaly_mode, mbind, G_bind, attribute, bool_of, returns.
  destruct (config !! "grad_anomaly_mode") as [v|]; [|reflexivity].
  now destruct (truth v) as [[|]|e].
Qed.

Lemma dtype_table_Returns key d :
  dtype_table key = Returns d <-> key = VStr (dtype_name d).
Proof.
  unfold dtype_table. split.
  - destruct key as [| | | |s| | |]; cbn; try discriminate.
    destruct (String.eqb_spec s "float32") as [->|]; [intros H; now injection H as <-|].
    destruct (String.eqb_spec s "float64") as [->|]; [intros H; now injection H as <-|].
    discriminate.
  - intros ->. now destruct d.
Qed.

Lemma G_bind_inv {A B : Type} (m : G A) (f : A -> G B) o o2 r :
  (m ≫= f) o = (o2, r) ->
  (exists o1 a, m o = (o1, Returns a) /\ f a o1 = (o2, r))
  \/ (exists e, m o = (o2, Raises e) /\ r = Raises e).
Proof.
  unfold mbind, G_bind. destruct (m o) as [o1 [a|e]]; intros H.
  - left. eauto.
  - right. inversion H; subst. eauto.
Qed.

Lemma tightens_refl o : tightens o o.
Proof. unfold tightens. tauto. Qed.

Lemma tightens_trans o1 o2 o3 : tightens o1 o2 -> tightens o2 o3 -> tightens o1 o3.
Proof.
  unfold tightens. intros (A1 & A2 & A3 & A4 & A5) (B1 & B2 & B3 & B4 & B5).
  repeat split; auto.
  intros H. assert (H2 : cuda_matmul_allow_tf32 o2 = false).
  { destruct (cuda_matmul_allow_tf32 o2); [|reflexivity].
    rewrite A1 in H by reflexivity. discriminate. }
  now rewrite B3, A3.
Qed.

Lemma tightens_bind {A B : Type} (m : G A) (f : A -> G B) :
  (forall o, tightens o (fst (m o))) ->
  (forall a o, tightens o (fst (f a o))) ->
  forall o, tightens o (fst ((m ≫= f) o)).
Proof.
  intros Hm Hf o. unfold mbind, G_bind. specialize (Hm o).
  destruct (m o) as [o1 [a|e]]; [|exact Hm].
  eapply tightens_trans; [exact Hm|apply Hf].
Qed.

Lemma tightens_set_tf32 config o : tightens o (fst (set_tf32 config o)).
Proof.
  destruct (set_tf32_flags config o) as (H1 & _ & H3 & _ & H5 & H6 & H7).
  unfold tightens. repeat split; auto.
  - intros H. now rewrite H7 by tauto.
  - intros H. now rewrite H1.
  - intros H. now rewrite H3.
Qed.

Lemma tightens_set_debug_mode config o : tightens o (fst (set_debug_mode config o)).
Proof.
  rewrite set_debug_mode_eq. destruct (config !! "model_debug_mode") as [v|];
    [|apply tightens_refl].
  destruct (truth v) as [[|]|e]; try apply tightens_refl.
  unfold tightens. cbn. tauto.
Qed.

Lemma tightens_set_dtype config o : tightens o (fst (set_dtype config o)).
Proof.
  rewrite set_dtype_eq. destruct (config !! "default_dtype") as [v|];
    [|apply tightens_refl].
  destruct (dtype_table v) as [d|e]; [|apply tightens_refl].
  unfold tightens. cbn. tauto.
Qed.

Lemma tightens_set_anomaly_mode config o :
  tightens o (fst (set_anomaly_mode config o)).
Proof.
  rewrite set_anomaly_mode_eq. destruct (config !! "grad_anomaly_mode") as [v|];
    [|apply tightens_refl].
  destruct (truth v) as [[|]|e]; try apply tightens_refl.
  unfold tightens. cbn. tauto.
Qed.

Lemma tightens_set_e3nn_defaults config o :
  tightens o (fst (set_e3nn_defaults config o)).
Proof.
  unfold set_e3nn_defaults, set_optimization_defaults.
  destruct (match config !! "e3nn_optimization_defaults" with
            | Some v => v | None => VDict nil end);
    try apply tightens_refl.
  unfold tightens. cbn. tauto.
Qed.

(** X14. Whatever the configuration says and whether it succeeds or
    fails, [_set_global_options] loosens nothing: it never switches TF32
    on, neither for [matmul] nor for cudnn, and never switches the irreps
    debug mode or the anomaly detection off.  When TF32 is off for
    [matmul] at the start, the switch of cudnn is left as it is, on
    included, also when the configuration does not allow TF32. *)
Theorem global_options_only_tighten (config : gmap string pyval) (o : options) :
  tightens o (fst (_set_global_options config o)).
Proof.
  unfold _set_global_options.
  apply tightens_bind; [apply tightens_set_tf32|intros _].
  apply tightens_bind; [apply tightens_set_debug_mode|intros _].
  apply tightens_bind; [apply tightens_set_dtype|intros _].
  apply tightens_bind; [apply tightens_set_anomaly_mode|intros _].
  apply tightens_set_e3nn_defaults.
Qed.

Lemma set_tf32_Returns config o o' :
  set_tf32 config o = (o', Returns tt) ->
  irreps_debug o' = irreps_debug o
  /\ default_dtype o' = default_dtype o
  /\ detect_anomaly o' = detect_anomaly o
  /\ optimization_defaults o' = optimization_defaults o
  /\ if cuda_is_available && cuda_matmul_allow_tf32 o
     then exists allow,
            option_truth config "allow_tf32" allow
            /\ cuda_matmul_allow_tf32 o' = allow
            /\ cudnn_allow_tf32 o' = allow && cudnn_allow_tf32 o
     else cuda_matmul_allow_tf32 o' = cuda_matmul_allow_tf32 o
          /\ cudnn_allow_tf32 o' = cudnn_allow_tf32 o.
Proof.
  rewrite set_tf32_eq.
  destruct (cuda_is_available && cuda_matmul_allow_tf32 o) eqn:Ec.
  - destruct (config !! "allow_tf32") as [v|] eqn:Ev; [|discriminate].
    destruct (truth v) as [[|]|e] eqn:Et; [| |discriminate].
    + intros H. injection H as <-. repeat split.
      exists true. unfold option_truth. apply andb_prop in Ec as [_ Ec]. eauto 6.
    + intros H. injection H as <-. cbn. repeat split.
      exists false. unfold option_truth. eauto 6.
  - intros H. injection H as <-. tauto.
Qed.

Lemma set_debug_mode_Returns config o o' :
  set_debug_mode config o = (o', Returns tt) ->
  exists debug,
    option_truth config "model_debug_mode" debug
    /\ irreps_debug o' = debug || irreps_debug o
    /\ cuda_matmul_allow_tf32 o' = cuda_matmul_allow_tf32 o
    /\ cudnn_allow_tf32 o' = cudnn_allow_tf32 o
    /\ default_dtype o' = default_dtype o
    /\ detect_anomaly o' = detect_anomaly o
    /\ optimization_defaults o' = optimization_defaults o.
Proof.
  rewrite set_debug_mode_eq. unfold option_truth.
  destruct (config !! "model_debug_mode") as [v|]; [|discriminate].
  destruct (truth v) as [[|]|e] eqn:Et; [| |discriminate];
    intros H; injection H as <-; eexists; (split; [eauto|]); cbn; tauto.
Qed.

Lemma set_dtype_Returns config o o' :
  set_dtype config o = (o', Returns tt) ->
  exists d,
    config !! "default_dtype" = Some (VStr (dtype_name d))
    /\ default_dtype o' = d
    /\ cuda_matmul_allow_tf32 o' = cuda_matmul_allow_tf32 o
    /\ cudnn_allow_tf32 o' = cudnn_allow_tf32 o
    /\ irreps_debug o' = irreps_debug o
    /\ detect_anomaly o' = detect_anomaly o
    /\ optimization_defaults o' = optimization_defaults o.
Proof.
  rewrite set_dtype_eq.
  destruct (config !! "default_dtype") as [v|]; [|discriminate].
  destruct (dtype_table v) as [d|e] eqn:Ed; [|discriminate].
  apply dtype_table_Returns in Ed as ->.
  intros H. injection H as <-. exists d. cbn. tauto.
Qed.

Lemma set_anomaly_mode_Returns config o o' :
  set_anomaly_mode config o = (o', Returns tt) ->
  exists anomaly,
    option_truth config "grad_anomaly_mode" anomaly
    /\ detect_anomaly o' = anomaly || detect_anomaly o
    /\ cuda_matmul_allow_tf32 o' = cuda_matmul_allow_tf32 o
    /\ cudnn_allow_tf32 o' = cudnn_allow_tf32 o
    /\ irreps_debug o' = irreps_debug o
    /\ default_dtype o' = default_dtype o
    /\ optimization_defaults o' = optimization_defaults o.
Proof.
  rewrite set_anomaly_mode_eq. unfold option_truth.
  destruct (config !! "grad_anomaly_mode") as [v|]; [|discriminate].
  destruct (truth v) as [[|]|e] eqn:Et; [| |discriminate];
    intros H; injection H as <-; eexists; (split; [eauto|]); cbn; tauto.
Qed.

Lemma set_e3nn_defaults_Returns config o o' :
  set_e3nn_defaults config o = (o', Returns tt) ->
  exists kwargs,
    match config !! "e3nn_optimization_defaults" with
    | Some v => v
    | None => VDict nil
    end = VDict kwargs
    /\ e3nn_accepts kwargs = true
    /\ optimization_defaults o' = kwargs :: optimization_defaults o
    /\ cuda_matmul_allow_tf32 o' = cuda_matmul_allow_tf32 o
    /\ cudnn_allow_tf32 o' = cudnn_allow_tf32 o
    /\ irreps_debug o' = irreps_debug o
    /\ default_dtype o' = default_dtype o
    /\ detect_anomaly o' = detect_anomaly o.
Proof.
  unfold set_e3nn_defaults, set_optimization_defaults.
  destruct (match config !! "e3nn_optimization_defaults" with
            | Some v => v | None => VDict nil end) as [| | | | | | |d];
    try discriminate.
  destruct (e3nn_accepts d) eqn:Ea; [|discriminate].
  intros H. injection H as <-. exists d. cbn. tauto.
Qed.

(** X15. When [_set_global_options] returns, the libraries are as the
    configuration asks: the default dtype is the one [default_dtype]
    names, [float32] or [float64]; the irreps debug mode and the anomaly
    detection are on when [model_debug_mode] and [grad_anomaly_mode] are
    true, and as they were otherwise; e3nn was given the keywords of
    [e3nn_optimization_defaults] (none when absent) and accepted them; and
    with CUDA and TF32 on for [matmul], TF32 stays on, for both switches,
    exactly when [allow_tf32] is true.  Without CUDA, or with TF32 off for
    [matmul], the two switches are as they were. *)
Theorem global_options_as_configured
    (config : gmap string pyval) (o o' : options) :
  _set_global_options config o = (o', Returns tt) ->
  exists debug anomaly d kwargs,
    option_truth config "model_debug_mode" debug
    /\ option_truth config "grad_anomaly_mode" anomaly
    /\ config !! "default_dtype" = Some (VStr (dtype_name d))
    /\ match config !! "e3nn_optimization_defaults" with
       | Some v => v
       | None => VDict nil
       end = VDict kwargs
    /\ e3nn_accepts kwargs = true
    /\ irreps_debug o' = debug || irreps_debug o
    /\ default_dtype o' = d
    /\ detect_anomaly o' = anomaly || detect_anomaly o
    /\ optimization_defaults o' = kwargs :: optimization_defaults o
    /\ if cuda_is_available && cuda_matmul_allow_tf32 o
       then exists allow,
              option_truth config "allow_tf32" allow
              /\ cuda_matmul_allow_tf32 o' = allow
              /\ cudnn_allow_tf32 o' = allow && cudnn_allow_tf32 o
       else cuda_matmul_allow_tf32 o' = cuda_matmul_allow_tf32 o
            /\ cudnn_allow_tf32 o' = cudnn_allow_tf32 o.
Proof.
  unfold _set_global_options. intros H.
  apply G_bind_inv in H as [(o1 & [] & H1 & H)|(e & _ & He)]; [|discriminate].
  apply G_bind_inv in H as [(o2 & [] & H2 & H)|(e & _ & He)]; [|discriminate].
  apply G_bind_inv in H as [(o3 & [] & H3 & H)|(e & _ & He)]; [|discriminate].
  apply G_bind_inv in H as [(o4 & [] & H4 & H)|(e & _ & He)]; [|discriminate].
  apply set_tf32_Returns in H1 as (A1 & A2 & A3 & A4 & A5).
  apply set_debug_mode_Returns in H2 as (debug & Hd & B1 & B2 & B3 & B4 & B5 & B6).
  apply set_dtype_Returns in H3 as (d & Hdt & C1 & C2 & C3 & C4 & C5 & C6).
  apply set_anomaly_mode_Returns in H4 as (anomaly & Ha & D1 & D2 & D3 & D4 & D5 & D6).
  apply set_e3nn_defaults_Returns in H as (kwargs & Hk & Hacc & E1 & E2 & E3 & E4 & E5 & E6).
  exists debug, anomaly, d, kwargs.
  repeat (split; [first [assumption | congruence]|]).
  destruct (cuda_is_available && cuda_matmul_allow_tf32 o).
  - destruct A5 as (allow & Hal & F1 & F2). exists allow.
    split; [exact Hal|]. split; congruence.
  - destruct A5 as [F1 F2]. split; congruence.
Qed.

(** X16. A [default_dtype] that is absent or names neither [float32] nor
    [float64] makes [_set_global_options] fail; the default dtype, the
    anomaly detection and e3nn's defaults are then as they were, e3nn not
    having been called. *)
Theorem unknown_default_dtype_fails (config : gmap string pyval) (o : options) :
  (forall d, config !! "default_dtype" <> Some (VStr (dtype_name d))) ->
  let o' := fst (_set_global_options config o) in
  (exists e, snd (_set_global_options config o) = Raises e)
  /\ default_dtype o' = default_dtype o
  /\ detect_anomaly o' = detect_anomaly o
  /\ optimization_defaults o' = optimization_defaults o.
Proof.
  intros Hn. unfold _set_global_options, mbind, G_bind.
  destruct (set_tf32_flags config o) as (_ & A2 & A3 & A4 & _).
  destruct (set_tf32 config o) as [o1 [[]|e]]; cbn in A2, A3, A4;
    [|cbn; eauto].
  destruct (set_debug_mode config o1) as [o2 [[]|e]] eqn:H2.
  - apply set_debug_mode_Returns in H2 as (_ & _ & _ & _ & _ & B4 & B5 & B6).
    rewrite set_dtype_eq.
    destruct (config !! "default_dtype") as [v|] eqn:Ev.
    + destruct (dtype_table v) as [d|e] eqn:Ed.
      * apply dtype_table_Returns in Ed as ->. now destruct (Hn d).
      * cbn. split; [eauto|]. repeat split; congruence.
    + cbn. split; [eauto|]. repeat split; congruence.
  - rewrite set_debug_mode_eq in H2.
    destruct (config !! "model_debug_mode") as [v|];
      [destruct (truth v) as [[|]|e']|]; try discriminate;
      injection H2 as <- _; cbn; eauto.
Qed.

Lemma set_tf32_ext config config' o :
  (cuda_is_available = true -> cuda_matmul_allow_tf32 o = true ->
   config !! "allow_tf32" = config' !! "allow_tf32") ->
  set_tf32 config o = set_tf32 config' o.
Proof.
  intros H. rewrite !set_tf32_eq.
  destruct cuda_is_available; [|reflexivity].
  destruct (cuda_matmul_allow_tf32 o); [|reflexivity].
  cbn. now rewrite H.
Qed.

(** X17. [_set_global_options] reads four options of the configuration,
    [model_debug_mode], [default_dtype], [grad_anomaly_mode] and
    [e3nn_optimization_defaults], and besides them [allow_tf32], which it
    reads only when CUDA is available and TF32 is on for [matmul]: two
    configurations that agree there give the same result and the same
    state of the libraries.  So without CUDA [allow_tf32] need not even be
    there. *)
Theorem global_options_read
    (config config' : gmap string pyval) (o : options) :
  (forall k, k ∈ read_keys -> config !! k = config' !! k) ->
  (cuda_is_available = true -> cuda_matmul_allow_tf32 o = true ->
   config !! "allow_tf32" = config' !! "allow_tf32") ->
  _set_global_options config o = _set_global_options config' o.
Proof.
  intros Hk Ha. unfold read_keys in Hk.
  assert (H1 : config !! "model_debug_mode" = config' !! "model_debug_mode").
  { apply Hk. rewrite !elem_of_cons. tauto. }
  assert (H2 : config !! "default_dtype" = config' !! "default_dtype").
  { apply Hk. rewrite !elem_of_cons. tauto. }
  assert (H3 : config !! "grad_anomaly_mode" = config' !! "grad_anomaly_mode").
  { apply Hk. rewrite !elem_of_cons. tauto. }
  assert (H4 : config !! "e3nn_optimization_defaults"
               = config' !! "e3nn_optimization_defaults").
  { apply Hk. rewrite !elem_of_cons. tauto. }
  unfold _set_global_options, mbind, G_bind.
  rewrite (set_tf32_ext config config') by exact Ha.
  destruct (set_tf32 config' o) as [o1 [[]|e]]; [|reflexivity].
  rewrite !set_debug_mode_eq, H1.
  destruct (match config' !! "model_debug_mode" with
            | Some v => _ | None => _ end) as [o2 [[]|e]]; [|reflexivity].
  rewrite !set_dtype_eq, H2.
  destruct (match config' !! "default_dtype" with
            | Some v => _ | None => _ end) as [o3 [[]|e]]; [|reflexivity].
  rewrite !set_anomaly_mode_eq, H3.
  destruct (match config' !! "grad_anomaly_mode" with
            | Some v => _ | None => _ end) as [o4 [[]|e]]; [|reflexivity].
  unfold set_e3nn_defaults. now rewrite H4.
Qed.

End GlobalOptionsProperties.

(** ** The further properties on the sample inputs *)

Lemma force_training_iff_forces_witness :
  (true = true <-> names_field (VStr "forces") "forces")
  /\ init sample_config = init sample_config.
Proof.
  apply (force_training_iff_forces (init sample_config) (init sample_config) true
           (VStr "forces")).
  - reflexivity.
  - reflexivity.
Defined.

Lemma assembled_scale_and_shift_witness :
  measured (W := sample) sample_config "dataset_energy_mean" = Some (VFloat (-3))
  /\ measured (W := sample) sample_config "dataset_force_rms" = Some (VFloat 2.5).
Proof.
  edestruct (assembled_scale_and_shift (W := sample) sample_config)
    as (ft & Hft & Hshift & Hscale & _).
  - vm_compute. reflexivity.
  - vm_compute in Hft. injection Hft as <-.
    split; [exact Hshift|exact Hscale].
Defined.

Lemma per_species_options_consumed_witness :
  config (fst (run (W := sample) per_species_config)) !! "per_species_scale_shift_scales"
  = None
  /\ is_Some (config (fst (run (W := sample) per_species_config))
              !! "PerSpeciesScaleShift_scales")
  /\ config (fst (run (W := sample) per_species_config)) !! "loss_coeffs"
     = Some (VStr "forces").
Proof.
  edestruct (per_species_options_consumed (W := sample) per_species_config)
    as (enabled & He & Hk & Hs & _ & _ & _ & Hs' & _).
  - vm_compute. reflexivity.
  - vm_compute in He. injection He as <-.
    split; [exact Hs|]. split; [now apply Hs'|].
    rewrite Hk; [reflexivity|]. vm_compute. 
    repeat (apply not_elem_of_cons; split; [discriminate|]). apply not_elem_of_nil.
Defined.

Lemma other_options_untouched_witness :
  config (fst (run (W := sample) conflict_config)) !! "per_species_scale_shift_enable"
  = Some (VBool true).
Proof.
  rewrite (other_options_untouched (W := sample) conflict_config
             "per_species_scale_shift_enable").
  - reflexivity.
  - unfold popped_keys.
    repeat (apply not_elem_of_cons; split; [discriminate|]). apply not_elem_of_nil.
Defined.

Lemma statistics_calls_as_configured_witness :
  expected_call (W := sample) sample_config
    (StatCall ("forces" :: nil) ("rms" :: nil) (VInt 1) nil).
Proof.
  apply (statistics_calls_as_configured (W := sample) sample_config).
  vm_compute. apply elem_of_cons. right. apply elem_of_cons. left. reflexivity.
Defined.

Lemma missing_stride_fails_before_any_pass_witness :
  snd (run (W := sample) no_stride_config)
  = Raise (KeyError "dataset_statistics_stride")
  /\ calls (fst (run (W := sample) no_stride_config)) = nil.
Proof.
  edestruct (missing_stride_fails_before_any_pass (W := sample) no_stride_config)
    as [H Hc].
  - vm_compute. reflexivity.
  - reflexivity.
  - instantiate (1 := "force_rms"). vm_compute. reflexivity.
  - reflexivity.
  - reflexivity.
  - split; [now rewrite H|exact Hc].
Defined.

Lemma float_per_species_scales_fail_witness :
  snd (run (W := sample) float_scales_config) = Raise TypeError
  /\ config (fst (run (W := sample) float_scales_config))
     !! "PerSpeciesScaleShift_scales" = None.
Proof.
  edestruct (float_per_species_scales_fail (W := sample) float_scales_config)
    as (_ & H & Hc).
  - vm_compute. reflexivity.
  - reflexivity.
  - split; [now rewrite H|]. rewrite H. cbn [fst]. 
    etransitivity; [exact (f_equal (fun c => c !! "PerSpeciesScaleShift_scales") Hc)|].
    reflexivity.
Defined.

Lemma script_errors_have_their_causes_witness :
  explained (W := sample) hyphen_config
    (ValueError (Invalid "global_scale" (VStr "dataset-force_rms"))).
Proof.
  apply (script_errors_have_their_causes (W := sample) hyphen_config).
  reflexivity.
Defined.

Lemma builder_sees_the_final_configuration_witness :
  exists st out,
    run (W := sample) sample_config = (st, Ok out)
    /\ trainable_global_rescale_shift out = VBool false
    /\ trainable_global_rescale_scale out = VBool false.
Proof.
  eexists. eexists. split; [vm_compute; reflexivity|].
  edestruct (builder_sees_the_final_configuration (W := sample) sample_config)
    as (_ & Hs & Hc).
  - vm_compute. reflexivity.
  - split; [exact Hs|exact Hc].
Defined.

Lemma global_options_as_configured_witness :
  exists allow,
    option_truth default_options_config "allow_tf32" allow
    /\ cuda_matmul_allow_tf32
         (fst (_set_global_options (L := cuda_libraries) default_options_config tf32_on))
       = allow.
Proof.
  edestruct (global_options_as_configured (L := cuda_libraries)
               default_options_config tf32_on)
    as (debug & anomaly & d & kwargs & _ & _ & _ & _ & _ & _ & _ & _ & _
        & allow & Ha & Hm & _).
  - vm_compute. reflexivity.
  - exists allow. split; [exact Ha|exact Hm].
Defined.

Lemma unknown_default_dtype_fails_witness :
  (exists e, snd (_set_global_options (L := sample_libraries) float16_config
                    torch_defaults) = Raises e)
  /\ default_dtype (fst (_set_global_options (L := sample_libraries) float16_config
                           torch_defaults)) = float32.
Proof.
  destruct (unknown_default_dtype_fails (L := sample_libraries) float16_config
              torch_defaults) as (He & Hd & _).
  - intros [|]; vm_compute; discriminate.
  - split; [exact He|exact Hd].
Defined.

Lemma global_options_read_witness :
  _set_global_options (L := sample_libraries) default_options_config torch_defaults
  = _set_global_options (L := sample_libraries)
      (delete "allow_tf32" default_options_config) torch_defaults.
Proof.
  apply (global_options_read (L := sample_libraries)).
  - intros k Hk. unfold read_keys in Hk. rewrite !elem_of_cons in Hk.
    destruct Hk as [-> | [-> | [-> | [-> | Hk]]]];
      [reflexivity|reflexivity|reflexivity|reflexivity|].
    now apply elem_of_nil in Hk.
  - discriminate.
Defined.
